(** * Background-removal scripts (RMBG-V1 / RMBG-2.0): a shallow embedding

    The Python sources modelled here are
      - [python/rmbg_inference.py]   (module [V1]),
      - [python/rmbg2_inference.py]  (module [V2]),
      - [python/test_rmbg.py]        (module [TestV1]),
      - [python/test_rmbg2.py]       (module [TestV2]).

    Calls into wrapped libraries (torch, transformers, onnxruntime, requests,
    the image codecs, resampling and Gaussian filtering) are taken from an
    environment record; everything the scripts compute themselves
    (thresholding, Sobel edge blending, path handling, control flow, error
    handling, file writes) is written out. *)

From Stdlib Require Import ZArith String Ascii List Bool Lia Floats Uint63.
From stdpp Require Import base option list strings pretty gmap.

Local Open Scope string_scope.
Local Open Scope Z_scope.

(** ** Python run-time: exceptions, process outcome, observable world *)

Module Py.

(** The [Exception] subclasses the scripts can meet.  [UnboundLocalError] is
    a subclass of [NameError]; [LibraryError] stands for any other
    [Exception] raised inside a wrapped library. *)
Inductive exn : Type :=
| ImportError (msg : string)
| UnboundLocalError (msg : string)
| FileNotFoundError (msg : string)
| ValueError (msg : string)
| TypeError (msg : string)
| IndexError (msg : string)
| HTTPError (msg : string)
| LibraryError (msg : string).

(** [str(e)] *)
Definition str_exn (e : exn) : string :=
  match e with
  | ImportError m | UnboundLocalError m | FileNotFoundError m
  | ValueError m | TypeError m | IndexError m | HTTPError m
  | LibraryError m => m
  end.

(** [isinstance(e, NameError)] *)
Definition is_NameError (e : exn) : bool :=
  match e with UnboundLocalError _ => true | _ => false end.

(** How a call ends: a value, an [Exception] in flight, or [SystemExit]
    (raised by [sys.exit]; it derives from [BaseException], so
    [except Exception] does not catch it). *)
Inductive outcome (A : Type) : Type :=
| Ret (a : A)
| Raise (e : exn)
| SysExit (code : Z).
Arguments Ret {A} a.
Arguments Raise {A} e.
Arguments SysExit {A} code.

(** Exit status of the interpreter when the script's top level ends this
    way: 0 on normal return, the [sys.exit] argument, 1 with a traceback for
    an uncaught exception. *)
Definition exit_status {A : Type} (r : outcome A) : Z :=
  match r with
  | Ret _ => 0
  | Raise _ => 1
  | SysExit c => c
  end.

(** PIL image modes used by the scripts. *)
Inductive mode : Type := M1 | L | LA | RGB | RGBA.

Definition mode_eqb (a b : mode) : bool :=
  match a, b with
  | M1, M1 | L, L | LA, LA | RGB, RGB | RGBA, RGBA => true
  | _, _ => false
  end.

(** A 2-D [uint8] numpy array, row by row. *)
Abbreviation array2 := (list (list Z)).

(** A PIL image: mode, [size = (width, height)] and the pixel buffer (rows
    of 8-bit samples, bands interleaved).  For mode [L] the buffer is
    exactly [np.array(image)]. *)
Record Image : Type := {
  im_mode : mode;
  im_size : nat * nat;
  im_px : array2
}.

(** What a file on disk holds. *)
Inductive content : Type :=
| Raw (bytes : string)
| Encoded (format : string) (im : Image).

(** Calls into the outside world that the properties refer to. *)
Inductive event : Type :=
| EvHttpGet (url : string)
| EvFileOpen (path : string)
| EvModelRun (model : string).

Record world : Type := {
  stdout : list string;
  files : gmap string content;
  dirs : gset string;
  trace : list event
}.

(** Computations of the scripts: state passing over [world], ending in an
    [outcome]. *)
Definition M (A : Type) : Type := world -> outcome A * world.

Definition ret {A : Type} (a : A) : M A := fun w => (Ret a, w).

Definition bind {A B : Type} (m : M A) (k : A -> M B) : M B :=
  fun w =>
    match m w with
    | (Ret a, w') => k a w'
    | (Raise e, w') => (Raise e, w')
    | (SysExit c, w') => (SysExit c, w')
    end.

Definition raise {A : Type} (e : exn) : M A := fun w => (Raise e, w).

(** [sys.exit(code)] *)
Definition sys_exit {A : Type} (code : Z) : M A := fun w => (SysExit code, w).

(** [try: body  except Exception as e: handler(e)] *)
Definition try_except {A : Type} (body : M A) (handler : exn -> M A) : M A :=
  fun w =>
    match body w with
    | (Raise e, w') => handler e w'
    | r => r
    end.

(** Result of a library call, lifted into the script. *)
Definition lift {A : Type} (r : exn + A) : M A :=
  match r with
  | inl e => raise e
  | inr a => ret a
  end.

(** The world after one more printed line, respectively one more call to
    the outside. *)
Definition with_line (w : world) (line : string) : world :=
  {| stdout := stdout w ++ [line]; files := files w; dirs := dirs w; trace := trace w |}.

Definition with_event (w : world) (ev : event) : world :=
  {| stdout := stdout w; files := files w; dirs := dirs w; trace := trace w ++ [ev] |}.

(** [print(line)] *)
Definition print (line : string) : M unit := fun w => (Ret tt, with_line w line).

Definition log_event (ev : event) : M unit := fun w => (Ret tt, with_event w ev).

(** How a library call's result ends the computation that makes it. *)
Definition outcome_of {A : Type} (r : exn + A) : outcome A :=
  match r with
  | inl e => Raise e
  | inr a => Ret a
  end.

(** Whether the path names a file or a directory of the world. *)
Definition path_exists (w : world) (p : string) : bool :=
  bool_decide (is_Some (files w !! p)) || bool_decide (p ∈ dirs w).

(** [os.path.exists], [os.path.isfile] *)
Definition os_path_exists (p : string) : M bool :=
  fun w => (Ret (path_exists w p), w).

Definition os_path_isfile (p : string) : M bool :=
  fun w => (Ret (bool_decide (is_Some (files w !! p))), w).

(** Writing a regular file (the last step of [Image.save]). *)
Definition write_file (p : string) (c : content) : M unit :=
  fun w => (Ret tt, {| stdout := stdout w; files := <[p := c]> (files w);
                       dirs := dirs w; trace := trace w |}).

Definition set_dirs (d : gset string) : M unit :=
  fun w => (Ret tt, {| stdout := stdout w; files := files w;
                       dirs := d; trace := trace w |}).

Definition get_world : M world := fun w => (Ret w, w).

(** *** Specification vocabulary for computations *)

(** [m] only moves the world along the relation [R]. *)
Definition preserves (R : world -> world -> Prop) {A : Type} (m : M A) : Prop :=
  forall (w w' : world) (r : outcome A), m w = (r, w') -> R w w'.

(** The files on disk, respectively the trace of outside calls, are the
    same in both worlds. *)
Definition same_files (w w' : world) : Prop := files w' = files w.
Definition same_trace (w w' : world) : Prop := trace w' = trace w.

(** Outside the paths [ps], the files on disk are the same in both
    worlds. *)
Definition same_files_outside (ps : list string) (w w' : world) : Prop :=
  forall p : string, ~ In p ps -> files w' !! p = files w !! p.


(** Every [sys.exit] that can end [m] has a code satisfying [P]. *)
Definition exits_only_with {A : Type} (P : Z -> Prop) (m : M A) : Prop :=
  forall (w w' : world) (c : Z), m w = (SysExit c, w') -> P c.

End Py.

Import Py.

Declare Scope py_scope.
Delimit Scope py_scope with py.
Notation "'do' x <- m ; k" := (Py.bind m (fun x => k))
  (at level 10, x name, m at level 100, k at level 200) : py_scope.
Notation "'do' ' p <- m ; k" := (Py.bind m (fun x => match x with p => k end))
  (at level 10, p pattern, m at level 100, k at level 200) : py_scope.
Notation "m ;; k" := (Py.bind m (fun _ => k))
  (at level 100, k at level 200, right associativity) : py_scope.
Local Open Scope py_scope.

(** ** Strings and [os.path] (POSIX flavour) *)

Module Path.

Fixpoint str_take (n : nat) (s : string) : string :=
  match n, s with
  | S n', String c s' => String c (str_take n' s')
  | _, _ => EmptyString
  end.

Fixpoint str_drop (n : nat) (s : string) : string :=
  match n, s with
  | S n', String _ s' => str_drop n' s'
  | _, _ => s
  end.

(** [s.rfind(c)] for a one-character needle: the last index of [c], or -1.
    [i] is the index of the head of [s], [acc] the last hit so far. *)
Fixpoint rfind_from (c : ascii) (s : string) (i acc : Z) : Z :=
  match s with
  | EmptyString => acc
  | String a s' => rfind_from c s' (i + 1) (if Ascii.eqb a c then i else acc)
  end.

Definition rfind (c : ascii) (s : string) : Z := rfind_from c s 0 (-1).

(** [s.startswith(('http://', 'https://'))] *)
Definition is_url (s : string) : bool :=
  String.prefix "http://" s || String.prefix "https://" s.

(** [s.lower()] on ASCII letters. *)
Definition lower_ascii (c : ascii) : ascii :=
  let n := nat_of_ascii c in
  if (65 <=? n)%nat && (n <=? 90)%nat then ascii_of_nat (n + 32) else c.

Fixpoint lower (s : string) : string :=
  match s with
  | EmptyString => EmptyString
  | String c s' => String (lower_ascii c) (lower s')
  end.

Definition is_empty (s : string) : bool :=
  match s with EmptyString => true | _ => false end.

(** The loop of [genericpath._splitext] that skips leading dots of the file
    name: [true] when a character other than the dot is met before
    [dotIndex]. *)
Fixpoint has_name_before_dot (fuel : nat) (p : string) (filenameIndex dotIndex : Z) : bool :=
  match fuel with
  | O => false
  | S fuel' =>
      if filenameIndex <? dotIndex then
        if negb (String.eqb (str_take 1 (str_drop (Z.to_nat filenameIndex) p)) ".")
        then true
        else has_name_before_dot fuel' p (filenameIndex + 1) dotIndex
      else false
  end.

(** [os.path.splitext(p)] *)
Definition splitext (p : string) : string * string :=
  let sepIndex := rfind "/" p in
  let dotIndex := rfind "." p in
  if (sepIndex <? dotIndex)
     && has_name_before_dot (Z.to_nat (dotIndex - (sepIndex + 1))) p (sepIndex + 1) dotIndex
  then (str_take (Z.to_nat dotIndex) p, str_drop (Z.to_nat dotIndex) p)
  else (p, EmptyString).

(** [s.rstrip('/')] *)
Fixpoint rstrip_sep (s : string) : string :=
  match s with
  | EmptyString => EmptyString
  | String c s' =>
      match rstrip_sep s' with
      | EmptyString => if Ascii.eqb c "/" then EmptyString else String c EmptyString
      | r => String c r
      end
  end.

(** [os.path.dirname(p)] *)
Definition dirname (p : string) : string :=
  let i := rfind "/" p + 1 in
  let head := str_take (Z.to_nat i) p in
  if negb (is_empty head) && negb (is_empty (rstrip_sep head))
  then rstrip_sep head
  else head.

End Path.

(** ** numpy / scipy.ndimage / PIL operations on 8-bit arrays *)

Module Np.

(** [Image.fromarray(a)] for a 2-D [uint8] array: mode [L],
    [size = (a.shape[1], a.shape[0])]. *)
Definition fromarray (a : array2) : Image :=
  {| im_mode := L;
     im_size := (length (hd [] a), length a);
     im_px := a |}.

(** [np.array(mask)] for a mode-[L] image. *)
Definition np_array (mask : Image) : array2 := im_px mask.

(** [a[i, j]], when the index is inside the array. *)
Definition pixel_at (a : array2) (i j : nat) : option Z :=
  match a !! i with
  | Some row => row !! j
  | None => None
  end.

(** The array of [h] rows and [w] columns filled with [c]
    ([np.full((h, w), c)]). *)
Definition uniform {A : Type} (h w : nat) (c : A) : list (list A) :=
  repeat (repeat c w) h.

(** [x.astype(np.uint8)] on integers: numpy wraps modulo 256. *)
Definition astype_uint8 (v : Z) : Z := v mod 256.

(** A [uint8] sample widened to [float64] for a comparison with a Python
    float (exact). *)
Definition pixel_to_float (p : Z) : float := PrimFloat.of_uint63 (Uint63.of_Z p).

(** [np.where(a >= cutoff, 255, 0).astype(np.uint8)] *)
Definition where_ge (a : array2) (cutoff : float) : array2 :=
  map (map (fun p => astype_uint8
                       (if PrimFloat.leb cutoff (pixel_to_float p) then 255 else 0))) a.

(** [np.where(a > 127, 255, 0).astype(np.uint8)] *)
Definition where_gt_127 (a : array2) : array2 :=
  map (map (fun p => astype_uint8 (if 127 <? p then 255 else 0))) a.

Fixpoint zip_with3 {A B C D : Type} (f : A -> B -> C -> D)
         (xs : list A) (ys : list B) (zs : list C) : list D :=
  match xs, ys, zs with
  | x :: xs', y :: ys', z :: zs' => f x y z :: zip_with3 f xs' ys' zs'
  | _, _, _ => []
  end.

(** [np.maximum(a, b)] for arrays of one shape. *)
Definition maximum (a b : array2) : array2 := zip_with (zip_with Z.max) a b.

(** Index of the sample that scipy's boundary mode ['reflect']
    ([d c b a | a b c d | d c b a]) reads for position [i] of a line of
    length [n]; a 3-tap filter only asks for [-1 <= i <= n]. *)
Definition reflect_index (n : nat) (i : Z) : nat :=
  if i <? 0 then Z.to_nat (- i - 1)
  else if Z.of_nat n <=? i then Z.to_nat (2 * Z.of_nat n - 1 - i)
  else Z.to_nat i.

(** The arrays of shape [(h, w)]: [h] rows of [w] samples each. *)
Definition has_shape {A : Type} (h w : nat) (a : list (list A)) : Prop :=
  length a = h /\ Forall (fun row => length row = w) a.

Section Filters.
(** What the C cast [(unsigned char) x] gives for a double outside 0..255
    (undefined in C; fixed by the platform). *)
Variable cast_out_of_range : Z -> Z.

Definition c_cast_uint8 (v : Z) : Z :=
  if (0 <=? v) && (v <=? 255) then v else cast_out_of_range v.

(** One line of [scipy.ndimage.correlate1d(line, [w0, w1, w2],
    mode='reflect')] with a [uint8] output. *)
Definition correlate1d_line (w0 w1 w2 : Z) (l : list Z) : list Z :=
  let n := length l in
  map (fun i : nat =>
         c_cast_uint8 (w0 * nth (reflect_index n (Z.of_nat i - 1)) l 0
                       + w1 * nth i l 0
                       + w2 * nth (reflect_index n (Z.of_nat i + 1)) l 0))
      (seq 0 n).

(** [correlate1d(a, [w0, w1, w2], axis=1)]: along each row. *)
Definition correlate1d_axis1 (w0 w1 w2 : Z) (a : array2) : array2 :=
  map (correlate1d_line w0 w1 w2) a.

(** [correlate1d(a, [w0, w1, w2], axis=0)]: along each column; row [i] of
    the result combines rows [i-1], [i], [i+1] of [a]. *)
Definition correlate1d_axis0 (w0 w1 w2 : Z) (a : array2) : array2 :=
  let n := length a in
  map (fun i : nat =>
         zip_with3 (fun x y z => c_cast_uint8 (w0 * x + w1 * y + w2 * z))
                   (nth (reflect_index n (Z.of_nat i - 1)) a [])
                   (nth i a [])
                   (nth (reflect_index n (Z.of_nat i + 1)) a []))
      (seq 0 n).

(** [ndimage.sobel(a, axis=0)] and [ndimage.sobel(a, axis=1)]: the
    derivative [-1, 0, 1] along [axis], then the smoothing [1, 2, 1] along
    the other axis; the intermediate array has the input's dtype. *)
Definition sobel_axis0 (a : array2) : array2 :=
  correlate1d_axis1 1 2 1 (correlate1d_axis0 (-1) 0 1 a).

Definition sobel_axis1 (a : array2) : array2 :=
  correlate1d_axis0 1 2 1 (correlate1d_axis1 (-1) 0 1 a).
End Filters.

(** [sobel_x**2 + sobel_y**2] in [uint8] arithmetic. *)
Definition squared_magnitude (sx sy : array2) : array2 :=
  zip_with (zip_with (fun x y => ((x * x) mod 256 + (y * y) mod 256) mod 256)) sx sy.

(** *** binary16 ([np.float16]) values, as [spec_float] at precision 11 *)

Definition f16 : Type := spec_float.
Definition f16_prec : Z := 11.
Definition f16_emax : Z := 16.

(** An integer below 2048 converted to [float16] (exact). *)
Definition f16_of_Z (n : Z) : f16 := binary_normalize f16_prec f16_emax n 0 false.

(** [np.sqrt] of a [uint8] sample: a [float16]. *)
Definition f16_sqrt_uint8 (n : Z) : f16 := SFsqrt f16_prec f16_emax (f16_of_Z n).

Definition f16_div (x y : f16) : f16 := SFdiv f16_prec f16_emax x y.
Definition f16_mul (x y : f16) : f16 := SFmul f16_prec f16_emax x y.

(** [a.max()] over a non-empty [float16] array; [None] for an empty one
    (numpy raises [ValueError]). *)
Definition f16_max2 (x y : f16) : f16 := if SFleb x y then y else x.

Definition f16_array_max (a : list (list f16)) : option f16 :=
  match concat a with
  | [] => None
  | x :: xs => Some (fold_left f16_max2 xs x)
  end.

Section Cast.
Variable cast_out_of_range : Z -> Z.
(** What [astype(np.uint8)] gives for NaN, and for the infinity of a given
    sign (both undefined in C; fixed by the platform). *)
Variable nan_cast : Z.
Variable inf_cast : bool -> Z.

(** [x.astype(np.uint8)] for a [float16]: truncation toward zero. *)
Definition f16_to_uint8 (x : f16) : Z :=
  match x with
  | S754_zero _ => 0
  | S754_finite s m e =>
      let mag := if 0 <=? e then Zpos m * 2 ^ e else Zpos m / 2 ^ (- e) in
      c_cast_uint8 cast_out_of_range (if s then - mag else mag)
  | S754_infinity s => inf_cast s
  | S754_nan => nan_cast
  end.
End Cast.

End Np.

(** ** [rmbg_inference.py]: the RMBG-V1 command-line script *)

Module V1.
Import Path Np.

(** Handle of a Python object living inside a wrapped library (a state
    dict, a configuration, a model, a pipeline). *)
Definition obj : Type := string.

(** The wrapped libraries and the platform, as the script sees them. *)
Record Env : Type := {
  (** [os.path.dirname(os.path.abspath(__file__))] *)
  script_dir : string;
  (** [torch.load(MODEL_PATH, map_location="cpu")] *)
  torch_load : string -> exn + obj;
  (** [isinstance(state_dict, collections.OrderedDict)] *)
  is_ordered_dict : obj -> bool;
  (** [isinstance(state_dict, dict)] *)
  is_dict : obj -> bool;
  (** [any(key.startswith(('encoder', 'decoder', 'model', 'backbone'))
           for key in state_dict.keys())] *)
  has_model_keys : obj -> bool;
  (** [AutoConfig.from_pretrained(MODEL_NAME, trust_remote_code=True)] *)
  autoconfig_from_pretrained : exn + obj;
  (** [AutoModelForImageSegmentation.from_pretrained(None, config=...,
       state_dict=..., trust_remote_code=True)] *)
  model_from_state_dict : obj -> obj -> exn + obj;
  (** [AutoModelForImageSegmentation.from_pretrained(MODEL_NAME, ...)] *)
  model_from_hub : exn + obj;
  (** [model.load_state_dict(state_dict)] *)
  load_state_dict : obj -> obj -> exn + unit;
  (** [torch.cuda.is_available()] *)
  cuda_is_available : bool;
  (** [model.to(device)] *)
  model_to : obj -> string -> exn + unit;
  (** [AutoFeatureExtractor.from_pretrained(MODEL_NAME, ...)] *)
  feature_extractor_from_pretrained : exn + obj;
  (** [pipeline("image-segmentation", model=..., feature_extractor=...)] *)
  make_pipeline : obj -> obj -> exn + obj;
  (** [hasattr(model, 'pipe') and callable(model.pipe)] *)
  has_callable_pipe : obj -> bool;
  (** [hf_pipeline("image-segmentation", model=MODEL_NAME, ...)] *)
  hub_pipeline : exn + obj;
  (** [pipe(image, return_mask=True)]: a mode-[L] pillow mask *)
  call_pipe : obj -> Image -> exn + Image;
  (** [requests.get(url).content] *)
  requests_get : string -> exn + string;
  (** [Image.open] on the bytes of an image file *)
  decode : string -> exn + Image;
  (** pixel data of [image.convert(mode)] *)
  px_convert : mode -> Image -> array2;
  (** PIL's registry of file extensions: the format saved for an extension *)
  save_format : string -> option string;
  (** an I/O or encoder failure of [Image.save] at this path *)
  save_error : string -> content -> option exn;
  (** C cast of an out-of-range double to [unsigned char] *)
  cast_out_of_range : Z -> Z;
  (** [astype(np.uint8)] of a [float16] NaN, and of the infinity of a sign *)
  nan_cast : Z;
  inf_cast : bool -> Z;
  (** [ndimage.gaussian_filter(a, sigma=s)] with a [uint8] output *)
  gaussian_filter : array2 -> float -> array2;
  (** the text of [f"{elapsed:.2f}"] read off the clock *)
  elapsed_text : string
}.

Definition MODEL_NAME : string := "briaai/RMBG-1.4".

(** [apply_threshold(mask, threshold=0.35)] *)
Definition apply_threshold (mask : Image) (threshold : float) : Image :=
  let mask_array := np_array mask in
  let binary_mask := where_ge mask_array (threshold * 255)%float in
  fromarray binary_mask.

(** The default of the [threshold] parameter, the double nearest to 0.35. *)
Definition default_threshold : float := 0x1.6666666666666p-2%float.

Section WithEnv.
Variable env : Env.

Definition MODEL_PATH : string := script_dir env ++ "/models/model.pth".

(** *** The edge-enhancement branch of [enhance_mask] *)

(** [np.sqrt(sobel_x**2 + sobel_y**2)]: the [float16] edge magnitudes. *)
Definition edge_magnitude (mask_array : array2) : list (list f16) :=
  let sobel_x := sobel_axis0 (cast_out_of_range env) mask_array in
  let sobel_y := sobel_axis1 (cast_out_of_range env) mask_array in
  map (map f16_sqrt_uint8) (squared_magnitude sobel_x sobel_y).

(** [edge_mask / edge_mask.max() * 255], still [float16]. *)
Definition normalize_edges (edge_mask : list (list f16)) (mx : f16) : list (list f16) :=
  map (map (fun x => f16_mul (f16_div x mx) (f16_of_Z 255))) edge_mask.

(** [(edge_mask / edge_mask.max() * 255).astype(np.uint8)]; [max()] of an
    empty array raises [ValueError]. *)
Definition edge_image (mask_array : array2) : exn + array2 :=
  let edge_mask := edge_magnitude mask_array in
  match f16_array_max edge_mask with
  | None => inl (ValueError "zero-size array to reduction operation maximum which has no identity")
  | Some mx =>
      let edge_mask := normalize_edges edge_mask mx in
      inr (map (map (f16_to_uint8 (cast_out_of_range env) (nan_cast env) (inf_cast env)))
                edge_mask)
  end.

(** The whole branch: [np.maximum(mask_array, edge_mask)]. *)
Definition edge_branch (mask_array : array2) : exn + array2 :=
  match edge_image mask_array with
  | inl e => inl e
  | inr edge_mask => inr (maximum mask_array edge_mask)
  end.

(** [enhance_mask(mask, edge_enhancement=True, color_aware=True)].
    [ndimage] is a local name of the function, bound by the import inside
    the edge-enhancement branch only; reading it unbound raises
    [UnboundLocalError]. *)
Definition enhance_mask (mask : Image) (edge_enhancement color_aware : bool)
  : exn + Image :=
  let mask_array := np_array mask in
  let ndimage : option unit := None in
  match (if edge_enhancement
         then match edge_branch mask_array with
              | inl e => inl e
              | inr a => inr (Some tt, a)
              end
         else inr (ndimage, mask_array)) with
  | inl e => inl e
  | inr (ndimage, mask_array) =>
      if color_aware then
        match ndimage with
        | None => inl (UnboundLocalError
            "cannot access local variable 'ndimage' where it is not associated with a value")
        | Some _ =>
            let mask_array := gaussian_filter env mask_array 0.5%float in
            let mask_array := where_gt_127 mask_array in
            inr (fromarray mask_array)
        end
      else inr (fromarray mask_array)
  end.

(** Lines 194-197 of [inference]: what is done to the model's mask before
    it is saved. *)
Definition postprocess_mask (mask : Image) (threshold : float)
           (edge_enhancement color_aware : bool) : exn + Image :=
  let mask := apply_threshold mask threshold in
  if edge_enhancement || color_aware
  then enhance_mask mask edge_enhancement color_aware
  else inr mask.

(** *** Model loading *)

(** [check_model_exists()] *)
Definition check_model_exists : M bool :=
  do found <- os_path_exists MODEL_PATH;
  if negb found then
    print ("Error: Model file not found at " ++ MODEL_PATH) ;;
    print "Please make sure the RMBG-V1 model file is in the correct location." ;;
    sys_exit 1
  else
    print ("Found local model at " ++ MODEL_PATH) ;;
    ret true.

(** The body of the [try] block of [load_model]. *)
Definition load_model_body : M obj :=
  check_model_exists ;;
  do state_dict <- lift (torch_load env MODEL_PATH);
  do model <-
    (if is_ordered_dict env state_dict then
       print "Detected OrderedDict model format - creating model and loading state dict" ;;
       do config <- lift (autoconfig_from_pretrained env);
       lift (model_from_state_dict env config state_dict)
     else if negb (is_dict env state_dict) || negb (has_model_keys env state_dict) then
       print "Detected non-standard model format - using model directly" ;;
       ret state_dict
     else
       print "Loading standard state dict into model" ;;
       do model <- lift (model_from_hub env);
       lift (load_state_dict env model state_dict) ;;
       ret model);
  let device := if cuda_is_available env then "cuda:0" else "cpu" in
  lift (model_to env model device) ;;
  print ("RMBG-V1 model loaded successfully from local file on " ++ device) ;;
  ret model.

(** [load_model()]; the traceback its handler prints goes to the standard
    error stream. *)
Definition load_model : M obj :=
  try_except load_model_body
    (fun e =>
       print ("Error loading RMBG-V1 model: " ++ str_exn e) ;;
       sys_exit 1).

(** The body of the outer [try] block of [create_pipeline]. *)
Definition create_pipeline_body : M obj :=
  check_model_exists ;;
  do model <- load_model;
  try_except
    (do feature_extractor <- lift (feature_extractor_from_pretrained env);
     lift (make_pipeline env model feature_extractor))
    (fun e =>
       print ("Standard pipeline creation failed, trying alternative approach: "
                ++ str_exn e) ;;
       if has_callable_pipe env model then
         print "Using model's built-in pipeline function" ;;
         ret model
       else
         try_except
           (print "Attempting to create pipeline directly from HuggingFace" ;;
            lift (hub_pipeline env))
           (fun e2 =>
              print ("Failed to create pipeline with fallback method: " ++ str_exn e2) ;;
              raise e)).

(** [create_pipeline()] *)
Definition create_pipeline : M obj :=
  try_except create_pipeline_body
    (fun e =>
       print ("Error creating pipeline: " ++ str_exn e) ;;
       sys_exit 1).

(** *** Image input and output *)

(** [Image.open(path)] for a path on disk. *)
Definition image_open (path : string) : M Image :=
  log_event (EvFileOpen path) ;;
  do w <- get_world;
  match files w !! path with
  | None => raise (FileNotFoundError ("No such file or directory: " ++ path))
  | Some (Raw bytes) => lift (decode env bytes)
  | Some (Encoded _ im) => ret im
  end.

(** [image.convert('RGB')] *)
Definition convert_rgb (im : Image) : Image :=
  {| im_mode := RGB; im_size := im_size im; im_px := px_convert env RGB im |}.

(** [preprocess_image(image_path)] *)
Definition preprocess_image (image_path : string) : M Image :=
  if is_url image_path then
    log_event (EvHttpGet image_path) ;;
    do content <- lift (requests_get env image_path);
    do img <- lift (decode env content);
    ret (convert_rgb img)
  else
    do img <- image_open image_path;
    ret (convert_rgb img).

(** [image.save(path)]: the format follows the extension. *)
Definition image_save (im : Image) (path : string) : M unit :=
  let ext := lower (snd (splitext path)) in
  match save_format env ext with
  | None => raise (ValueError ("unknown file extension: " ++ ext))
  | Some format =>
      match save_error env path (Encoded format im) with
      | Some e => raise e
      | None => write_file path (Encoded format im)
      end
  end.

(** *** [inference] and [main] *)

(** The body of the [try] block of [inference]. *)
Definition inference_body (image_path output_path : string) (threshold : float)
           (edge_enhancement color_aware : bool) : M Image :=
  do pipe <- create_pipeline;
  do image <- preprocess_image image_path;
  print ("Running RMBG-V1 inference on " ++ image_path ++ "...") ;;
  log_event (EvModelRun MODEL_NAME) ;;
  do mask <- lift (call_pipe env pipe image);
  do mask <- lift (postprocess_mask mask threshold edge_enhancement color_aware);
  image_save mask output_path ;;
  print ("Mask saved to " ++ output_path) ;;
  print ("Inference completed in " ++ elapsed_text env ++ " seconds") ;;
  ret mask.

(** [inference(image_path, output_path, threshold=0.35,
               edge_enhancement=True, color_aware=True)] *)
Definition inference (image_path output_path : string) (threshold : float)
           (edge_enhancement color_aware : bool) : M Image :=
  try_except
    (inference_body image_path output_path threshold edge_enhancement color_aware)
    (fun e =>
       print ("Error during inference: " ++ str_exn e) ;;
       sys_exit 1).

(** The namespace [argparse] hands to [main]. *)
Record Args : Type := {
  input_image : string;
  arg_output_path : string;
  arg_threshold : float;
  arg_edge_enhancement : string;
  arg_color_aware : string
}.

(** [s.lower() == 'true']: how [main] reads a boolean flag. *)
Definition flag_of (s : string) : bool := String.eqb (lower s) "true".

(** [main()], after [parser.parse_args()]. *)
Definition main (args : Args) : M unit :=
  let edge_enhancement := flag_of (arg_edge_enhancement args) in
  let color_aware := flag_of (arg_color_aware args) in
  inference (input_image args) (arg_output_path args) (arg_threshold args)
            edge_enhancement color_aware ;;
  ret tt.

End WithEnv.

(** The names bound at the top level of the module: what
    [from rmbg_inference import name] can find. *)
Definition module_names : list string :=
  [ "sys"; "os"; "np"; "torch"; "F"; "Image"; "BytesIO"; "requests"; "Path";
    "ssl"; "time"; "base64"; "argparse";
    "AutoModelForImageSegmentation"; "AutoFeatureExtractor"; "pipeline";
    "collections"; "MODEL_NAME"; "MODEL_PATH";
    "check_model_exists"; "load_model"; "create_pipeline"; "preprocess_image";
    "apply_threshold"; "enhance_mask"; "inference"; "main" ].

End V1.

(** ** [rmbg2_inference.py]: the RMBG-2.0 (ONNX) command-line script *)

Module V2.
Import Path.

(** A numpy float tensor: its shape and its values in C order. *)
Record Tensor : Type := {
  shape : list nat;
  tdata : list float
}.

(** [session.get_inputs()[i]] / [session.get_outputs()[i]] *)
Record NodeArg : Type := {
  na_name : string;
  na_shape : string
}.

(** An [onnxruntime.InferenceSession]. *)
Record Session : Type := {
  sess_model : string;
  sess_inputs : list NodeArg;
  sess_outputs : list NodeArg
}.

(** A [requests.Response]. *)
Record Response : Type := {
  status_code : Z;
  resp_content : string
}.

(** The wrapped libraries and the platform, as the script sees them. *)
Record Env : Type := {
  (** [os.path.dirname(os.path.abspath(__file__))] *)
  script_dir : string;
  (** the text of [ort.get_available_providers()] *)
  available_providers_text : string;
  (** [ort.InferenceSession(model_path, sess_options=..., providers=...)] *)
  ort_inference_session : string -> exn + Session;
  (** [session.run(None, {input_name: tensor})] *)
  ort_run : Session -> string -> Tensor -> exn + list Tensor;
  (** [requests.get(url, timeout=t)] *)
  requests_get : string -> Z -> exn + Response;
  (** [Image.open] on the bytes of an image file *)
  decode : string -> exn + Image;
  (** pixel data of [Image.new(mode, size, color)] *)
  px_new : mode -> nat * nat -> list Z -> array2;
  (** pixel data of [dst] after [dst.paste(src, (0, 0), mask)] *)
  px_paste : Image -> Image -> option Image -> array2;
  (** pixel data of [image.split()[k]] *)
  px_band : Image -> nat -> array2;
  (** pixel data of [image.convert(mode)] *)
  px_convert : mode -> Image -> array2;
  (** pixel data of [image.resize(size, Image.LANCZOS)] *)
  px_resample : Image -> nat * nat -> array2;
  (** values of [np.array(image, dtype=np.float32) / 255.0], transposed to
      channel-first order *)
  tensor_of_image : Image -> list float;
  (** samples of [(t * 255).astype(np.uint8)] *)
  px_of_tensor : Tensor -> array2;
  (** the directories after [os.makedirs(name)] *)
  makedirs : gset string -> string -> exn + gset string;
  (** an I/O or encoder failure of [Image.save] at this path *)
  save_error : string -> content -> option exn;
  (** the text of [f"{inference_time:.3f}"] read off the clock *)
  inference_time_text : string
}.

Definition INPUT_SIZE : nat := 1024.

(** *** PIL operations used by the script *)

Definition size_eqb (a b : nat * nat) : bool :=
  Nat.eqb (fst a) (fst b) && Nat.eqb (snd a) (snd b).

(** Modes PIL accepts for the [mask] argument of [paste]. *)
Definition mask_mode_ok (m : mode) : bool :=
  match m with
  | M1 | L | LA | RGBA => true
  | RGB => false
  end.

(** [Image.fromarray] for a [uint8] array of the given shape: the mode
    PIL's type map assigns, and [size = (shape[1], shape[0])]. *)
Definition fromarray_shape (sh : list nat) : exn + (mode * (nat * nat)) :=
  match sh with
  | [] => inl (IndexError "tuple index out of range")
  | [h] => inr (L, (1%nat, h))
  | [h; w] => inr (L, (w, h))
  | [h; w; 2%nat] => inr (LA, (w, h))
  | [h; w; 3%nat] => inr (RGB, (w, h))
  | [h; w; 4%nat] => inr (RGBA, (w, h))
  | _ => inl (TypeError "Cannot handle this data type")
  end.

(** [t.squeeze()]: every axis of length one is dropped. *)
Definition squeeze (t : Tensor) : Tensor :=
  {| shape := filter (fun n => negb (Nat.eqb n 1)) (shape t); tdata := tdata t |}.

(** The loaded model is a matting model: each tensor it returns is one 2-D
    map once the axes of length one are dropped (RMBG-2.0 returns
    1 x 1 x 1024 x 1024). *)
Definition emits_single_maps (env : Env) : Prop :=
  forall (session : Session) (name : string) (x : Tensor) (outputs : list Tensor),
    ort_run env session name x = inr outputs ->
    Forall (fun t => length (shape (squeeze t)) = 2%nat) outputs.

Section WithEnv.
Variable env : Env.

Definition MODEL_PATH : string := script_dir env ++ "/models/model_q4f16.onnx".

(** [Image.new(mode, size, color)] *)
Definition image_new (m : mode) (size : nat * nat) (color : list Z) : Image :=
  {| im_mode := m; im_size := size; im_px := px_new env m size color |}.

(** [image.convert('RGB')] *)
Definition convert_rgb (im : Image) : Image :=
  {| im_mode := RGB; im_size := im_size im; im_px := px_convert env RGB im |}.

(** [image.split()[k]] *)
Definition split_band (im : Image) (k : nat) : Image :=
  {| im_mode := L; im_size := im_size im; im_px := px_band env im k |}.

(** [image.resize(size, Image.LANCZOS)] *)
Definition resize (im : Image) (size : nat * nat) : exn + Image :=
  if size_eqb (im_size im) size then inr im
  else if Nat.eqb (fst size) 0 || Nat.eqb (snd size) 0
  then inl (ValueError "height and width must be > 0")
  else inr {| im_mode := im_mode im; im_size := size;
              im_px := px_resample env im size |}.

(** [dst.paste(src, (0, 0), mask)] and [dst.paste(src, mask=mask)]: the
    pasted region has the size of [src]; the mask must have that size and
    a mode PIL can take as transparency. *)
Definition paste (dst src : Image) (mask : Image) : exn + Image :=
  if negb (size_eqb (im_size mask) (im_size src))
  then inl (ValueError "images do not match")
  else if negb (mask_mode_ok (im_mode mask))
  then inl (ValueError "bad transparency mask")
  else inr {| im_mode := im_mode dst; im_size := im_size dst;
              im_px := px_paste env dst src (Some mask) |}.

(** [Image.open(path)] for a path on disk. *)
Definition image_open (path : string) : M Image :=
  log_event (EvFileOpen path) ;;
  do w <- get_world;
  match files w !! path with
  | None => raise (FileNotFoundError ("No such file or directory: " ++ path))
  | Some (Raw bytes) => lift (decode env bytes)
  | Some (Encoded _ im) => ret im
  end.

(** [image.save(path, format='PNG')] *)
Definition image_save_png (im : Image) (path : string) : M unit :=
  match save_error env path (Encoded "PNG" im) with
  | Some e => raise e
  | None => write_file path (Encoded "PNG" im)
  end.

(** *** class [RMBG2] *)

Record RMBG2 : Type := {
  model_path : string;
  providers : list string;
  ort_session : Session;
  input_name : string;
  output_name : string;
  input_shape : string
}.

(** [xs[0]] *)
Definition first {A : Type} (xs : list A) : exn + A :=
  match xs with
  | [] => inl (IndexError "list index out of range")
  | x :: _ => inr x
  end.

(** The path [RMBG2.__init__] loads: [model_path or MODEL_PATH]. *)
Definition model_path_or_default (model_path : option string) : string :=
  match model_path with
  | Some p => if is_empty p then MODEL_PATH else p
  | None => MODEL_PATH
  end.

(** [RMBG2.__init__(self, model_path=None)] *)
Definition RMBG2_init (model_path : option string) : M RMBG2 :=
  let self_model_path := model_path_or_default model_path in
  print ("Loading ONNX model from " ++ self_model_path) ;;
  let self_providers := ["CPUExecutionProvider"] in
  print ("Available providers: " ++ available_providers_text env) ;;
  print "Using providers: ['CPUExecutionProvider']" ;;
  try_except
    (do session <- lift (ort_inference_session env self_model_path);
     do input0 <- lift (first (sess_inputs session));
     do output0 <- lift (first (sess_outputs session));
     do input0' <- lift (first (sess_inputs session));
     print ("Model loaded successfully. Input shape: " ++ na_shape input0') ;;
     ret {| model_path := self_model_path; providers := self_providers;
            ort_session := session; input_name := na_name input0;
            output_name := na_name output0; input_shape := na_shape input0' |})
    (fun e =>
       print ("Error initializing ONNX model: " ++ str_exn e) ;;
       raise e).

(** [RMBG2._preprocess(self, img)] *)
Definition _preprocess (self : RMBG2) (img : Image) : exn + Tensor :=
  let img_resized := convert_rgb img in
  match resize img_resized (INPUT_SIZE, INPUT_SIZE) with
  | inl e => inl e
  | inr img_resized =>
      (* (H, W, 3) -> transpose(2, 0, 1) -> expand_dims(axis=0) *)
      inr {| shape := [1%nat; 3%nat; snd (im_size img_resized); fst (im_size img_resized)];
             tdata := tensor_of_image env img_resized |}
  end.

(** [RMBG2._inference(self, img_input)] *)
Definition _inference (self : RMBG2) (img_input : Tensor) : M Tensor :=
  try_except
    (log_event (EvModelRun (model_path self)) ;;
     do outputs <- lift (ort_run env (ort_session self) (input_name self) img_input);
     lift (first outputs))
    (fun e =>
       print ("Inference error: " ++ str_exn e) ;;
       raise e).

(** [RMBG2._postprocess(self, mask, original_size)] *)
Definition _postprocess (self : RMBG2) (mask : Tensor) (original_size : nat * nat)
  : exn + Image :=
  let mask := squeeze mask in
  match fromarray_shape (shape mask) with
  | inl e => inl e
  | inr (m, size) =>
      let mask := {| im_mode := m; im_size := size; im_px := px_of_tensor env mask |} in
      resize mask original_size
  end.

(** [RMBG2.predict(self, img)] *)
Definition predict (self : RMBG2) (img : Image) : M Image :=
  do img_input <- lift (_preprocess self img);
  do mask <- _inference self img_input;
  do mask <- lift (_postprocess self mask (im_size img));
  print ("Inference time: " ++ inference_time_text env ++ " seconds") ;;
  ret mask.

(** [Response.raise_for_status()] *)
Definition raise_for_status (r : Response) : exn + unit :=
  if (400 <=? status_code r) && (status_code r <? 600)
  then inl (HTTPError ("HTTP error " ++ pretty (status_code r)))
  else inr tt.

(** [download_image(url, timeout=10)] *)
Definition download_image (url : string) (timeout : Z) : M Image :=
  try_except
    (if is_url url then
       log_event (EvHttpGet url) ;;
       do response <- lift (requests_get env url timeout);
       lift (raise_for_status response) ;;
       lift (decode env (resp_content response))
     else image_open url)
    (fun e =>
       print ("Error downloading image: " ++ str_exn e) ;;
       raise e).

(** The [image_path] argument of [process_image]: a string or an already
    opened PIL image. *)
Inductive image_arg : Type :=
| PathArg (p : string)
| ImageArg (im : Image).

(** Truth value of an optional string: [None] and [''] are false. *)
Definition truthy (s : option string) : bool :=
  match s with
  | Some p => negb (is_empty p)
  | None => false
  end.

(** The block of [process_image] that loads the image. *)
Definition load_input (image_path : image_arg) : M Image :=
  match image_path with
  | PathArg p =>
      if is_url p then download_image p 10
      else
        do isfile <- os_path_isfile p;
        if negb isfile
        then raise (FileNotFoundError ("Image file not found: " ++ p))
        else image_open p
  | ImageArg im => ret im
  end.

(** The block of [process_image] that flattens an RGBA input onto white. *)
Definition flatten_rgba (img : Image) : exn + Image :=
  if mode_eqb (im_mode img) RGBA then
    let img_rgb := image_new RGB (im_size img) [255; 255; 255] in
    paste img_rgb img (split_band img 3)
  else inr img.

(** The path of the mask written next to the output. *)
Definition mask_path_of (output_path : string) : string :=
  fst (splitext output_path) ++ "_mask.png".

(** The block of [process_image] that saves the result. *)
Definition save_outputs (output mask : Image) (output_path : option string) : M unit :=
  match output_path with
  | Some output_path =>
      if negb (is_empty output_path) then
        let dirname := Path.dirname output_path in
        do dir_exists <- os_path_exists dirname;
        (if negb (is_empty dirname) && negb dir_exists then
           do w <- get_world;
           do ds <- lift (makedirs env (dirs w) dirname);
           set_dirs ds
         else ret tt) ;;
        image_save_png output output_path ;;
        print ("Saved output to " ++ output_path) ;;
        let mask_path := mask_path_of output_path in
        image_save_png mask mask_path ;;
        print ("Saved mask to " ++ mask_path)
      else ret tt
  | None => ret tt
  end.

(** The paths [process_image] is asked to write for an [output_path]
    argument, and the access to the input it is asked to make. *)
Definition output_paths (output_path : option string) : list string :=
  match output_path with
  | Some p => if is_empty p then [] else [p; mask_path_of p]
  | None => []
  end.


(** The body of the [try] block of [process_image]. *)
Definition process_image_body (image_path : image_arg) (output_path : option string)
           (model_path : option string) : M (Image * Image) :=
  do model <- RMBG2_init model_path;
  do img <- load_input image_path;
  do img <- lift (flatten_rgba img);
  let '(orig_width, orig_height) := im_size img in
  print ("Processing image of size " ++ pretty orig_width ++ "x" ++ pretty orig_height) ;;
  do mask <- predict model img;
  let output := image_new RGBA (im_size img) [0; 0; 0; 0] in
  do output <- lift (paste output img mask);
  save_outputs output mask output_path ;;
  ret (output, mask).

(** [process_image(image_path, output_path=None, ..., model_path=None)] *)
Definition process_image (image_path : image_arg) (output_path : option string)
           (model_path : option string) : M (Image * Image) :=
  try_except
    (process_image_body image_path output_path model_path)
    (fun e =>
       print ("Error processing image: " ++ str_exn e) ;;
       raise e).

(** The namespace [argparse] hands to [main]. *)
Record Args : Type := {
  arg_input : string;
  arg_output : option string;
  arg_model : option string
}.

(** The output path [main] passes on: [args.output], or the input path with
    its extension replaced by "_nobg.png". *)
Definition output_of_args (args : Args) : option string :=
  if negb (truthy (arg_output args))
  then Some (fst (splitext (arg_input args)) ++ "_nobg.png")
  else arg_output args.

(** [main()], after [parser.parse_args()]. *)
Definition main (args : Args) : M unit :=
  let output := output_of_args args in
  try_except
    (process_image (PathArg (arg_input args)) output (arg_model args) ;;
     print "Background removal completed successfully")
    (fun e =>
       print ("Error: " ++ str_exn e) ;;
       sys_exit 1).

End WithEnv.

End V2.

(** ** [test_rmbg2.py]: the comparison of the two backends *)

Module TestV2.

(** What the test script reads off its platform. *)
Record Env : Type := {
  (** [os.path.dirname(os.path.abspath(__file__))] *)
  script_dir : string;
  (** the texts of [f"{v1_time:.2f}"], [f"{v2_time:.2f}"] and of the
      difference line, read off the clock *)
  v1_time_text : string;
  v2_time_text : string;
  difference_text : string;
  (** the text of [f"{os.path.getsize(p) / 1024:.1f}"] *)
  size_kb_text : option content -> string;
  (** calling a module attribute that is not a two-argument function of the
      paths (a module, a constant, a function of another arity) *)
  call_attribute : string -> string -> string -> exn + unit
}.

(** [d[name]] in an association list. *)
Fixpoint assoc {A : Type} (name : string) (d : list (string * A)) : option A :=
  match d with
  | [] => None
  | (k, v) :: d' => if String.eqb k name then Some v else assoc name d'
  end.

(** [from module import name], for a module found in [module_file]: the
    attribute, or [ImportError]. *)
Definition import_from {A : Type} (module_name module_file : string)
           (namespace : list (string * A)) (name : string) : M A :=
  match assoc name namespace with
  | Some v => ret v
  | None => raise (ImportError ("cannot import name '" ++ name ++ "' from '"
                                  ++ module_name ++ "' (" ++ module_file ++ ")"))
  end.

Section WithEnv.
Variable env : Env.
Variable env1 : V1.Env.
Variable env2 : V2.Env.

(** The attributes of module [rmbg_inference], each as what calling it
    with [(image_path, output_path)] does. *)
Definition rmbg_inference_namespace : list (string * (string -> string -> M unit)) :=
  map (fun name =>
         (name,
          if String.eqb name "inference"
          then (fun image_path output_path =>
                  V1.inference env1 image_path output_path
                               V1.default_threshold true true ;;
                  ret tt)
          else (fun a b => lift (call_attribute env name a b))))
      V1.module_names.

(** [str(image.size)] *)
Definition size_text (im : Image) : string :=
  "(" ++ pretty (fst (im_size im)) ++ ", " ++ pretty (snd (im_size im)) ++ ")".

(** [os.path.getsize(p)], formatted in KB. *)
Definition getsize_kb (p : string) : M string :=
  do w <- get_world;
  ret (size_kb_text env (files w !! p)).

(** [compare_with_original()] *)
Definition compare_with_original : M bool :=
  let test_image := script_dir env ++ "/test_photo.jpg" in
  do process_image_v1 <-
    import_from "rmbg_inference" (script_dir env ++ "/rmbg_inference.py")
                rmbg_inference_namespace "process_image";
  let output_v1 := script_dir env ++ "/test_photo_nobg_v1.png" in
  let output_v2 := script_dir env ++ "/test_photo_nobg_v2.png" in
  try_except
    (print "Testing RMBG-1.4..." ;;
     process_image_v1 test_image output_v1 ;;
     print ("RMBG-1.4 completed in " ++ v1_time_text env ++ " seconds") ;;
     print "Testing RMBG-2.0..." ;;
     V2.process_image env2 (V2.PathArg test_image) (Some output_v2) None ;;
     print ("RMBG-2.0 completed in " ++ v2_time_text env ++ " seconds") ;;
     print "" ;;
     print "Comparison Results:" ;;
     print ("RMBG-1.4: " ++ v1_time_text env ++ " seconds") ;;
     print ("RMBG-2.0: " ++ v2_time_text env ++ " seconds") ;;
     print ("Difference: " ++ difference_text env) ;;
     do exists_v1 <- os_path_exists output_v1;
     do exists_v2 <- os_path_exists output_v2;
     if exists_v1 && exists_v2 then
       do size_v1 <- getsize_kb output_v1;
       do size_v2 <- getsize_kb output_v2;
       print ("RMBG-1.4 output size: " ++ size_v1 ++ " KB") ;;
       print ("RMBG-2.0 output size: " ++ size_v2 ++ " KB") ;;
       do img_v1 <- V2.image_open env2 output_v1;
       do img_v2 <- V2.image_open env2 output_v2;
       print ("RMBG-1.4 image dimensions: " ++ size_text img_v1) ;;
       print ("RMBG-2.0 image dimensions: " ++ size_text img_v2) ;;
       ret true
     else
       print "Comparison failed - output files not created" ;;
       ret false)
    (fun e =>
       print ("Comparison failed with error: " ++ str_exn e) ;;
       ret false).

End WithEnv.

End TestV2.

(** ** [test_rmbg.py]: background removal on top of the V1 script *)

Module TestV1.
Import Path.

(** What the script needs beyond the environment of [rmbg_inference]. *)
Record Env : Type := {
  (** pixel data of [image.resize(size, Image.LANCZOS)] *)
  px_resample : Image -> nat * nat -> array2;
  (** pixel data of [image] after [image.putalpha(alpha)] *)
  px_putalpha : Image -> Image -> array2;
  (** a failure of [os.remove] on a file that exists *)
  remove_error : string -> option exn;
  (** the text of [f"{elapsed:.2f}"] read off the clock *)
  elapsed_text : string
}.

Section WithEnv.
Variable env : Env.
Variable env1 : V1.Env.

(** [image.convert(mode)] *)
Definition convert (m : mode) (im : Image) : Image :=
  {| im_mode := m; im_size := im_size im; im_px := V1.px_convert env1 m im |}.

Definition size_eqb (a b : nat * nat) : bool :=
  Nat.eqb (fst a) (fst b) && Nat.eqb (snd a) (snd b).

(** [image.resize(size, Image.LANCZOS)], called for a size that differs from
    the image's. *)
Definition resize (im : Image) (size : nat * nat) : exn + Image :=
  if size_eqb (im_size im) size then inr im
  else if Nat.eqb (fst size) 0 || Nat.eqb (snd size) 0
  then inl (ValueError "height and width must be > 0")
  else inr {| im_mode := im_mode im; im_size := size; im_px := px_resample env im size |}.

(** [image.putalpha(alpha)] for an RGBA image and an image [alpha]. *)
Definition putalpha (im alpha : Image) : exn + Image :=
  match im_mode alpha with
  | M1 | L =>
      if size_eqb (im_size im) (im_size alpha)
      then inr {| im_mode := im_mode im; im_size := im_size im;
                  im_px := px_putalpha env im alpha |}
      else inl (ValueError "images do not match")
  | _ => inl (ValueError "illegal image mode")
  end.

(** [os.remove(path)] *)
Definition os_remove (path : string) : M unit :=
  do w <- get_world;
  match files w !! path with
  | None => raise (FileNotFoundError ("No such file or directory: " ++ path))
  | Some _ =>
      match remove_error env path with
      | Some e => raise e
      | None => fun w => (Ret tt, {| stdout := stdout w; files := delete path (files w);
                                     dirs := dirs w; trace := trace w |})
      end
  end.

(** The body of the [try] block of [remove_background]. *)
Definition remove_background_body (input_path output_path : string) (threshold : float)
           (edge_enhancement color_aware : bool) : M unit :=
  V1.check_model_exists env1 ;;
  print ("Processing image: " ++ input_path) ;;
  let mask_path := fst (splitext output_path) ++ "_mask.png" in
  V1.inference env1 input_path mask_path threshold edge_enhancement color_aware ;;
  do original <- V1.image_open env1 input_path;
  let original := convert RGBA original in
  do mask <- V1.image_open env1 mask_path;
  let mask := convert L mask in
  do mask <- (if negb (size_eqb (im_size original) (im_size mask))
              then lift (resize mask (im_size original))
              else ret mask);
  do original <- lift (putalpha original mask);
  V1.image_save env1 original output_path ;;
  print ("Background removed image saved to: " ++ output_path) ;;
  os_remove mask_path ;;
  print ("Background removal completed in " ++ elapsed_text env ++ " seconds").

(** [remove_background(input_path, output_path, threshold=0.35,
                       edge_enhancement=True, color_aware=True)] *)
Definition remove_background (input_path output_path : string) (threshold : float)
           (edge_enhancement color_aware : bool) : M unit :=
  try_except
    (remove_background_body input_path output_path threshold edge_enhancement color_aware)
    (fun e =>
       print ("Error removing background: " ++ str_exn e) ;;
       sys_exit 1).

(** The namespace [argparse] hands to [main]. *)
Record Args : Type := {
  arg_input : string;
  arg_output : option string;
  arg_threshold : float;
  arg_edge_enhancement : string;
  arg_color_aware : string
}.

(** The output path [main] passes on: [args.output], or the input path
    with its extension replaced by "_nobg_rmbg.png". *)
Definition output_of_args (args : Args) : string :=
  match arg_output args with
  | None => fst (splitext (arg_input args)) ++ "_nobg_rmbg.png"
  | Some output => output
  end.

(** [main()], after [parser.parse_args()]. *)
Definition main (args : Args) : M unit :=
  let output := output_of_args args in
  let edge_enhancement := V1.flag_of (arg_edge_enhancement args) in
  let color_aware := V1.flag_of (arg_color_aware args) in
  remove_background (arg_input args) output (arg_threshold args)
                    edge_enhancement color_aware.

End WithEnv.

End TestV1.

(** ** Concrete environments, used to run the scripts on examples *)

Module Examples.

(** A 2 x 3 grey-level mask. *)
Definition mask23 : Image :=
  Np.fromarray [[0; 89; 90]; [100; 200; 255]].

(** A 1 x 1 mask with the grey level 100. *)
Definition grey100 : Image := Np.fromarray [[100]].

(** A 640 x 480 RGB photograph (its pixel buffer, which the example
    platforms below never read, is left empty). *)
Definition photo : Image :=
  {| im_mode := RGB; im_size := (640%nat, 480%nat); im_px := [] |}.

(** A platform on which every library call of the V1 script succeeds. *)
Definition env1 : V1.Env :=
  {| V1.script_dir := "/app/python";
     V1.torch_load := fun _ => inr "state_dict";
     V1.is_ordered_dict := fun _ => true;
     V1.is_dict := fun _ => true;
     V1.has_model_keys := fun _ => true;
     V1.autoconfig_from_pretrained := inr "config";
     V1.model_from_state_dict := fun _ _ => inr "model";
     V1.model_from_hub := inr "model";
     V1.load_state_dict := fun _ _ => inr tt;
     V1.cuda_is_available := false;
     V1.model_to := fun _ _ => inr tt;
     V1.feature_extractor_from_pretrained := inr "feature_extractor";
     V1.make_pipeline := fun _ _ => inr "pipeline";
     V1.has_callable_pipe := fun _ => false;
     V1.hub_pipeline := inr "hub_pipeline";
     V1.call_pipe := fun _ _ => inr mask23;
     V1.requests_get := fun _ => inr "jpeg bytes";
     V1.decode := fun _ => inr photo;
     V1.px_convert := fun _ im => im_px im;
     V1.save_format := fun ext => if String.eqb ext ".png" then Some "PNG" else None;
     V1.save_error := fun _ _ => None;
     V1.cast_out_of_range := fun v => v mod 256;
     V1.nan_cast := 0;
     V1.inf_cast := fun _ => 0;
     V1.gaussian_filter := fun a _ => a;
     V1.elapsed_text := "0.50" |}.

(** The same platform with a model file that [torch.load] rejects. *)
Definition env1_bad_model : V1.Env :=
  {| V1.script_dir := V1.script_dir env1;
     V1.torch_load := fun _ => inl (LibraryError "invalid load key");
     V1.is_ordered_dict := V1.is_ordered_dict env1;
     V1.is_dict := V1.is_dict env1;
     V1.has_model_keys := V1.has_model_keys env1;
     V1.autoconfig_from_pretrained := V1.autoconfig_from_pretrained env1;
     V1.model_from_state_dict := V1.model_from_state_dict env1;
     V1.model_from_hub := V1.model_from_hub env1;
     V1.load_state_dict := V1.load_state_dict env1;
     V1.cuda_is_available := V1.cuda_is_available env1;
     V1.model_to := V1.model_to env1;
     V1.feature_extractor_from_pretrained := V1.feature_extractor_from_pretrained env1;
     V1.make_pipeline := V1.make_pipeline env1;
     V1.has_callable_pipe := V1.has_callable_pipe env1;
     V1.hub_pipeline := V1.hub_pipeline env1;
     V1.call_pipe := V1.call_pipe env1;
     V1.requests_get := V1.requests_get env1;
     V1.decode := V1.decode env1;
     V1.px_convert := V1.px_convert env1;
     V1.save_format := V1.save_format env1;
     V1.save_error := V1.save_error env1;
     V1.cast_out_of_range := V1.cast_out_of_range env1;
     V1.nan_cast := V1.nan_cast env1;
     V1.inf_cast := V1.inf_cast env1;
     V1.gaussian_filter := V1.gaussian_filter env1;
     V1.elapsed_text := V1.elapsed_text env1 |}.

(** The platform of [env1] on which the feature extractor cannot be
    built, with a model that has a callable [pipe] or not, and a given
    result of the pipeline built from the model name. *)
Definition env1_no_extractor (has_pipe : bool) (hub : exn + V1.obj) : V1.Env :=
  {| V1.script_dir := V1.script_dir env1;
     V1.torch_load := V1.torch_load env1;
     V1.is_ordered_dict := V1.is_ordered_dict env1;
     V1.is_dict := V1.is_dict env1;
     V1.has_model_keys := V1.has_model_keys env1;
     V1.autoconfig_from_pretrained := V1.autoconfig_from_pretrained env1;
     V1.model_from_state_dict := V1.model_from_state_dict env1;
     V1.model_from_hub := V1.model_from_hub env1;
     V1.load_state_dict := V1.load_state_dict env1;
     V1.cuda_is_available := V1.cuda_is_available env1;
     V1.model_to := V1.model_to env1;
     V1.feature_extractor_from_pretrained :=
       inl (LibraryError "preprocessor_config.json not found");
     V1.make_pipeline := V1.make_pipeline env1;
     V1.has_callable_pipe := fun _ => has_pipe;
     V1.hub_pipeline := hub;
     V1.call_pipe := V1.call_pipe env1;
     V1.requests_get := V1.requests_get env1;
     V1.decode := V1.decode env1;
     V1.px_convert := V1.px_convert env1;
     V1.save_format := V1.save_format env1;
     V1.save_error := V1.save_error env1;
     V1.cast_out_of_range := V1.cast_out_of_range env1;
     V1.nan_cast := V1.nan_cast env1;
     V1.inf_cast := V1.inf_cast env1;
     V1.gaussian_filter := V1.gaussian_filter env1;
     V1.elapsed_text := V1.elapsed_text env1 |}.

(** A session of the RMBG-2.0 model: one input, one output. *)
Definition session2 : V2.Session :=
  {| V2.sess_model := "/app/python/models/model_q4f16.onnx";
     V2.sess_inputs := [ {| V2.na_name := "pixel_values";
                            V2.na_shape := "[1, 3, 1024, 1024]" |} ];
     V2.sess_outputs := [ {| V2.na_name := "alphas";
                             V2.na_shape := "[1, 1, 1024, 1024]" |} ] |}.

(** A platform on which every library call of the V2 script succeeds; the
    model answers with one 1 x 1 x 1024 x 1024 map. *)
Definition env2 : V2.Env :=
  {| V2.script_dir := "/app/python";
     V2.available_providers_text := "['CPUExecutionProvider']";
     V2.ort_inference_session := fun _ => inr session2;
     V2.ort_run := fun _ _ _ =>
       inr [ {| V2.shape := [1%nat; 1%nat; 1024%nat; 1024%nat]; V2.tdata := [] |} ];
     V2.requests_get := fun _ _ =>
       inr {| V2.status_code := 200; V2.resp_content := "jpeg bytes" |};
     V2.decode := fun _ => inr photo;
     V2.px_new := fun _ _ _ => [];
     V2.px_paste := fun dst _ _ => im_px dst;
     V2.px_band := fun _ _ => [];
     V2.px_convert := fun _ im => im_px im;
     V2.px_resample := fun im _ => im_px im;
     V2.tensor_of_image := fun _ => [];
     V2.px_of_tensor := fun _ => [];
     V2.makedirs := fun ds d => inr (ds ∪ {[ d ]});
     V2.save_error := fun _ _ => None;
     V2.inference_time_text := "0.250" |}.

(** A 2 x 1 RGB image: an orange pixel and a blue one. *)
Definition two_pixels : Image :=
  {| im_mode := RGB; im_size := (2%nat, 1%nat);
     im_px := [[250; 120; 10; 20; 40; 200]] |}.

(** One row of an RGB image pasted onto full transparency through a mask
    row with samples 0 or 255: a pixel under 255 is kept, opaque; a pixel
    under 0 stays transparent. *)
Fixpoint composite_row (src mask : list Z) : list Z :=
  match src, mask with
  | r :: g :: b :: src', m :: mask' =>
      (if m =? 255 then [r; g; b; 255] else [0; 0; 0; 0]) ++ composite_row src' mask'
  | _, _ => []
  end.

(** The platform of [env2] with pixels: the decoder returns [two_pixels],
    the model's map resized to 2 x 1 keeps the first pixel and drops the
    second, and [paste] composites through the mask. *)
Definition env2_pixels : V2.Env :=
  {| V2.script_dir := V2.script_dir env2;
     V2.available_providers_text := V2.available_providers_text env2;
     V2.ort_inference_session := V2.ort_inference_session env2;
     V2.ort_run := V2.ort_run env2;
     V2.requests_get := V2.requests_get env2;
     V2.decode := fun _ => inr two_pixels;
     V2.px_new := V2.px_new env2;
     V2.px_paste := fun dst src mask =>
       match mask with
       | Some m => zip_with composite_row (im_px src) (im_px m)
       | None => im_px src
       end;
     V2.px_band := V2.px_band env2;
     V2.px_convert := V2.px_convert env2;
     V2.px_resample := fun im size =>
       if V2.size_eqb size (2%nat, 1%nat) then [[255; 0]] else im_px im;
     V2.tensor_of_image := V2.tensor_of_image env2;
     V2.px_of_tensor := V2.px_of_tensor env2;
     V2.makedirs := V2.makedirs env2;
     V2.save_error := V2.save_error env2;
     V2.inference_time_text := V2.inference_time_text env2 |}.

(** The same platform without a loadable model file. *)
Definition env2_no_model : V2.Env :=
  {| V2.script_dir := V2.script_dir env2;
     V2.available_providers_text := V2.available_providers_text env2;
     V2.ort_inference_session := fun _ => inl (LibraryError "NO_SUCHFILE: file doesn't exist");
     V2.ort_run := V2.ort_run env2;
     V2.requests_get := V2.requests_get env2;
     V2.decode := V2.decode env2;
     V2.px_new := V2.px_new env2;
     V2.px_paste := V2.px_paste env2;
     V2.px_band := V2.px_band env2;
     V2.px_convert := V2.px_convert env2;
     V2.px_resample := V2.px_resample env2;
     V2.tensor_of_image := V2.tensor_of_image env2;
     V2.px_of_tensor := V2.px_of_tensor env2;
     V2.makedirs := V2.makedirs env2;
     V2.save_error := V2.save_error env2;
     V2.inference_time_text := V2.inference_time_text env2 |}.

(** A platform for [test_rmbg.py]. *)
Definition env_t1 : TestV1.Env :=
  {| TestV1.px_resample := fun im _ => im_px im;
     TestV1.px_putalpha := fun im _ => im_px im;
     TestV1.remove_error := fun _ => None;
     TestV1.elapsed_text := "0.75" |}.

Definition args_t1 : TestV1.Args :=
  {| TestV1.arg_input := "in.jpg"; TestV1.arg_output := None;
     TestV1.arg_threshold := V1.default_threshold;
     TestV1.arg_edge_enhancement := "true"; TestV1.arg_color_aware := "true" |}.

(** Arguments of the runs below. *)
Definition args1 (edge_enhancement color_aware : string) : V1.Args :=
  {| V1.input_image := "in.jpg"; V1.arg_output_path := "mask.png";
     V1.arg_threshold := V1.default_threshold;
     V1.arg_edge_enhancement := edge_enhancement;
     V1.arg_color_aware := color_aware |}.

Definition args2 (input : string) : V2.Args :=
  {| V2.arg_input := input; V2.arg_output := None; V2.arg_model := None |}.

(** A disk holding the V1 weights and one photograph; nothing printed yet. *)
Definition world0 : world :=
  {| stdout := [];
     files := {[ "/app/python/models/model.pth" := Raw "weights";
                 "in.jpg" := Raw "jpeg bytes" ]};
     dirs := {[ "/app/python/models" ]};
     trace := [] |}.

(** A disk with neither weights nor images. *)
Definition empty_world : world :=
  {| stdout := []; files := ∅; dirs := ∅; trace := [] |}.

(** The V2 script run on the photograph, writing to [out/res.png]. *)
Definition run2 : outcome (Image * Image) * world :=
  V2.process_image env2 (V2.PathArg "in.jpg") (Some "out/res.png") None world0.

(** The same run on the platform with pixels. *)
Definition run2_pixels : outcome (Image * Image) * world :=
  V2.process_image env2_pixels (V2.PathArg "in.jpg") (Some "out/res.png") None world0.

End Examples.

(** ** The script monad: inversion and frame rules *)

Module PyFacts.

Lemma bind_Ret_inv {A B : Type} (m : M A) (k : A -> M B) (w w' : world) (b : B) :
  bind m k w = (Ret b, w') ->
  exists (a : A) (w1 : world), m w = (Ret a, w1) /\ k a w1 = (Ret b, w').
Proof.
  unfold bind. destruct (m w) as [[a | e | c] w1]; intros H; try discriminate.
  exists a, w1. split; [reflexivity | exact H].
Qed.

Lemma bind_Ret {A B : Type} (m : M A) (k : A -> M B) (w w1 : world) (a : A) :
  m w = (Ret a, w1) -> bind m k w = k a w1.
Proof. unfold bind. now intros ->. Qed.

Lemma bind_Raise {A B : Type} (m : M A) (k : A -> M B) (w w1 : world) (e : exn) :
  m w = (Raise e, w1) -> bind m k w = (Raise e, w1).
Proof. unfold bind. now intros ->. Qed.

Lemma bind_SysExit {A B : Type} (m : M A) (k : A -> M B) (w w1 : world) (c : Z) :
  m w = (SysExit c, w1) -> bind m k w = (SysExit c, w1).
Proof. unfold bind. now intros ->. Qed.

Lemma lift_Ret_inv {A : Type} (r : exn + A) (w w' : world) (a : A) :
  lift r w = (Ret a, w') -> r = inr a /\ w' = w.
Proof.
  destruct r as [e | x]; cbn; unfold raise, ret; intros [= ]; subst; auto.
Qed.

Lemma try_except_Ret {A : Type} (body : M A) (h : exn -> M A) (w w1 : world) (a : A) :
  body w = (Ret a, w1) -> try_except body h w = (Ret a, w1).
Proof. unfold try_except. now intros ->. Qed.

Lemma try_except_Raise {A : Type} (body : M A) (h : exn -> M A) (w w1 : world) (e : exn) :
  body w = (Raise e, w1) -> try_except body h w = h e w1.
Proof. unfold try_except. now intros ->. Qed.

Lemma try_except_SysExit {A : Type} (body : M A) (h : exn -> M A) (w w1 : world) (c : Z) :
  body w = (SysExit c, w1) -> try_except body h w = (SysExit c, w1).
Proof. unfold try_except. now intros ->. Qed.

(** A handler that prints and re-raises never turns a failure into a
    result. *)
Lemma try_reraise_Ret_inv {A : Type} (body : M A) (msg : exn -> string)
      (w w' : world) (a : A) :
  try_except body (fun e => print (msg e) ;; raise e) w = (Ret a, w') ->
  body w = (Ret a, w').
Proof.
  unfold try_except. destruct (body w) as [[x | e | c] w1]; intros H;
    [exact H | discriminate H | discriminate H].
Qed.

(** *** Frame rules: what a computation leaves untouched in the world *)

Section Frame.
Variable R : world -> world -> Prop.
Hypothesis R_refl : forall w, R w w.
Hypothesis R_trans : forall w1 w2 w3, R w1 w2 -> R w2 w3 -> R w1 w3.

Local Abbreviation preserves := (Py.preserves R).

Lemma preserves_ret {A : Type} (a : A) : preserves (ret a).
Proof. intros w w' r [= <- <-]. apply R_refl. Qed.

Lemma preserves_raise {A : Type} (e : exn) : preserves (@raise A e).
Proof. intros w w' r [= <- <-]. apply R_refl. Qed.

Lemma preserves_sys_exit {A : Type} (c : Z) : preserves (@sys_exit A c).
Proof. intros w w' r [= <- <-]. apply R_refl. Qed.

Lemma preserves_lift {A : Type} (x : exn + A) : preserves (lift x).
Proof. destruct x; [apply preserves_raise | apply preserves_ret]. Qed.

Lemma preserves_get_world : preserves get_world.
Proof. intros w w' r [= <- <-]. apply R_refl. Qed.

Lemma preserves_os_path_exists (p : string) : preserves (os_path_exists p).
Proof. intros w w' r [= <- <-]. apply R_refl. Qed.

Lemma preserves_os_path_isfile (p : string) : preserves (os_path_isfile p).
Proof. intros w w' r [= <- <-]. apply R_refl. Qed.

Lemma preserves_bind {A B : Type} (m : M A) (k : A -> M B) :
  preserves m -> (forall a, preserves (k a)) -> preserves (bind m k).
Proof.
  intros Hm Hk w w' r. unfold bind.
  destruct (m w) as [[a | e | c] w1] eqn:E; intros H.
  - eapply R_trans; [exact (Hm _ _ _ E) | exact (Hk _ _ _ _ H)].
  - injection H as <- <-. exact (Hm _ _ _ E).
  - injection H as <- <-. exact (Hm _ _ _ E).
Qed.

Lemma preserves_try_except {A : Type} (body : M A) (h : exn -> M A) :
  preserves body -> (forall e, preserves (h e)) -> preserves (try_except body h).
Proof.
  intros Hb Hh w w' r. unfold try_except.
  destruct (body w) as [[a | e | c] w1] eqn:E; intros H.
  - injection H as <- <-. exact (Hb _ _ _ E).
  - eapply R_trans; [exact (Hb _ _ _ E) | exact (Hh _ _ _ _ H)].
  - injection H as <- <-. exact (Hb _ _ _ E).
Qed.

Lemma preserves_if {A : Type} (b : bool) (m1 m2 : M A) :
  preserves m1 -> preserves m2 -> preserves (if b then m1 else m2).
Proof. destruct b; auto. Qed.

End Frame.

Lemma same_files_refl (w : world) : same_files w w.
Proof. reflexivity. Qed.

Lemma same_files_trans (w1 w2 w3 : world) :
  same_files w1 w2 -> same_files w2 w3 -> same_files w1 w3.
Proof. unfold same_files. congruence. Qed.

Lemma same_trace_refl (w : world) : same_trace w w.
Proof. reflexivity. Qed.

Lemma same_trace_trans (w1 w2 w3 : world) :
  same_trace w1 w2 -> same_trace w2 w3 -> same_trace w1 w3.
Proof. unfold same_trace. congruence. Qed.

Lemma print_same_files (s : string) : preserves same_files (print s).
Proof. intros w w' r [= <- <-]. reflexivity. Qed.

Lemma print_same_trace (s : string) : preserves same_trace (print s).
Proof. intros w w' r [= <- <-]. reflexivity. Qed.

Lemma log_event_same_files (ev : event) : preserves same_files (log_event ev).
Proof. intros w w' r [= <- <-]. reflexivity. Qed.

Lemma set_dirs_same_files (d : gset string) : preserves same_files (set_dirs d).
Proof. intros w w' r [= <- <-]. reflexivity. Qed.

Lemma set_dirs_same_trace (d : gset string) : preserves same_trace (set_dirs d).
Proof. intros w w' r [= <- <-]. reflexivity. Qed.

Lemma write_file_same_trace (p : string) (c : content) :
  preserves same_trace (write_file p c).
Proof. intros w w' r [= <- <-]. reflexivity. Qed.

(** *** Exit codes: which [sys.exit] a computation can end in *)

Lemma exits_ret {A : Type} (P : Z -> Prop) (a : A) : exits_only_with P (ret a).
Proof. intros w w' c [=]. Qed.

Lemma exits_raise {A : Type} (P : Z -> Prop) (e : exn) : exits_only_with P (@raise A e).
Proof. intros w w' c [=]. Qed.

Lemma exits_lift {A : Type} (P : Z -> Prop) (x : exn + A) : exits_only_with P (lift x).
Proof. destruct x; [apply exits_raise | apply exits_ret]. Qed.

Lemma exits_print (P : Z -> Prop) (s : string) : exits_only_with P (print s).
Proof. intros w w' c [=]. Qed.

Lemma exits_log_event (P : Z -> Prop) (ev : event) : exits_only_with P (log_event ev).
Proof. intros w w' c [=]. Qed.

Lemma exits_get_world (P : Z -> Prop) : exits_only_with P get_world.
Proof. intros w w' c [=]. Qed.

Lemma exits_set_dirs (P : Z -> Prop) (d : gset string) : exits_only_with P (set_dirs d).
Proof. intros w w' c [=]. Qed.

Lemma exits_write_file (P : Z -> Prop) (p : string) (x : content) :
  exits_only_with P (write_file p x).
Proof. intros w w' c [=]. Qed.

Lemma exits_os_path_exists (P : Z -> Prop) (p : string) :
  exits_only_with P (os_path_exists p).
Proof. intros w w' c [=]. Qed.

Lemma exits_os_path_isfile (P : Z -> Prop) (p : string) :
  exits_only_with P (os_path_isfile p).
Proof. intros w w' c [=]. Qed.

Lemma exits_sys_exit {A : Type} (P : Z -> Prop) (c : Z) :
  P c -> exits_only_with P (@sys_exit A c).
Proof. intros Hc w w' c' [= <- _]. exact Hc. Qed.

Lemma exits_bind {A B : Type} (P : Z -> Prop) (m : M A) (k : A -> M B) :
  exits_only_with P m -> (forall a, exits_only_with P (k a)) ->
  exits_only_with P (bind m k).
Proof.
  intros Hm Hk w w' c. unfold bind.
  destruct (m w) as [[a | e | c1] w1] eqn:E; intros H.
  - exact (Hk _ _ _ _ H).
  - discriminate H.
  - injection H as <- <-. exact (Hm _ _ _ E).
Qed.

Lemma exits_try_except {A : Type} (P : Z -> Prop) (body : M A) (h : exn -> M A) :
  exits_only_with P body -> (forall e, exits_only_with P (h e)) ->
  exits_only_with P (try_except body h).
Proof.
  intros Hb Hh w w' c. unfold try_except.
  destruct (body w) as [[a | e | c1] w1] eqn:E; intros H.
  - discriminate H.
  - exact (Hh _ _ _ _ H).
  - injection H as <- <-. exact (Hb _ _ _ E).
Qed.

Lemma exits_if {A : Type} (P : Z -> Prop) (b : bool) (m1 m2 : M A) :
  exits_only_with P m1 -> exits_only_with P m2 ->
  exits_only_with P (if b then m1 else m2).
Proof. destruct b; auto. Qed.

End PyFacts.

(** ** Paths *)

Module PathFacts.
Import Path.

Lemma str_take_drop (n : nat) (s : string) : str_take n s ++ str_drop n s = s.
Proof.
  revert s. induction n as [| n IH]; intros [| c s]; try reflexivity.
  change (String c (str_take n s ++ str_drop n s) = String c s).
  f_equal. apply IH.
Qed.

Lemma append_inv_head (a b c : string) : a ++ b = a ++ c -> b = c.
Proof.
  induction a as [| x a IH]; [auto |].
  change (String x (a ++ b) = String x (a ++ c) -> b = c). intros [= H]. auto.
Qed.

Lemma append_empty_r (s : string) : s ++ "" = s.
Proof.
  induction s as [| c s IH]; [reflexivity |].
  change (String c (s ++ "") = String c s). f_equal. exact IH.
Qed.

(** [rfind_from] returns the accumulator or the index of an occurrence. *)
Lemma rfind_from_spec (c : ascii) (s : string) : forall i acc : Z,
  rfind_from c s i acc = acc \/
  (i <= rfind_from c s i acc /\
   exists rest : string,
     str_drop (Z.to_nat (rfind_from c s i acc - i)) s = String c rest).
Proof.
  induction s as [| a s IH]; intros i acc; cbn [rfind_from]; [left; reflexivity |].
  destruct (IH (i + 1) (if Ascii.eqb a c then i else acc)) as [E | [Hle [rest Hrest]]].
  - rewrite E. destruct (Ascii.eqb_spec a c) as [-> | Hne]; [right | left; reflexivity].
    split; [lia |]. exists s. now rewrite Z.sub_diag.
  - right. split; [lia |]. exists rest.
    replace (Z.to_nat (rfind_from c s (i + 1) (if Ascii.eqb a c then i else acc) - i))
      with (S (Z.to_nat (rfind_from c s (i + 1) (if Ascii.eqb a c then i else acc) - (i + 1))))
      by lia.
    exact Hrest.
Qed.

Lemma rfind_spec (c : ascii) (s : string) :
  rfind c s = -1 \/
  (0 <= rfind c s /\ exists rest : string, str_drop (Z.to_nat (rfind c s)) s = String c rest).
Proof.
  unfold rfind. destruct (rfind_from_spec c s 0 (-1)) as [E | [Hle [rest Hrest]]];
    [left; exact E | right].
  split; [exact Hle |]. exists rest. now rewrite Z.sub_0_r in Hrest.
Qed.

Lemma rfind_lower_bound (c : ascii) (s : string) : -1 <= rfind c s.
Proof. destruct (rfind_spec c s) as [-> | [H _]]; lia. Qed.

(** [splitext] cuts the path in two, and the extension is empty or starts
    with the dot. *)
Lemma splitext_spec (p : string) :
  fst (splitext p) ++ snd (splitext p) = p /\
  (snd (splitext p) = "" \/ exists rest : string, snd (splitext p) = String "." rest).
Proof.
  unfold splitext.
  destruct ((rfind "/" p <? rfind "." p)
            && has_name_before_dot (Z.to_nat (rfind "." p - (rfind "/" p + 1))) p
                 (rfind "/" p + 1) (rfind "." p)) eqn:E; cbn [fst snd].
  - split; [apply str_take_drop | right].
    apply andb_prop in E as [Hlt _]. apply Z.ltb_lt in Hlt.
    pose proof (rfind_lower_bound "/" p) as Hsep.
    destruct (rfind_spec "." p) as [Hnone | [_ [rest Hrest]]]; [lia |].
    exists rest. exact Hrest.
  - split; [apply append_empty_r | left; reflexivity].
Qed.

(** The mask is never written over the output file. *)
Lemma mask_path_differs (output_path : string) :
  V2.mask_path_of output_path <> output_path.
Proof.
  unfold V2.mask_path_of. intros H.
  destruct (splitext_spec output_path) as [Hcat Hext].
  rewrite <- Hcat in H at 2. apply append_inv_head in H.
  destruct Hext as [E | [rest E]]; rewrite E in H; discriminate H.
Qed.

End PathFacts.

(** * Properties *)

(** ** Facts about binary64 rounding, from the specification of the
       primitive floats *)

Module FloatFacts.

(** [digits2_pos p] is the number of binary digits of [p]. *)
Lemma digits2_pos_bounds (p : positive) :
  2 ^ (Zpos (digits2_pos p) - 1) <= Zpos p < 2 ^ Zpos (digits2_pos p).
Proof.
  induction p as [p IH | p IH |]; cbn [digits2_pos].
  - rewrite Pos2Z.inj_succ.
    replace (Z.succ (Zpos (digits2_pos p)) - 1) with (Z.succ (Zpos (digits2_pos p) - 1)) by lia.
    rewrite !Z.pow_succ_r by lia. lia.
  - rewrite Pos2Z.inj_succ.
    replace (Z.succ (Zpos (digits2_pos p)) - 1) with (Z.succ (Zpos (digits2_pos p) - 1)) by lia.
    rewrite !Z.pow_succ_r by lia. lia.
  - cbn. lia.
Qed.

(** One right shift halves a non-negative mantissa. *)
Lemma shr_1_m (r : shr_record) :
  0 <= shr_m r -> shr_m (shr_1 r) = shr_m r / 2.
Proof.
  destruct r as [m r s]; cbn [shr_m]. intros Hm.
  destruct m as [| [p | p |] | p]; cbn [shr_1 shr_m]; try lia; try reflexivity.
  - apply Z.div_unique_pos with (r := 1); lia.
  - apply Z.div_unique_pos with (r := 0); lia.
Qed.

Lemma iter_shr_1_m (p : positive) : forall r : shr_record,
  0 <= shr_m r -> shr_m (SpecFloat.iter_pos shr_1 p r) = shr_m r / 2 ^ Zpos p.
Proof.
  assert (Hnn : forall r, 0 <= shr_m r -> 0 <= shr_m (shr_1 r)).
  { intros r Hr. rewrite shr_1_m by exact Hr. apply Z.div_pos; lia. }
  induction p as [p IH | p IH |]; intros r Hr; cbn [SpecFloat.iter_pos].
  - rewrite IH.
    + rewrite IH by auto. rewrite shr_1_m by exact Hr.
      rewrite !Z.div_div by lia.
      replace (Zpos p~1) with (1 + Zpos p + Zpos p) by lia.
      rewrite !Z.pow_add_r by lia. rewrite Z.pow_1_r. now rewrite Z.mul_assoc.
    + rewrite IH by auto. apply Z.div_pos; [auto | lia].
  - rewrite IH.
    + rewrite IH by auto. rewrite !Z.div_div by lia.
      replace (Zpos p~0) with (Zpos p + Zpos p) by lia.
      now rewrite !Z.pow_add_r by lia.
    + rewrite IH by auto. apply Z.div_pos; [auto | lia].
  - rewrite shr_1_m by exact Hr. now rewrite Z.pow_1_r.
Qed.

(** [shr] by [n] divides the mantissa by [2^n] and adds [n] to the exponent
    (nothing happens for [n <= 0]). *)
Lemma shr_m_e (r : shr_record) (e n : Z) :
  0 <= shr_m r ->
  shr_m (fst (shr r e n)) = shr_m r / 2 ^ Z.max n 0 /\
  snd (shr r e n) = e + Z.max n 0.
Proof.
  intros Hr. destruct n as [| p | p]; cbn [shr fst snd].
  - rewrite Z.max_id. cbn. rewrite Z.div_1_r. lia.
  - rewrite iter_shr_1_m by exact Hr. rewrite Z.max_l by lia. lia.
  - rewrite Z.max_r by lia. cbn. rewrite Z.div_1_r. lia.
Qed.

(** Rounding to nearest even keeps or increments the truncated mantissa. *)
Lemma round_nearest_even_bounds (m : Z) (l : location) :
  m <= round_nearest_even m l <= m + 1.
Proof.
  destruct l as [| []]; cbn [round_nearest_even]; try lia.
  destruct (Z.even m); lia.
Qed.

(** The result of rounding the exact value [M * 2^E]: a first shift to the
    target precision, the rounded mantissa [r1], a second shift that absorbs
    a carry. *)
Lemma binary_round_aux_exact (prec emax : Z) (s : bool) (M E : Z) :
  0 <= M ->
  exists r1 : Z,
    let n1 := Z.max (fexp prec emax (Zdigits2 M + E) - E) 0 in
    let e1 := E + n1 in
    let n2 := Z.max (fexp prec emax (Zdigits2 r1 + e1) - e1) 0 in
    M / 2 ^ n1 <= r1 <= M / 2 ^ n1 + 1 /\
    binary_round_aux prec emax s M E loc_Exact =
      match r1 / 2 ^ n2 with
      | Z0 => S754_zero s
      | Zpos m => if e1 + n2 <=? emax - prec
                  then S754_finite s m (e1 + n2) else S754_infinity s
      | Zneg _ => S754_nan
      end.
Proof.
  intros HM. unfold binary_round_aux, shr_fexp.
  cbn [shr_record_of_loc].
  pose proof (shr_m_e (Build_shr_record M false false) E
                (fexp prec emax (Zdigits2 M + E) - E) HM) as [Hm1 He1].
  destruct (shr _ E _) as [mrs1 e1]. cbn [fst snd shr_m] in Hm1, He1.
  set (r1 := round_nearest_even (shr_m mrs1) (loc_of_shr_record mrs1)).
  pose proof (round_nearest_even_bounds (shr_m mrs1) (loc_of_shr_record mrs1)) as Hr1.
  fold r1 in Hr1.
  assert (Hr1nn : 0 <= r1).
  { rewrite Hm1 in Hr1. pose proof (Z.div_pos M (2 ^ Z.max (fexp prec emax (Zdigits2 M + E) - E) 0) HM).
    assert (0 < 2 ^ Z.max (fexp prec emax (Zdigits2 M + E) - E) 0) by (apply Z.pow_pos_nonneg; lia).
    lia. }
  pose proof (shr_m_e (Build_shr_record r1 false false) e1
                (fexp prec emax (Zdigits2 r1 + e1) - e1) Hr1nn) as [Hm2 He2].
  destruct (shr _ e1 _) as [mrs2 e2]. cbn [fst snd shr_m] in Hm2, He2.
  exists r1. cbn zeta. rewrite <- He1. split.
  - rewrite <- Hm1. exact Hr1.
  - rewrite <- Hm2, <- He2. reflexivity.
Qed.

(** Comparison of two positive finite floats: by exponent, then by
    mantissa. *)
Lemma SFleb_finite_pos (m1 m2 : positive) (e1 e2 : Z) :
  SFleb (S754_finite false m1 e1) (S754_finite false m2 e2) = true ->
  e1 < e2 \/ (e1 = e2 /\ Zpos m1 <= Zpos m2).
Proof.
  unfold SFleb, SFcompare.
  destruct (Z.compare_spec e1 e2) as [E | Hlt | Hgt].
  - intros H. right. split; [exact E |].
    rewrite Pos.compare_cont_spec in H. unfold Pos.switch_Eq in H.
    destruct (Pos.compare_spec m1 m2) as [Hc | Hc | Hc].
    + subst. apply Z.le_refl.
    + apply Z.lt_le_incl. exact Hc.
    + discriminate H.
  - intros _. left. exact Hlt.
  - intros H. discriminate H.
Qed.

Lemma SFleb_finite_pos_intro (m1 m2 : positive) (e1 e2 : Z) :
  e1 < e2 \/ (e1 = e2 /\ Zpos m1 <= Zpos m2) ->
  SFleb (S754_finite false m1 e1) (S754_finite false m2 e2) = true.
Proof.
  unfold SFleb, SFcompare. intros [Hlt | [-> Hm]].
  - destruct (Z.compare_spec e1 e2); try lia; reflexivity.
  - rewrite Z.compare_refl, Pos.compare_cont_spec. unfold Pos.switch_Eq.
    destruct (Pos.compare_spec m1 m2) as [Hc | Hc | Hc]; try reflexivity.
    exfalso. apply (Pos2Z.pos_lt_pos) in Hc. lia.
Qed.

Lemma pow2_lt_inv (a b : Z) : 0 <= b -> 2 ^ a < 2 ^ b -> a < b.
Proof. intros Hb H. apply (Z.pow_lt_mono_r_iff 2); lia. Qed.

Lemma Zdigits2_bounds (r : Z) :
  0 < r -> 2 ^ (Zdigits2 r - 1) <= r < 2 ^ Zdigits2 r.
Proof.
  destruct r as [| p | p]; try lia. intros _. apply digits2_pos_bounds.
Qed.

(** The binary64 product of a positive float [m * 2^e <= 1] with 255 lies in
    (0, 255]: rounding neither reaches zero nor exceeds 255.  The literals
    are 1 = 4503599627370496 * 2^-52 and 255 = 8972014882652160 * 2^-45. *)
Lemma SF64_scale_255 (m : positive) (e : Z) :
  bounded prec emax m e = true ->
  SFleb (S754_finite false m e) (S754_finite false 4503599627370496 (-52)) = true ->
  let y := SF64mul (S754_finite false m e) (S754_finite false 8972014882652160 (-45)) in
  SFleb y (S754_finite false 8972014882652160 (-45)) = true /\
  SFleb y (S754_zero false) = false.
Proof.
  intros Hv Hle. cbv zeta.
  unfold bounded, canonical_mantissa in Hv.
  apply andb_prop in Hv as [Hcan _]. apply Z.eqb_eq in Hcan.
  unfold fexp, emin in Hcan. change prec with 53 in *. change emax with 1024 in *.
  pose proof (digits2_pos_bounds m) as Hd.
  set (d := Zpos (digits2_pos m)) in *.
  assert (Hd1 : 1 <= d) by (unfold d; lia). clearbody d.
  pose proof (SFleb_finite_pos _ _ _ _ Hle) as He. clear Hle.
  destruct He as [He | [-> Hm]].
  2:{ (* the factor is exactly one *)
    assert (D : d = 53) by lia. rewrite D in Hd.
    change (2 ^ (53 - 1)) with 4503599627370496 in Hd.
    assert (m = 4503599627370496%positive) by lia. subst m. vm_compute. auto. }
  unfold SF64mul, SFmul. cbn [xorb]. change prec with 53. change emax with 1024.
  set (M := Zpos (m * 8972014882652160)).
  assert (HM : M = Zpos m * 8972014882652160) by (unfold M; lia).
  assert (HM0 : 0 < M) by (unfold M; lia).
  clearbody M.
  pose proof (Zdigits2_bounds M HM0) as HdM.
  assert (HdM0 : 0 < Zdigits2 M) by (destruct M; try discriminate; reflexivity).
  (* the product has between d + 52 and d + 53 binary digits *)
  assert (HdM1 : d + 52 <= Zdigits2 M <= d + 53).
  { set (dM := Zdigits2 M) in *. clearbody dM.
    assert (Hlo : 2 ^ (d - 1) * 2 ^ 52 <= M).
    { rewrite HM. apply Z.mul_le_mono_nonneg; [apply Z.pow_nonneg; lia | apply Hd | | ];
        discriminate. }
    assert (Hhi : M < 2 ^ d * 2 ^ 53).
    { rewrite HM. apply Z.mul_lt_mono_nonneg; [discriminate | apply Hd | discriminate | reflexivity]. }
    rewrite <- Z.pow_add_r in Hlo, Hhi by (clear - Hd1; lia).
    assert (d - 1 + 52 < dM).
    { apply pow2_lt_inv; [clear - HdM0; lia |].
      eapply Z.le_lt_trans; [exact Hlo | apply HdM]. }
    assert (dM - 1 < d + 53).
    { apply pow2_lt_inv; [clear - Hd1; lia |].
      eapply Z.le_lt_trans; [apply HdM | exact Hhi]. }
    clear - H H0. lia. }
  destruct (binary_round_aux_exact 53 1024 false M (e + -45) ltac:(lia))
    as [r1 [Hr1 Hres]].
  cbv zeta in Hr1, Hres. rewrite Hres. clear Hres.
  unfold fexp, emin in *. change (3 - 1024 - 53) with (-1074) in *.
  set (dM := Zdigits2 M) in *. clearbody dM.
  set (n1 := Z.max (Z.max (dM + (e + -45) - 53) (-1074) - (e + -45)) 0) in *.
  assert (Hn1 : 0 <= n1 <= dM - 1 /\ dM - 53 <= n1 <= 53 /\ -1074 <= e + -45 + n1 /\
                (n1 = 53 -> dM = 106)) by (clear Hr1; unfold n1; lia).
  clearbody n1.
  set (q := M / 2 ^ n1) in *.
  assert (Hp1 : 0 < 2 ^ n1) by (apply Z.pow_pos_nonneg; lia).
  assert (F1 : 1 <= q).
  { apply Z.div_le_lower_bound; [exact Hp1 |]. rewrite Z.mul_1_r.
    transitivity (2 ^ (dM - 1)); [apply Z.pow_le_mono_r; lia | apply HdM]. }
  assert (F2 : q < 2 ^ 53).
  { apply Z.div_lt_upper_bound; [exact Hp1 |]. rewrite <- Z.pow_add_r by lia.
    apply Z.lt_le_trans with (2 ^ dM); [apply HdM | apply Z.pow_le_mono_r; lia]. }
  assert (F3 : n1 = 53 -> q < 8972014882652160).
  { intros N1. unfold q. rewrite N1.
    apply Z.div_lt_upper_bound; [reflexivity |]. rewrite HM.
    assert (D : d = 53) by lia. rewrite D in Hd.
    apply Z.mul_lt_mono_pos_r; [reflexivity | apply Hd]. }
  clearbody q. change (2 ^ 53) with 9007199254740992 in F2.
  pose proof (Zdigits2_bounds r1 ltac:(lia)) as Hdr.
  set (dr := Zdigits2 r1) in *. clearbody dr.
  assert (Hdr1 : 1 <= dr <= 54).
  { split.
    - destruct (Z_lt_le_dec dr 1) as [Hlt | Hge]; [exfalso | exact Hge].
      assert (2 ^ dr <= 1); [| lia].
      destruct (Z_lt_le_dec dr 0) as [Hneg | Hnn].
      + rewrite Z.pow_neg_r by exact Hneg. lia.
      + assert (dr = 0) by lia. subst dr. cbn. lia.
    - assert (dr - 1 < 54); [| lia]. apply pow2_lt_inv; [lia |].
      change (2 ^ 54) with 18014398509481984. lia. }
  set (e1 := e + -45 + n1) in *.
  assert (He1 : e1 = e + -45 + n1) by reflexivity. clearbody e1.
  set (n2 := Z.max (Z.max (dr + e1 - 53) (-1074) - e1) 0).
  assert (Hn2 : n2 = 0 \/ (n2 = 1 /\ dr = 54)) by (unfold n2; lia).
  clearbody n2.
  assert (G : exists mz : positive, r1 / 2 ^ n2 = Zpos mz /\
            (e1 + n2 < -45 \/ (e1 + n2 = -45 /\ Zpos mz <= 8972014882652160))).
  { destruct Hn2 as [-> | [-> Hdr54]].
    - change (2 ^ 0) with 1. rewrite Z.div_1_r, Z.add_0_r.
      destruct r1 as [| pr | pr]; try lia. exists pr. split; [reflexivity |].
      destruct (Z.eq_dec e1 (-45)) as [E1 | NE1]; [right | left; lia].
      split; [exact E1 |].
      assert (N1 : n1 = 53) by lia. specialize (F3 N1). lia.
    - rewrite Hdr54 in Hdr. change (2 ^ (54 - 1)) with 9007199254740992 in Hdr.
      assert (r1 = 9007199254740992) by lia. subst r1.
      exists 4503599627370496%positive. split; [reflexivity |]. lia. }
  destruct G as [mz [-> Hz]].
  assert (Hfin : (e1 + n2 <=? 1024 - 53) = true) by (apply Z.leb_le; lia).
  rewrite Hfin. split; [| reflexivity].
  apply SFleb_finite_pos_intro. exact Hz.
Qed.

(** For a binary64 threshold [0 < t <= 1], the cut-off [t * 255] computed by
    the script satisfies [0 < t * 255 <= 255]. *)
Lemma threshold_product_bounds (t : float) :
  (0 <? t)%float = true -> (t <=? 1)%float = true ->
  (t * 255 <=? 255)%float = true /\ (t * 255 <=? 0)%float = false.
Proof.
  rewrite FloatAxioms.ltb_spec, !FloatAxioms.leb_spec, FloatAxioms.mul_spec.
  assert (E0 : Prim2SF 0 = S754_zero false) by reflexivity.
  assert (E1 : Prim2SF 1 = S754_finite false 4503599627370496 (-52)) by reflexivity.
  assert (E255 : Prim2SF 255 = S754_finite false 8972014882652160 (-45)) by reflexivity.
  rewrite E0, E1, E255. clear E0 E1 E255.
  pose proof (Prim2SF_valid t) as Hv.
  destruct (Prim2SF t) as [s | s | | s m e]; cbn [SFltb SFleb SFcompare]; try discriminate.
  - destruct s; discriminate.
  - destruct s; [discriminate |]. intros _ Hle.
    apply (SF64_scale_255 m e Hv Hle).
Qed.

End FloatFacts.

(** ** Lists and arrays *)

Module ArrayFacts.
Import Np.

Lemma lookup_map {A B : Type} (f : A -> B) (l : list A) (i : nat) :
  map f l !! i = f <$> (l !! i).
Proof.
  revert i. induction l as [| x l IH]; intros [| i]; cbn; auto.
Qed.

Lemma pixel_at_map (f : Z -> Z) (a : array2) (i j : nat) :
  pixel_at (map (map f) a) i j = f <$> pixel_at a i j.
Proof.
  unfold pixel_at. rewrite lookup_map.
  destruct (a !! i) as [row |]; cbn; [apply lookup_map | reflexivity].
Qed.

Lemma map_map_ext_in (f g : Z -> Z) (a : array2) :
  (forall row x, In row a -> In x row -> f x = g x) ->
  map (map f) a = map (map g) a.
Proof.
  intros H. apply map_ext_in. intros row Hrow.
  apply map_ext_in. intros x Hx. exact (H row x Hrow Hx).
Qed.

Lemma hd_map_length {A B : Type} (f : A -> B) (a : list (list A)) :
  length (hd [] (map (map f) a)) = length (hd [] a).
Proof. destruct a as [| r a]; cbn; [reflexivity | apply length_map]. Qed.

Lemma map_seq_const {A : Type} (g : nat -> A) (v : A) (n s : nat) :
  (forall i, (s <= i < s + n)%nat -> g i = v) ->
  map g (seq s n) = repeat v n.
Proof.
  revert s. induction n as [| n IH]; intros s H; cbn; [reflexivity |].
  rewrite (H s) by lia. f_equal. apply IH. intros i Hi. apply H. lia.
Qed.

Lemma map_repeat {A B : Type} (f : A -> B) (x : A) (n : nat) :
  map f (repeat x n) = repeat (f x) n.
Proof. induction n as [| n IH]; cbn; [reflexivity | now rewrite IH]. Qed.

Lemma zip_with_repeat {A B C : Type} (f : A -> B -> C) (x : A) (y : B) (n : nat) :
  zip_with f (repeat x n) (repeat y n) = repeat (f x y) n.
Proof. induction n as [| n IH]; cbn; [reflexivity | now rewrite IH]. Qed.

Lemma zip_with3_repeat {A B C D : Type} (f : A -> B -> C -> D)
      (x : A) (y : B) (z : C) (n : nat) :
  zip_with3 f (repeat x n) (repeat y n) (repeat z n) = repeat (f x y z) n.
Proof. induction n as [| n IH]; cbn; [reflexivity | now rewrite IH]. Qed.

Lemma nth_repeat_lt {A : Type} (x d : A) (n i : nat) :
  (i < n)%nat -> nth i (repeat x n) d = x.
Proof.
  revert i. induction n as [| n IH]; intros [| i] H; cbn; try lia; auto.
  apply IH. lia.
Qed.

(** Inside a line of length [n > 0], the 'reflect' boundary rule always
    points at a sample of the line. *)
Lemma reflect_index_lt (n : nat) (i : Z) :
  (0 < n)%nat -> -1 <= i <= Z.of_nat n -> (reflect_index n i < n)%nat.
Proof.
  intros Hn Hi. unfold reflect_index.
  destruct (Z.ltb_spec i 0); [lia |].
  destruct (Z.leb_spec (Z.of_nat n) i); lia.
Qed.

Lemma uniform_length {A : Type} (h w : nat) (c : A) : length (uniform h w c) = h.
Proof. apply repeat_length. Qed.

(** A 3-tap correlation whose weights sum to [s] maps a uniform array to a
    uniform one. *)
Lemma correlate1d_axis0_uniform (cast : Z -> Z) (w0 w1 w2 c : Z) (h w : nat) :
  correlate1d_axis0 cast w0 w1 w2 (uniform h w c)
  = uniform h w (c_cast_uint8 cast (w0 * c + w1 * c + w2 * c)).
Proof.
  unfold correlate1d_axis0, uniform. rewrite repeat_length.
  apply map_seq_const. intros i Hi.
  rewrite !nth_repeat_lt; [apply zip_with3_repeat | | lia |];
    apply reflect_index_lt; lia.
Qed.

Lemma correlate1d_line_uniform (cast : Z -> Z) (w0 w1 w2 c : Z) (w : nat) :
  correlate1d_line cast w0 w1 w2 (repeat c w)
  = repeat (c_cast_uint8 cast (w0 * c + w1 * c + w2 * c)) w.
Proof.
  unfold correlate1d_line. rewrite repeat_length.
  apply map_seq_const. intros i Hi.
  rewrite !nth_repeat_lt; [reflexivity | | lia |];
    apply reflect_index_lt; lia.
Qed.

Lemma correlate1d_axis1_uniform (cast : Z -> Z) (w0 w1 w2 c : Z) (h w : nat) :
  correlate1d_axis1 cast w0 w1 w2 (uniform h w c)
  = uniform h w (c_cast_uint8 cast (w0 * c + w1 * c + w2 * c)).
Proof.
  unfold correlate1d_axis1, uniform.
  rewrite map_repeat, correlate1d_line_uniform. reflexivity.
Qed.

Lemma c_cast_uint8_zero (cast : Z -> Z) (c : Z) :
  c_cast_uint8 cast (-1 * c + 0 * c + 1 * c) = 0.
Proof. replace (-1 * c + 0 * c + 1 * c) with 0 by lia. reflexivity. Qed.

(** Both Sobel derivatives of a uniform array vanish. *)
Lemma sobel_axis0_uniform (cast : Z -> Z) (c : Z) (h w : nat) :
  sobel_axis0 cast (uniform h w c) = uniform h w 0.
Proof.
  unfold sobel_axis0.
  rewrite correlate1d_axis0_uniform, c_cast_uint8_zero, correlate1d_axis1_uniform.
  reflexivity.
Qed.

Lemma sobel_axis1_uniform (cast : Z -> Z) (c : Z) (h w : nat) :
  sobel_axis1 cast (uniform h w c) = uniform h w 0.
Proof.
  unfold sobel_axis1.
  rewrite correlate1d_axis1_uniform, c_cast_uint8_zero, correlate1d_axis0_uniform.
  reflexivity.
Qed.

Lemma map_map_uniform {A B : Type} (f : A -> B) (h w : nat) (c : A) :
  map (map f) (uniform h w c) = uniform h w (f c).
Proof. unfold uniform. now rewrite !map_repeat. Qed.

Lemma fold_left_repeat_fixed {A : Type} (f : A -> A -> A) (x : A) (n : nat) :
  f x x = x -> fold_left f (repeat x n) x = x.
Proof.
  intros H. induction n as [| n IH]; cbn; [reflexivity |]. now rewrite H.
Qed.

Lemma concat_uniform {A : Type} (h w : nat) (c : A) :
  concat (uniform h w c) = repeat c (h * w).
Proof.
  unfold uniform. induction h as [| h IH]; cbn; [reflexivity |].
  rewrite IH. symmetry. apply repeat_app.
Qed.

Lemma f16_array_max_uniform (h w : nat) (x : f16) :
  (0 < h)%nat -> (0 < w)%nat -> f16_max2 x x = x ->
  f16_array_max (uniform h w x) = Some x.
Proof.
  intros Hh Hw Hx. unfold f16_array_max. rewrite concat_uniform.
  destruct (h * w)%nat as [| n] eqn:E; [nia |].
  cbn. now rewrite fold_left_repeat_fixed.
Qed.

Lemma lookup_zip_with_Some {A B C : Type} (f : A -> B -> C) (l : list A) (k : list B)
      (i : nat) (x : A) (y : B) :
  l !! i = Some x -> k !! i = Some y -> zip_with f l k !! i = Some (f x y).
Proof.
  revert k i. induction l as [| a l IH]; intros [| b k] [| i]; cbn; try discriminate.
  - now intros [= ->] [= ->].
  - apply IH.
Qed.

Lemma pixel_at_maximum (a b : array2) (i j : nat) (x y : Z) :
  pixel_at a i j = Some x -> pixel_at b i j = Some y ->
  pixel_at (maximum a b) i j = Some (Z.max x y).
Proof.
  unfold pixel_at, maximum. intros Ha Hb.
  destruct (a !! i) as [ra |] eqn:Ea; [| discriminate].
  destruct (b !! i) as [rb |] eqn:Eb; [| discriminate].
  rewrite (lookup_zip_with_Some _ _ _ _ _ _ Ea Eb).
  now apply lookup_zip_with_Some.
Qed.

End ArrayFacts.

(** ** Mask post-processing of the V1 script *)

Module V1Facts.
Import Np ArrayFacts.

(** The binarisation function applied to each sample by [apply_threshold]. *)
Lemma apply_threshold_px (mask : Image) (t : float) :
  im_px (V1.apply_threshold mask t)
  = map (map (fun p => if PrimFloat.leb (t * 255) (pixel_to_float p) then 255 else 0))
        (im_px mask).
Proof.
  unfold V1.apply_threshold, fromarray, np_array, where_ge. cbn [im_px].
  apply map_map_ext_in. intros row x _ _.
  destruct (PrimFloat.leb (t * 255) (pixel_to_float x)); reflexivity.
Qed.

(** C7: for every mask (a single-channel, mode L image) and every threshold
    t, [apply_threshold] returns a single-channel (mode L) mask of the same
    shape in which a pixel is 255 exactly when the input pixel is at least
    t*255 (the binary64 product and comparison the script evaluates) and 0
    otherwise; so every pixel of the result is 0 or 255. *)
Theorem apply_threshold_binarizes (mask : Image) (t : float) :
  im_mode mask = L ->
  let out := V1.apply_threshold mask t in
  im_mode out = L /\
  (forall i j : nat,
      pixel_at (im_px out) i j = None <-> pixel_at (im_px mask) i j = None) /\
  (forall (i j : nat) (p : Z), pixel_at (im_px mask) i j = Some p ->
      (pixel_at (im_px out) i j = Some 255
       <-> PrimFloat.leb (t * 255) (pixel_to_float p) = true) /\
      (pixel_at (im_px out) i j = Some 0
       <-> PrimFloat.leb (t * 255) (pixel_to_float p) = false)) /\
  (forall (i j : nat) (q : Z), pixel_at (im_px out) i j = Some q -> q = 0 \/ q = 255).
Proof.
  intros _. cbv zeta. rewrite apply_threshold_px. split; [reflexivity |].
  split; [| split].
  - intros i j. rewrite pixel_at_map.
    destruct (pixel_at (im_px mask) i j); cbn; split; congruence.
  - intros i j p Hp. rewrite pixel_at_map, Hp. cbn [fmap option_fmap option_map].
    destruct (PrimFloat.leb (t * 255) (pixel_to_float p)); split; split; congruence.
  - intros i j q. rewrite pixel_at_map.
    destruct (pixel_at (im_px mask) i j) as [p |];
      cbn [fmap option_fmap option_map]; [| discriminate].
    destruct (PrimFloat.leb (t * 255) (pixel_to_float p)); intros [= <-]; auto.
Qed.

(** The 2 x 3 example mask at the default threshold 0.35 (cut-off 89.25):
    the samples 0 and 89 give 0, the samples 90, 100, 200 and 255 give 255. *)
Lemma apply_threshold_binarizes_witness :
  im_px (V1.apply_threshold Examples.mask23 V1.default_threshold)
  = [[0; 0; 255]; [255; 255; 255]] /\
  (forall (i j : nat) (q : Z),
      pixel_at (im_px (V1.apply_threshold Examples.mask23 V1.default_threshold)) i j
      = Some q -> q = 0 \/ q = 255).
Proof.
  split; [vm_compute; reflexivity |].
  exact (proj2 (proj2 (proj2
           (apply_threshold_binarizes Examples.mask23 V1.default_threshold eq_refl)))).
Defined.

(** C10: for every mask and every threshold t with 0 < t <= 1,
    [apply_threshold] is idempotent: thresholding its own output again with
    the same t gives the same image. *)
Theorem apply_threshold_idempotent (mask : Image) (t : float) :
  PrimFloat.ltb 0 t = true -> PrimFloat.leb t 1 = true ->
  V1.apply_threshold (V1.apply_threshold mask t) t = V1.apply_threshold mask t.
Proof.
  intros H0 H1.
  destruct (FloatFacts.threshold_product_bounds t H0 H1) as [Hhi Hlo].
  unfold V1.apply_threshold, fromarray, np_array, where_ge. cbn [im_px].
  rewrite map_map.
  assert (E : map (fun row : list Z =>
                     map (fun p => astype_uint8
                            (if PrimFloat.leb (t * 255) (pixel_to_float p) then 255 else 0))
                         (map (fun p => astype_uint8
                            (if PrimFloat.leb (t * 255) (pixel_to_float p) then 255 else 0))
                            row)) (im_px mask)
              = map (map (fun p => astype_uint8
                            (if PrimFloat.leb (t * 255) (pixel_to_float p) then 255 else 0)))
                    (im_px mask)).
  { apply map_ext. intros row. rewrite map_map. apply map_ext. intros p.
    destruct (PrimFloat.leb (t * 255) (pixel_to_float p)).
    - change (astype_uint8 255) with 255.
      change (pixel_to_float 255) with 255%float. now rewrite Hhi.
    - change (astype_uint8 0) with 0.
      change (pixel_to_float 0) with 0%float. now rewrite Hlo. }
  rewrite E. reflexivity.
Qed.

(** The idempotence of [apply_threshold] run on a 2 x 3 mask at the default
    threshold 0.35. *)
Lemma apply_threshold_idempotent_witness :
  V1.apply_threshold (V1.apply_threshold Examples.mask23 V1.default_threshold)
                     V1.default_threshold
  = V1.apply_threshold Examples.mask23 V1.default_threshold.
Proof.
  apply (apply_threshold_idempotent Examples.mask23 V1.default_threshold);
    vm_compute; reflexivity.
Defined.

(** The edge magnitudes of a uniform array are all zero. *)
Lemma edge_magnitude_uniform (env : V1.Env) (h w : nat) (c : Z) :
  V1.edge_magnitude env (uniform h w c) = uniform h w (S754_zero false).
Proof.
  unfold V1.edge_magnitude.
  rewrite sobel_axis0_uniform, sobel_axis1_uniform.
  unfold squared_magnitude, uniform.
  rewrite zip_with_repeat, zip_with_repeat, !map_repeat. reflexivity.
Qed.

(** C9: for a uniform mask (h x w samples, all equal to c; in particular a
    mask binarised to all 0 or all 255 by the threshold step) the
    edge-enhancement branch of [enhance_mask] divides by [edge_mask.max()]
    = 0: every normalised edge value is 0/0 = NaN, and the edge image is the
    platform's cast of NaN everywhere rather than an image of edges. *)
Theorem uniform_mask_edge_division_by_zero (env : V1.Env) (h w : nat) (c : Z) :
  (0 < h)%nat -> (0 < w)%nat ->
  let edge_mask := V1.edge_magnitude env (uniform h w c) in
  f16_array_max edge_mask = Some (S754_zero false) /\
  V1.normalize_edges edge_mask (S754_zero false) = uniform h w S754_nan /\
  V1.edge_image env (uniform h w c) = inr (uniform h w (V1.nan_cast env)).
Proof.
  intros Hh Hw. cbv zeta. unfold V1.edge_image.
  rewrite edge_magnitude_uniform.
  assert (Hmax : f16_array_max (uniform h w (S754_zero false)) = Some (S754_zero false))
    by (apply f16_array_max_uniform; [exact Hh | exact Hw | reflexivity]).
  rewrite Hmax. unfold V1.normalize_edges. rewrite map_map_uniform.
  change (f16_mul (f16_div (S754_zero false) (S754_zero false)) (f16_of_Z 255))
    with S754_nan.
  rewrite map_map_uniform. repeat split; reflexivity.
Qed.

(** The division by zero on the 2 x 2 mask that is 255 everywhere. *)
Lemma uniform_mask_edge_division_by_zero_witness :
  f16_array_max (V1.edge_magnitude Examples.env1 (uniform 2 2 255)) = Some (S754_zero false) /\
  V1.normalize_edges (V1.edge_magnitude Examples.env1 (uniform 2 2 255)) (S754_zero false)
    = uniform 2 2 S754_nan /\
  V1.edge_image Examples.env1 (uniform 2 2 255) = inr (uniform 2 2 0).
Proof.
  apply (uniform_mask_edge_division_by_zero Examples.env1 2 2 255); lia.
Defined.

(** With [edge_enhancement] false and [color_aware] true the run of
    [inference] never returns a mask. *)
Lemma inference_color_only_fails (env : V1.Env) (image_path output_path : string)
      (t : float) (w : world) (m : Image) :
  fst (V1.inference env image_path output_path t false true w) <> Ret m.
Proof.
  unfold V1.inference, try_except, V1.inference_body, bind.
  destruct (V1.create_pipeline env w) as [[pipe | e | c] w1]; cbn; try discriminate.
  destruct (V1.preprocess_image env image_path w1) as [[image | e | c] w2];
    cbn; try discriminate.
  destruct (V1.call_pipe env pipe image) as [e | mask]; cbn; discriminate.
Qed.

(** C8: with [edge_enhancement] false and [color_aware] true,
    [enhance_mask] raises a [NameError] (an [UnboundLocalError], for the
    name [ndimage] bound only inside the edge-enhancement branch) that it
    does not handle: it returns no image for any mask, the same holds for
    the post-processing reached through [inference] with these flags, and
    [inference] never returns a mask. *)
Theorem color_aware_without_edges_raises_NameError
        (env : V1.Env) (mask : Image) (t : float) :
  (exists e : exn, V1.enhance_mask env mask false true = inl e /\ is_NameError e = true) /\
  (forall out : Image, V1.enhance_mask env mask false true <> inr out) /\
  (exists e : exn, V1.postprocess_mask env mask t false true = inl e /\
                   is_NameError e = true) /\
  (forall (image_path output_path : string) (w : world) (m : Image),
      fst (V1.inference env image_path output_path t false true w) <> Ret m).
Proof.
  split; [| split; [| split]].
  - eexists. split; reflexivity.
  - intros out. discriminate.
  - eexists. split; reflexivity.
  - intros image_path output_path w m. apply inference_color_only_fails.
Qed.

(** C4, as stated, fails: thresholding cannot be switched off.  With both
    enhancement flags off and whatever threshold, the 1 x 1 mask of grey
    level 100 does not come out unchanged. *)
Lemma threshold_is_not_optional :
  ~ (exists (env : V1.Env) (t : float),
        V1.postprocess_mask env Examples.grey100 t false false = inr Examples.grey100).
Proof.
  intros (env & t & H). unfold V1.postprocess_mask in H. cbn [orb] in H.
  injection H as H. destruct (PrimFloat.leb _ _); discriminate H.
Qed.

(** C4, amended: the threshold is always applied (only its value can be
    chosen); then, with [edge_enhancement], the Sobel edge image is blended
    in by element-wise maximum; then, with [color_aware] as well, the result
    is Gaussian-smoothed (sigma 0.5) and re-binarised (above 127 gives 255,
    the rest 0).  Each of the two enhancement steps has its own flag. *)
Theorem postprocess_mask_steps (env : V1.Env) (mask : Image) (t : float) :
  let th := V1.apply_threshold mask t in
  V1.postprocess_mask env mask t false false = inr th /\
  V1.postprocess_mask env mask t true false
  = match V1.edge_image env (im_px th) with
    | inl e => inl e
    | inr edges => inr (fromarray (maximum (im_px th) edges))
    end /\
  V1.postprocess_mask env mask t true true
  = match V1.edge_image env (im_px th) with
    | inl e => inl e
    | inr edges =>
        inr (fromarray (where_gt_127
                          (V1.gaussian_filter env (maximum (im_px th) edges) 0.5%float)))
    end /\
  (forall (a b : array2) (i j : nat) (x y : Z),
      pixel_at a i j = Some x -> pixel_at b i j = Some y ->
      pixel_at (maximum a b) i j = Some (Z.max x y)) /\
  (forall (a : array2) (i j : nat),
      pixel_at (where_gt_127 a) i j
      = (fun p => if 127 <? p then 255 else 0) <$> pixel_at a i j).
Proof.
  cbv zeta. split; [reflexivity |]. split; [| split; [| split]].
  - unfold V1.postprocess_mask, V1.enhance_mask, V1.edge_branch, np_array. cbn [orb].
    destruct (V1.edge_image env (im_px (V1.apply_threshold mask t))); reflexivity.
  - unfold V1.postprocess_mask, V1.enhance_mask, V1.edge_branch, np_array. cbn [orb].
    destruct (V1.edge_image env (im_px (V1.apply_threshold mask t))); reflexivity.
  - intros a b i j x y. apply pixel_at_maximum.
  - intros a i j. unfold where_gt_127.
    rewrite (map_map_ext_in _ (fun p => if 127 <? p then 255 else 0)).
    + apply pixel_at_map.
    + intros row x _ _. destruct (127 <? x); reflexivity.
Qed.

End V1Facts.

(** ** The V2 script: image sizes, files written, input dispatch *)

Module V2Facts.
Import PyFacts Path.

Lemma size_eqb_eq (a b : nat * nat) : V2.size_eqb a b = true -> a = b.
Proof.
  destruct a as [a1 a2], b as [b1 b2]. unfold V2.size_eqb. cbn [fst snd].
  intros H. apply andb_prop in H as [H1 H2].
  apply Nat.eqb_eq in H1, H2. now subst.
Qed.

(** [resize] returns an image of the requested size, in the same mode. *)
Lemma resize_spec (env : V2.Env) (im im' : Image) (size : nat * nat) :
  V2.resize env im size = inr im' -> im_size im' = size /\ im_mode im' = im_mode im.
Proof.
  unfold V2.resize. destruct (V2.size_eqb (im_size im) size) eqn:E.
  - intros [= <-]. split; [now apply size_eqb_eq | reflexivity].
  - destruct (Nat.eqb (fst size) 0 || Nat.eqb (snd size) 0); [discriminate |].
    intros [= <-]. split; reflexivity.
Qed.

(** [paste] keeps the size and mode of the image pasted into. *)
Lemma paste_spec (env : V2.Env) (dst src mask out : Image) :
  V2.paste env dst src mask = inr out ->
  im_size out = im_size dst /\ im_mode out = im_mode dst.
Proof.
  unfold V2.paste.
  destruct (negb (V2.size_eqb (im_size mask) (im_size src))); [discriminate |].
  destruct (negb (V2.mask_mode_ok (im_mode mask))); [discriminate |].
  intros [= <-]. split; reflexivity.
Qed.

Lemma flatten_rgba_size (env : V2.Env) (img img' : Image) :
  V2.flatten_rgba env img = inr img' -> im_size img' = im_size img.
Proof.
  unfold V2.flatten_rgba. destruct (mode_eqb (im_mode img) RGBA).
  - intros H. apply paste_spec in H as [H _]. exact H.
  - now intros [= <-].
Qed.

Lemma postprocess_spec (env : V2.Env) (self : V2.RMBG2) (t : V2.Tensor)
      (size : nat * nat) (mask : Image) :
  V2._postprocess env self t size = inr mask ->
  im_size mask = size /\
  (length (V2.shape (V2.squeeze t)) = 2%nat -> im_mode mask = L).
Proof.
  unfold V2._postprocess.
  destruct (V2.fromarray_shape (V2.shape (V2.squeeze t))) as [e | [m sz]] eqn:E;
    [discriminate |].
  intros H. apply resize_spec in H as [Hs Hm]. cbn [im_mode] in Hm.
  split; [exact Hs |]. intros Hlen. rewrite Hm.
  destruct (V2.shape (V2.squeeze t)) as [| h [| w' [| c l]]]; try discriminate Hlen.
  cbn in E. now injection E as <- _.
Qed.

Lemma preprocess_shape (env : V2.Env) (self : V2.RMBG2) (img : Image) (x : V2.Tensor) :
  V2._preprocess env self img = inr x ->
  V2.shape x = [1%nat; 3%nat; V2.INPUT_SIZE; V2.INPUT_SIZE].
Proof.
  unfold V2._preprocess.
  destruct (V2.resize env (V2.convert_rgb env img) (V2.INPUT_SIZE, V2.INPUT_SIZE))
    as [e | r] eqn:E; [discriminate |].
  apply resize_spec in E as [Hs _]. intros [= <-]. cbn [V2.shape]. now rewrite Hs.
Qed.

Lemma first_inr_In {A : Type} (xs : list A) (x : A) : V2.first xs = inr x -> In x xs.
Proof. destruct xs as [| y ys]; [discriminate |]. intros [= ->]. now left. Qed.

Lemma inference_inv (env : V2.Env) (self : V2.RMBG2) (x t : V2.Tensor) (w w' : world) :
  V2._inference env self x w = (Ret t, w') ->
  exists outputs : list V2.Tensor,
    V2.ort_run env (V2.ort_session self) (V2.input_name self) x = inr outputs /\
    In t outputs.
Proof.
  unfold V2._inference. intros H.
  apply (try_reraise_Ret_inv _ (fun e => "Inference error: " ++ str_exn e)) in H.
  apply bind_Ret_inv in H as (u & w1 & _ & H).
  apply bind_Ret_inv in H as (outputs & w2 & Hrun & H).
  apply lift_Ret_inv in Hrun as [Hrun _]. apply lift_Ret_inv in H as [H _].
  exists outputs. split; [exact Hrun | now apply first_inr_In].
Qed.

Lemma predict_inv (env : V2.Env) (self : V2.RMBG2) (img mask : Image) (w w' : world) :
  V2.predict env self img w = (Ret mask, w') ->
  exists (x t : V2.Tensor) (w1 : world),
    V2._preprocess env self img = inr x /\
    V2._inference env self x w = (Ret t, w1) /\
    V2._postprocess env self t (im_size img) = inr mask.
Proof.
  unfold V2.predict. intros H.
  apply bind_Ret_inv in H as (x & w0 & Hx & H).
  apply lift_Ret_inv in Hx as [Hx ->].
  apply bind_Ret_inv in H as (t & w1 & Ht & H).
  apply bind_Ret_inv in H as (m & w2 & Hm & H).
  apply lift_Ret_inv in Hm as [Hm ->].
  apply bind_Ret_inv in H as (u & w3 & _ & H). injection H as <- _.
  exists x, t, w1. auto.
Qed.

(** The steps of a run of [process_image] that returns. *)
Lemma process_image_inv (env : V2.Env) (image_path : V2.image_arg)
      (output_path model_path : option string) (w w' : world) (output mask : Image) :
  V2.process_image env image_path output_path model_path w = (Ret (output, mask), w') ->
  exists (model : V2.RMBG2) (w1 : world) (img0 : Image) (w2 : world)
         (img : Image) (w3 w4 : world),
    V2.RMBG2_init env model_path w = (Ret model, w1) /\
    V2.load_input env image_path w1 = (Ret img0, w2) /\
    V2.flatten_rgba env img0 = inr img /\
    files w3 = files w2 /\
    V2.predict env model img w3 = (Ret mask, w4) /\
    V2.paste env (V2.image_new env RGBA (im_size img) [0; 0; 0; 0]) img mask = inr output /\
    V2.save_outputs env output mask output_path w4 = (Ret tt, w').
Proof.
  unfold V2.process_image. intros H.
  apply (try_reraise_Ret_inv _ (fun e => "Error processing image: " ++ str_exn e)) in H.
  unfold V2.process_image_body in H.
  apply bind_Ret_inv in H as (model & w1 & Hinit & H).
  apply bind_Ret_inv in H as (img0 & w2 & Hload & H).
  apply bind_Ret_inv in H as (img & w2' & Hflat & H).
  apply lift_Ret_inv in Hflat as [Hflat ->].
  destruct (im_size img) as [ow oh] eqn:Esize.
  apply bind_Ret_inv in H as (u & w3 & Hprint & H).
  apply bind_Ret_inv in H as (m & w4 & Hpred & H).
  apply bind_Ret_inv in H as (o & w4' & Hpaste & H).
  apply lift_Ret_inv in Hpaste as [Hpaste ->].
  apply bind_Ret_inv in H as ([] & w5 & Hsave & H).
  injection H as Ho Hm Hw. subst o m w5.
  exists model, w1, img0, w2, img, w3, w4. rewrite Esize.
  repeat split; try assumption.
  exact (print_same_files _ _ _ _ Hprint).
Qed.

(** Steps through a computation built from the monad's combinators, to show
    that it moves the world along a reflexive and transitive relation; [prim]
    closes the goals about primitive actions. *)
Ltac frame R Rrefl Rtrans prim :=
  repeat first
    [ apply (preserves_bind R Rtrans); [| intros ?]
    | apply (preserves_try_except R Rtrans); [| intros ?]
    | apply (preserves_ret R Rrefl)
    | apply (preserves_raise R Rrefl)
    | apply (preserves_sys_exit R Rrefl)
    | apply (preserves_lift R Rrefl)
    | apply (preserves_get_world R Rrefl)
    | apply (preserves_os_path_exists R Rrefl)
    | apply (preserves_os_path_isfile R Rrefl)
    | prim
    | match goal with
      | |- preserves _ (match ?x with _ => _ end) => destruct x
      end ].

Ltac frame_files :=
  frame same_files same_files_refl same_files_trans
        ltac:(first [ apply print_same_files | apply log_event_same_files
                    | apply set_dirs_same_files ]).

Ltac frame_trace :=
  frame same_trace same_trace_refl same_trace_trans
        ltac:(first [ apply print_same_trace | apply set_dirs_same_trace
                    | apply write_file_same_trace ]).

Lemma RMBG2_init_same_files (env : V2.Env) (model_path : option string) :
  preserves same_files (V2.RMBG2_init env model_path).
Proof. unfold V2.RMBG2_init. frame_files. Qed.

Lemma RMBG2_init_same_trace (env : V2.Env) (model_path : option string) :
  preserves same_trace (V2.RMBG2_init env model_path).
Proof. unfold V2.RMBG2_init. frame_trace. Qed.

Lemma load_input_same_files (env : V2.Env) (image_path : V2.image_arg) :
  preserves same_files (V2.load_input env image_path).
Proof.
  unfold V2.load_input, V2.download_image, V2.image_open. frame_files.
Qed.

Lemma predict_same_files (env : V2.Env) (self : V2.RMBG2) (img : Image) :
  preserves same_files (V2.predict env self img).
Proof. unfold V2.predict, V2._inference. frame_files. Qed.

Lemma image_save_png_inv (env : V2.Env) (im : Image) (path : string) (w w' : world) :
  V2.image_save_png env im path w = (Ret tt, w') ->
  files w' = <[path := Encoded "PNG" im]> (files w).
Proof.
  unfold V2.image_save_png. destruct (V2.save_error env path (Encoded "PNG" im));
    [discriminate |].
  now intros [= <-].
Qed.

(** What a successful [save_outputs] with a non-empty path leaves on disk. *)
Lemma save_outputs_files (env : V2.Env) (output mask : Image) (output_path : string)
      (w w' : world) :
  output_path <> "" ->
  V2.save_outputs env output mask (Some output_path) w = (Ret tt, w') ->
  files w' = <[V2.mask_path_of output_path := Encoded "PNG" mask]>
               (<[output_path := Encoded "PNG" output]> (files w)).
Proof.
  intros Hne H. unfold V2.save_outputs in H.
  destruct output_path as [| c s]; [congruence |]. cbn [is_empty negb] in H.
  apply bind_Ret_inv in H as (dir_exists & w1 & Hex & H).
  apply (preserves_os_path_exists same_files same_files_refl) in Hex.
  apply bind_Ret_inv in H as (u & w2 & Hmk & H).
  assert (P : preserves same_files
            (if negb (is_empty (dirname (String c s))) && negb dir_exists
             then do w0 <- get_world;
                  do ds <- lift (V2.makedirs env (dirs w0) (dirname (String c s)));
                  set_dirs ds
             else ret tt)) by frame_files.
  pose proof (P _ _ _ Hmk) as Hw2. clear P Hmk.
  apply bind_Ret_inv in H as ([] & w3 & Hsave1 & H).
  apply image_save_png_inv in Hsave1.
  apply bind_Ret_inv in H as ([] & w4 & Hp1 & H).
  apply print_same_files in Hp1.
  apply bind_Ret_inv in H as ([] & w5 & Hsave2 & H).
  apply image_save_png_inv in Hsave2.
  apply print_same_files in H.
  unfold same_files in *. congruence.
Qed.

(** C1: the mask returned by [RMBG2.predict] has the size of the image it
    was given, and the RGBA image and the mask returned by [process_image]
    both have the size of the input image as loaded, although the model is
    always fed a 1 x 3 x 1024 x 1024 tensor. *)
Theorem output_dimensions_equal_input (env : V2.Env) :
  (forall (self : V2.RMBG2) (img : Image) (x : V2.Tensor),
      V2._preprocess env self img = inr x -> V2.shape x = [1; 3; 1024; 1024]%nat) /\
  (forall (self : V2.RMBG2) (img mask : Image) (w w' : world),
      V2.predict env self img w = (Ret mask, w') -> im_size mask = im_size img) /\
  (forall (image_path : V2.image_arg) (output_path model_path : option string)
          (w w' : world) (output mask : Image),
      V2.process_image env image_path output_path model_path w
      = (Ret (output, mask), w') ->
      exists (model : V2.RMBG2) (w1 : world) (img : Image) (w2 : world),
        V2.RMBG2_init env model_path w = (Ret model, w1) /\
        V2.load_input env image_path w1 = (Ret img, w2) /\
        im_size mask = im_size img /\
        im_size output = im_size img /\
        im_mode output = RGBA).
Proof.
  split; [| split].
  - intros self img x H. exact (preprocess_shape env self img x H).
  - intros self img mask w w' H.
    apply predict_inv in H as (x & t & w1 & _ & _ & Hpost).
    apply postprocess_spec in Hpost as [Hs _]. exact Hs.
  - intros image_path output_path model_path w w' output mask H.
    apply process_image_inv in H
      as (model & w1 & img0 & w2 & img & w3 & w4 & Hinit & Hload & Hflat & _ & Hpred & Hpaste & _).
    exists model, w1, img0, w2. split; [exact Hinit |]. split; [exact Hload |].
    apply flatten_rgba_size in Hflat.
    apply predict_inv in Hpred as (x & t & w5 & _ & _ & Hpost).
    apply postprocess_spec in Hpost as [Hs _].
    apply paste_spec in Hpaste as [Hos Hom]. cbn [V2.image_new im_size im_mode] in Hos, Hom.
    repeat split; congruence.
Qed.

(** The run of the V2 script on a 640 x 480 photograph: the output and the
    mask are 640 x 480. *)
Lemma output_dimensions_equal_input_witness :
  exists (output mask img : Image),
    fst Examples.run2 = Ret (output, mask) /\
    im_size mask = im_size img /\ im_size output = im_size img /\
    im_size output = (640%nat, 480%nat).
Proof.
  set (output := {| im_mode := RGBA; im_size := (640%nat, 480%nat); im_px := [] |}).
  set (mask := {| im_mode := L; im_size := (640%nat, 480%nat); im_px := [] |}).
  assert (H : V2.process_image Examples.env2 (V2.PathArg "in.jpg") (Some "out/res.png")
                               None Examples.world0
              = (Ret (output, mask), snd Examples.run2))
    by (vm_compute; reflexivity).
  destruct (proj2 (proj2 (output_dimensions_equal_input Examples.env2)) _ _ _ _ _ _ _ H)
    as (model & w1 & img & w2 & _ & _ & Hm & Ho & _).
  exists output, mask, img.
  split; [vm_compute; reflexivity | split; [exact Hm | split; [exact Ho | reflexivity]]].
Defined.

(** C5: when [process_image] is given a non-empty output path and returns,
    the files on disk differ from those before the call at exactly two
    distinct paths: the output path holds the PNG of the RGBA composite,
    and the output path with its extension replaced by "_mask.png" holds
    the PNG of the mask.  The composite is the input image (as loaded by
    [load_input], an RGBA input flattened onto white) pasted over a fully
    transparent RGBA image of its size through the mask, and the mask is
    the one [predict] returned for that input; the mask has a single
    channel when the model emits single maps. *)
Theorem process_image_writes_output_and_mask
        (env : V2.Env) (image_path : V2.image_arg) (output_path : string)
        (model_path : option string) (w w' : world) (output mask : Image) :
  output_path <> "" ->
  V2.process_image env image_path (Some output_path) model_path w
  = (Ret (output, mask), w') ->
  files w' = <[V2.mask_path_of output_path := Encoded "PNG" mask]>
               (<[output_path := Encoded "PNG" output]> (files w)) /\
  V2.mask_path_of output_path = fst (splitext output_path) ++ "_mask.png" /\
  V2.mask_path_of output_path <> output_path /\
  im_mode output = RGBA /\
  (exists (model : V2.RMBG2) (w1 : world) (img0 : Image) (w2 : world) (img : Image)
          (w3 w4 : world),
      V2.RMBG2_init env model_path w = (Ret model, w1) /\
      V2.load_input env image_path w1 = (Ret img0, w2) /\
      V2.flatten_rgba env img0 = inr img /\
      V2.predict env model img w3 = (Ret mask, w4) /\
      V2.paste env (V2.image_new env RGBA (im_size img) [0; 0; 0; 0]) img mask
      = inr output /\
      output = {| im_mode := RGBA; im_size := im_size img;
                  im_px := V2.px_paste env
                             (V2.image_new env RGBA (im_size img) [0; 0; 0; 0])
                             img (Some mask) |}) /\
  (V2.emits_single_maps env -> im_mode mask = L).
Proof.
  intros Hne H.
  apply process_image_inv in H
    as (model & w1 & img0 & w2 & img & w3 & w4 & Hinit & Hload & Hflat & Hw3 & Hpred & Hpaste & Hsave).
  pose proof (RMBG2_init_same_files _ _ _ _ _ Hinit) as Fi.
  pose proof (load_input_same_files _ _ _ _ _ Hload) as Fl.
  pose proof (predict_same_files env model img _ _ _ Hpred) as Hw4.
  apply (save_outputs_files env output mask output_path w4 w' Hne) in Hsave.
  unfold same_files in *.
  split; [rewrite Hsave; congruence |].
  split; [reflexivity |].
  split; [apply PathFacts.mask_path_differs |].
  split; [pose proof (paste_spec _ _ _ _ _ Hpaste) as [_ Hm]; exact Hm |].
  split.
  - exists model, w1, img0, w2, img, w3, w4.
    repeat (split; [assumption |]).
    unfold V2.paste in Hpaste.
    destruct (negb (V2.size_eqb (im_size mask) (im_size img))); [discriminate |].
    destruct (negb (V2.mask_mode_ok (im_mode mask))); [discriminate |].
    now injection Hpaste as <-.
  - intros Hmodel.
    apply predict_inv in Hpred as (x & t & w5 & _ & Hinf & Hpost).
    apply inference_inv in Hinf as (outputs & Hrun & Hin).
    apply postprocess_spec in Hpost as [_ HL]. apply HL.
    specialize (Hmodel _ _ _ _ Hrun). rewrite Forall_forall in Hmodel.
    apply Hmodel. apply list_elem_of_In. exact Hin.
Qed.

(** The example model emits single maps. *)
Lemma env2_pixels_emits_single_maps : V2.emits_single_maps Examples.env2_pixels.
Proof.
  intros session name x outputs [= <-]. repeat constructor.
Qed.

(** The run of the V2 script on a 2 x 1 image, writing to [out/res.png]:
    the output and [out/res_mask.png] are the two files added to the disk;
    the mask keeps the first pixel and drops the second, and the output is
    the input's first pixel, opaque, next to a transparent one. *)
Lemma process_image_writes_output_and_mask_witness :
  exists output mask : Image,
    fst Examples.run2_pixels = Ret (output, mask) /\
    files (snd Examples.run2_pixels)
    = <["out/res_mask.png" := Encoded "PNG" mask]>
        (<["out/res.png" := Encoded "PNG" output]> (files Examples.world0)) /\
    im_mode output = RGBA /\ im_mode mask = L /\
    im_px mask = [[255; 0]] /\
    im_px output = [[250; 120; 10; 255; 0; 0; 0; 0]].
Proof.
  set (output := {| im_mode := RGBA; im_size := (2%nat, 1%nat);
                    im_px := [[250; 120; 10; 255; 0; 0; 0; 0]] |}).
  set (mask := {| im_mode := L; im_size := (2%nat, 1%nat); im_px := [[255; 0]] |}).
  assert (Hne : "out/res.png" <> "") by discriminate.
  assert (H : V2.process_image Examples.env2_pixels (V2.PathArg "in.jpg")
                               (Some "out/res.png") None Examples.world0
              = (Ret (output, mask), snd Examples.run2_pixels))
    by (vm_compute; reflexivity).
  destruct (process_image_writes_output_and_mask Examples.env2_pixels _ _ _ _ _ _ _ Hne H)
    as (Hfiles & _ & _ & Hmode & _ & HL).
  exists output, mask.
  split; [vm_compute; reflexivity |].
  split; [exact Hfiles |].
  split; [exact Hmode |].
  split; [exact (HL env2_pixels_emits_single_maps) |].
  split; reflexivity.
Defined.

(** [RMBG2.__init__] may raise but never exits the process. *)
Lemma RMBG2_init_never_exits (env : V2.Env) (model_path : option string) :
  exits_only_with (fun _ => False) (V2.RMBG2_init env model_path).
Proof.
  unfold V2.RMBG2_init.
  repeat first
    [ apply exits_bind; [| intros ?]
    | apply exits_try_except; [| intros ?]
    | apply exits_print | apply exits_lift | apply exits_ret | apply exits_raise ].
Qed.

(** C6: an input path that starts with "http://" or "https://" is fetched
    over the network and the image decoded from the response body; any
    other string is opened as a file on disk.  In the V2 script a local path
    that is not a file raises [FileNotFoundError] with no image read and no
    inference run. *)
Theorem input_path_dispatch (env1 : V1.Env) (env2 : V2.Env) (image_path : string)
        (w : world) :
  (is_url image_path = true ->
   V1.preprocess_image env1 image_path w
   = (match V1.requests_get env1 image_path with
      | inl e => Raise e
      | inr body =>
          match V1.decode env1 body with
          | inl e => Raise e
          | inr img => Ret (V1.convert_rgb env1 img)
          end
      end,
      with_event w (EvHttpGet image_path)) /\
   (forall (r : outcome Image) (w' : world),
       V2.load_input env2 (V2.PathArg image_path) w = (r, w') ->
       trace w' = (trace w ++ [EvHttpGet image_path])%list /\
       forall img : Image, r = Ret img ->
         exists resp : V2.Response,
           V2.requests_get env2 image_path 10 = inr resp /\
           V2.decode env2 (V2.resp_content resp) = inr img)) /\
  (is_url image_path = false ->
   V1.preprocess_image env1 image_path w
   = (match files w !! image_path with
      | None => Raise (FileNotFoundError ("No such file or directory: " ++ image_path))
      | Some (Raw bytes) =>
          match V1.decode env1 bytes with
          | inl e => Raise e
          | inr img => Ret (V1.convert_rgb env1 img)
          end
      | Some (Encoded _ im) => Ret (V1.convert_rgb env1 im)
      end,
      with_event w (EvFileOpen image_path)) /\
   (forall c : content, files w !! image_path = Some c ->
      V2.load_input env2 (V2.PathArg image_path) w
      = (match c with
         | Raw bytes => outcome_of (V2.decode env2 bytes)
         | Encoded _ im => Ret im
         end,
         with_event w (EvFileOpen image_path))) /\
   (files w !! image_path = None ->
      V2.load_input env2 (V2.PathArg image_path) w
      = (Raise (FileNotFoundError ("Image file not found: " ++ image_path)), w) /\
      forall (output_path model_path : option string) (r : outcome (Image * Image))
             (w' : world),
        V2.process_image env2 (V2.PathArg image_path) output_path model_path w = (r, w') ->
        (exists e : exn, r = Raise e) /\
        trace w' = trace w /\
        forall (model : V2.RMBG2) (w1 : world),
          V2.RMBG2_init env2 model_path w = (Ret model, w1) ->
          r = Raise (FileNotFoundError ("Image file not found: " ++ image_path)))).
Proof.
  split.
  - intros Hurl. split.
    + unfold V1.preprocess_image. rewrite Hurl.
      unfold bind, log_event, lift, raise, ret.
      destruct (V1.requests_get env1 image_path) as [e | body]; [reflexivity |].
      destruct (V1.decode env1 body) as [e | img]; reflexivity.
    + intros r w'. unfold V2.load_input. rewrite Hurl.
      unfold V2.download_image. rewrite Hurl.
      unfold try_except, bind, log_event, lift, raise, ret, print.
      destruct (V2.requests_get env2 image_path 10) as [e | resp].
      { intros [= <- <-]. split; [reflexivity | discriminate]. }
      destruct (V2.raise_for_status resp) as [e | []].
      { intros [= <- <-]. split; [reflexivity | discriminate]. }
      destruct (V2.decode env2 (V2.resp_content resp)) as [e | img] eqn:Edec.
      { intros [= <- <-]. split; [reflexivity | discriminate]. }
      intros [= <- <-]. split; [reflexivity |].
      intros img' [= <-]. exists resp. split; [reflexivity | exact Edec].
  - intros Hurl. split; [| split].
    + unfold V1.preprocess_image. rewrite Hurl.
      unfold V1.image_open, bind, log_event, get_world, lift, raise, ret.
      cbn [files with_event].
      destruct (files w !! image_path) as [[bytes | fmt im] |]; try reflexivity.
      destruct (V1.decode env1 bytes) as [e | img]; reflexivity.
    + intros c Hc. unfold V2.load_input. rewrite Hurl.
      unfold V2.image_open, bind, os_path_isfile, log_event, get_world, lift, raise, ret.
      rewrite Hc.
      rewrite bool_decide_eq_true_2 by (eexists; reflexivity).
      cbv beta iota. cbn [negb files with_event]. rewrite Hc.
      destruct c as [bytes | fmt im]; [| reflexivity].
      destruct (V2.decode env2 bytes); reflexivity.
    + intros Hnone.
      assert (Hload : forall w0 : world, files w0 = files w ->
                V2.load_input env2 (V2.PathArg image_path) w0
                = (Raise (FileNotFoundError ("Image file not found: " ++ image_path)), w0)).
      { intros w0 Hw0. unfold V2.load_input. rewrite Hurl.
        unfold bind, os_path_isfile, raise. rewrite Hw0, Hnone.
        rewrite bool_decide_eq_false_2 by (intros [x Hx]; discriminate Hx).
        reflexivity. }
      split; [apply Hload; reflexivity |].
      intros output_path model_path r w'.
      unfold V2.process_image, V2.process_image_body, try_except.
      destruct (V2.RMBG2_init env2 model_path w) as [[model | e | c] w1] eqn:Einit.
      * rewrite (bind_Ret _ _ _ _ _ Einit).
        pose proof (RMBG2_init_same_files _ _ _ _ _ Einit) as Hf.
        pose proof (RMBG2_init_same_trace _ _ _ _ _ Einit) as Ht.
        rewrite (bind_Raise _ _ _ _ _ (Hload w1 Hf)).
        unfold bind, print, raise. intros [= <- <-].
        split; [eexists; reflexivity |]. split; [exact Ht |].
        intros model' w1' [= _ _]. reflexivity.
      * rewrite (bind_Raise _ _ _ _ _ Einit).
        pose proof (RMBG2_init_same_trace _ _ _ _ _ Einit) as Ht.
        unfold bind, print, raise. intros [= <- <-].
        split; [eexists; reflexivity |]. split; [exact Ht |].
        intros model' w1' [=].
      * exfalso. exact (RMBG2_init_never_exits _ _ _ _ _ Einit).
Qed.

(** The dispatch on two concrete inputs: a URL is fetched, and a missing
    local file stops the V2 script with "Image file not found". *)
Lemma input_path_dispatch_witness :
  trace (snd (V1.preprocess_image Examples.env1 "https://example.com/cat.jpg"
                                  Examples.world0))
  = [EvHttpGet "https://example.com/cat.jpg"] /\
  V2.load_input Examples.env2 (V2.PathArg "none.jpg") Examples.world0
  = (Raise (FileNotFoundError "Image file not found: none.jpg"), Examples.world0).
Proof.
  split.
  - rewrite (proj1 (proj1 (input_path_dispatch Examples.env1 Examples.env2
                             "https://example.com/cat.jpg" Examples.world0) eq_refl)).
    reflexivity.
  - exact (proj1 (proj2 (proj2 (proj2 (input_path_dispatch Examples.env1 Examples.env2
                                         "none.jpg" Examples.world0) eq_refl)) eq_refl)).
Defined.

End V2Facts.

(** ** Failures and exit status of the two command-line scripts *)

Module ExitFacts.
Import PyFacts Path.

(** Steps through a computation to show that it can only leave through
    [sys.exit] with a code satisfying the predicate at hand. *)
Ltac exits :=
  repeat first
    [ apply exits_bind; [| intros ?]
    | apply exits_try_except; [| intros ?]
    | apply exits_print | apply exits_log_event | apply exits_lift
    | apply exits_ret | apply exits_raise | apply exits_get_world
    | apply exits_set_dirs | apply exits_write_file
    | apply exits_os_path_exists | apply exits_os_path_isfile
    | apply exits_sys_exit; reflexivity
    | solve [intros ? ? ? H; discriminate H]
    | match goal with
      | |- exits_only_with _ (match ?x with _ => _ end) => destruct x
      end ].

Lemma inference_body_exits_with_1 (env : V1.Env) (image_path output_path : string)
      (t : float) (edge_enhancement color_aware : bool) :
  exits_only_with (fun c => c = 1)
    (V1.inference_body env image_path output_path t edge_enhancement color_aware).
Proof.
  unfold V1.inference_body, V1.create_pipeline, V1.create_pipeline_body, V1.load_model,
    V1.load_model_body, V1.check_model_exists, V1.preprocess_image, V1.image_open,
    V1.image_save.
  exits.
Qed.

Lemma process_image_never_exits (env : V2.Env) (image_path : V2.image_arg)
      (output_path model_path : option string) :
  exits_only_with (fun _ => False) (V2.process_image env image_path output_path model_path).
Proof.
  unfold V2.process_image, V2.process_image_body, V2.RMBG2_init, V2.load_input,
    V2.download_image, V2.image_open, V2.predict, V2._inference, V2.save_outputs,
    V2.image_save_png.
  exits.
Qed.

Lemma inference_exits_with_1 (env : V1.Env) (image_path output_path : string)
      (t : float) (edge_enhancement color_aware : bool) :
  exits_only_with (fun c => c = 1)
    (V1.inference env image_path output_path t edge_enhancement color_aware).
Proof.
  unfold V1.inference. apply exits_try_except.
  - apply inference_body_exits_with_1.
  - intros e. exits.
Qed.

Lemma remove_background_body_exits_with_1 (env : TestV1.Env) (env1 : V1.Env)
      (input_path output_path : string) (t : float) (edge_enhancement color_aware : bool) :
  exits_only_with (fun c => c = 1)
    (TestV1.remove_background_body env env1 input_path output_path t
       edge_enhancement color_aware).
Proof.
  unfold TestV1.remove_background_body.
  apply exits_bind; [unfold V1.check_model_exists; exits | intros _].
  apply exits_bind; [exits | intros _].
  apply exits_bind; [apply inference_exits_with_1 | intros _].
  unfold V1.image_open, V1.image_save, TestV1.os_remove. exits.
Qed.

Lemma check_model_exists_missing (env : V1.Env) (w : world) :
  path_exists w (V1.MODEL_PATH env) = false ->
  V1.check_model_exists env w
  = (SysExit 1,
     with_line (with_line w ("Error: Model file not found at " ++ V1.MODEL_PATH env))
               "Please make sure the RMBG-V1 model file is in the correct location.").
Proof.
  intros H. unfold V1.check_model_exists, bind, os_path_exists. rewrite H. reflexivity.
Qed.

Lemma check_model_exists_found (env : V1.Env) (w : world) :
  path_exists w (V1.MODEL_PATH env) = true ->
  V1.check_model_exists env w
  = (Ret true, with_line w ("Found local model at " ++ V1.MODEL_PATH env)).
Proof.
  intros H. unfold V1.check_model_exists, bind, os_path_exists. rewrite H. reflexivity.
Qed.

(** A [sys.exit] inside [create_pipeline] ends [main] with the same code. *)
Lemma main_exits_from_pipeline_body (env : V1.Env) (args : V1.Args) (w w1 : world) (c : Z) :
  V1.create_pipeline_body env w = (SysExit c, w1) ->
  V1.main env args w = (SysExit c, w1).
Proof.
  intros H. unfold V1.main, V1.inference.
  apply bind_SysExit, try_except_SysExit. unfold V1.inference_body.
  apply bind_SysExit. unfold V1.create_pipeline. now apply try_except_SysExit.
Qed.

(** An exception in the standard construction of the pipeline is handled by
    [create_pipeline] itself: with a model that has a callable [pipe], the
    model is returned as the pipeline and the run goes on. *)
Lemma create_pipeline_falls_back (env : V1.Env) (w w1 : world) (model : V1.obj) (e : exn) :
  V1.check_model_exists env w = (Ret true, w1) ->
  V1.load_model env w1 = (Ret model, w1) ->
  V1.feature_extractor_from_pretrained env = inl e ->
  V1.has_callable_pipe env model = true ->
  fst (V1.create_pipeline env w) = Ret model.
Proof.
  intros Hcheck Hload Hfe Hpipe.
  unfold V1.create_pipeline, V1.create_pipeline_body.
  erewrite try_except_Ret; [reflexivity |].
  rewrite (bind_Ret _ _ _ _ _ Hcheck), (bind_Ret _ _ _ _ _ Hload).
  unfold try_except, bind, lift, raise, print. rewrite Hfe, Hpipe. reflexivity.
Qed.

(** C3: every failure ends the process with exit status 1 after an error
    line was printed, and status 0 is reached only by a run without failure.
    For [rmbg_inference.py]: a missing model file, an exception while the
    model is loaded, an exception out of the creation of the pipeline, and
    an exception raised during inference each end in [sys.exit(1)] behind
    their error message; every run ends with status 0 or
    1, and 0 means that the body of [inference] returned.  For
    [rmbg2_inference.py]: an exception out of [process_image] (a model that
    cannot be loaded among them) ends in [sys.exit(1)] behind "Error: ...";
    every run ends with status 0 or 1, and 0 means that [process_image]
    returned.  For [test_rmbg.py]: an exception in the body of
    [remove_background] ends in [sys.exit(1)] behind "Error removing
    background: ...", and again status 0 means that the body returned. *)
Theorem failures_exit_with_status_1 (env1 : V1.Env) (env2 : V2.Env) (envt : TestV1.Env) :
  (forall (args : V1.Args) (w : world),
      path_exists w (V1.MODEL_PATH env1) = false ->
      V1.main env1 args w
      = (SysExit 1,
         with_line (with_line w ("Error: Model file not found at " ++ V1.MODEL_PATH env1))
                   "Please make sure the RMBG-V1 model file is in the correct location.")) /\
  (forall (args : V1.Args) (w w1 : world) (e : exn),
      path_exists w (V1.MODEL_PATH env1) = true ->
      V1.load_model_body env1 (with_line w ("Found local model at " ++ V1.MODEL_PATH env1))
      = (Raise e, w1) ->
      V1.main env1 args w
      = (SysExit 1, with_line w1 ("Error loading RMBG-V1 model: " ++ str_exn e))) /\
  (forall (args : V1.Args) (w w1 : world) (e : exn),
      V1.create_pipeline_body env1 w = (Raise e, w1) ->
      V1.main env1 args w
      = (SysExit 1, with_line w1 ("Error creating pipeline: " ++ str_exn e))) /\
  (forall (args : V1.Args) (w w1 : world) (e : exn),
      V1.inference_body env1 (V1.input_image args) (V1.arg_output_path args)
        (V1.arg_threshold args) (V1.flag_of (V1.arg_edge_enhancement args))
        (V1.flag_of (V1.arg_color_aware args)) w = (Raise e, w1) ->
      V1.main env1 args w
      = (SysExit 1, with_line w1 ("Error during inference: " ++ str_exn e))) /\
  (forall (args : V1.Args) (w : world),
      (exit_status (fst (V1.main env1 args w)) = 0
       \/ exit_status (fst (V1.main env1 args w)) = 1) /\
      (exit_status (fst (V1.main env1 args w)) = 0 ->
       exists (mask : Image) (w1 : world),
         V1.inference_body env1 (V1.input_image args) (V1.arg_output_path args)
           (V1.arg_threshold args) (V1.flag_of (V1.arg_edge_enhancement args))
           (V1.flag_of (V1.arg_color_aware args)) w = (Ret mask, w1))) /\
  (forall (args : V2.Args) (w w1 : world) (e : exn),
      V2.process_image env2 (V2.PathArg (V2.arg_input args)) (V2.output_of_args args)
        (V2.arg_model args) w = (Raise e, w1) ->
      V2.main env2 args w = (SysExit 1, with_line w1 ("Error: " ++ str_exn e))) /\
  (forall (args : V2.Args) (w : world) (e : exn),
      V2.ort_inference_session env2 (V2.model_path_or_default env2 (V2.arg_model args))
      = inl e ->
      exists w1 : world,
        V2.main env2 args w = (SysExit 1, with_line w1 ("Error: " ++ str_exn e))) /\
  (forall (args : V2.Args) (w : world),
      (exit_status (fst (V2.main env2 args w)) = 0
       \/ exit_status (fst (V2.main env2 args w)) = 1) /\
      (exit_status (fst (V2.main env2 args w)) = 0 ->
       exists (result : Image * Image) (w1 : world),
         V2.process_image env2 (V2.PathArg (V2.arg_input args)) (V2.output_of_args args)
           (V2.arg_model args) w = (Ret result, w1))) /\
  (forall (args : TestV1.Args) (w w1 : world) (e : exn),
      TestV1.remove_background_body envt env1 (TestV1.arg_input args)
        (TestV1.output_of_args args) (TestV1.arg_threshold args)
        (V1.flag_of (TestV1.arg_edge_enhancement args))
        (V1.flag_of (TestV1.arg_color_aware args)) w = (Raise e, w1) ->
      TestV1.main envt env1 args w
      = (SysExit 1, with_line w1 ("Error removing background: " ++ str_exn e))) /\
  (forall (args : TestV1.Args) (w : world),
      (exit_status (fst (TestV1.main envt env1 args w)) = 0
       \/ exit_status (fst (TestV1.main envt env1 args w)) = 1) /\
      (exit_status (fst (TestV1.main envt env1 args w)) = 0 ->
       exists w1 : world,
         TestV1.remove_background_body envt env1 (TestV1.arg_input args)
           (TestV1.output_of_args args) (TestV1.arg_threshold args)
           (V1.flag_of (TestV1.arg_edge_enhancement args))
           (V1.flag_of (TestV1.arg_color_aware args)) w = (Ret tt, w1))).
Proof.
  split; [| split; [| split; [| split; [| split; [| split; [| split; [| split; [| split]]]]]]]].
  - (* the model file is missing *)
    intros args w Hmissing. apply main_exits_from_pipeline_body.
    unfold V1.create_pipeline_body. apply bind_SysExit.
    now apply check_model_exists_missing.
  - (* loading the model raises *)
    intros args w w1 e Hfound Hload. apply main_exits_from_pipeline_body.
    unfold V1.create_pipeline_body.
    rewrite (bind_Ret _ _ _ _ _ (check_model_exists_found env1 w Hfound)).
    apply bind_SysExit. unfold V1.load_model.
    rewrite (try_except_Raise _ _ _ _ _ Hload). reflexivity.
  - (* no pipeline can be created *)
    intros args w w1 e Hbody. unfold V1.main, V1.inference.
    apply bind_SysExit, try_except_SysExit. unfold V1.inference_body.
    apply bind_SysExit. unfold V1.create_pipeline.
    rewrite (try_except_Raise _ _ _ _ _ Hbody). reflexivity.
  - (* the body of inference raises *)
    intros args w w1 e Hbody. unfold V1.main, V1.inference.
    apply bind_SysExit. rewrite (try_except_Raise _ _ _ _ _ Hbody). reflexivity.
  - (* every run of the V1 script *)
    intros args w. unfold V1.main, V1.inference.
    destruct (V1.inference_body env1 (V1.input_image args) (V1.arg_output_path args)
                (V1.arg_threshold args) (V1.flag_of (V1.arg_edge_enhancement args))
                (V1.flag_of (V1.arg_color_aware args)) w) as [[mask | e | c] w1] eqn:E.
    + rewrite (bind_Ret _ _ _ _ _ (try_except_Ret _ _ _ _ _ E)). cbn.
      split; [left; reflexivity | intros _; exists mask, w1; reflexivity].
    + rewrite (bind_SysExit _ _ _ (with_line w1 ("Error during inference: " ++ str_exn e)) 1)
        by (rewrite (try_except_Raise _ _ _ _ _ E); reflexivity).
      cbn. split; [right; reflexivity | discriminate].
    + pose proof (inference_body_exits_with_1 _ _ _ _ _ _ _ _ _ E) as ->.
      rewrite (bind_SysExit _ _ _ _ _ (try_except_SysExit _ _ _ _ _ E)).
      cbn. split; [right; reflexivity | discriminate].
  - (* process_image raises *)
    intros args w w1 e H. unfold V2.main.
    rewrite (try_except_Raise _ _ _ _ _ (bind_Raise _ _ _ _ _ H)). reflexivity.
  - (* the model cannot be loaded *)
    intros args w e Hsession. eexists. unfold V2.main.
    erewrite try_except_Raise; [reflexivity |].
    apply bind_Raise. unfold V2.process_image.
    erewrite try_except_Raise; [reflexivity |].
    unfold V2.process_image_body. apply bind_Raise.
    unfold V2.RMBG2_init, bind, print, try_except, lift.
    rewrite Hsession. reflexivity.
  - (* every run of the V2 script *)
    intros args w. unfold V2.main.
    destruct (V2.process_image env2 (V2.PathArg (V2.arg_input args))
                (V2.output_of_args args) (V2.arg_model args) w)
      as [[result | e | c] w1] eqn:E.
    + rewrite (try_except_Ret _ _ _ (with_line w1 "Background removal completed successfully") tt)
        by (rewrite (bind_Ret _ _ _ _ _ E); reflexivity).
      cbn. split; [left; reflexivity | intros _; exists result, w1; reflexivity].
    + rewrite (try_except_Raise _ _ _ _ _ (bind_Raise _ _ _ _ _ E)).
      cbn. split; [right; reflexivity | discriminate].
    + exfalso. exact (process_image_never_exits _ _ _ _ _ _ _ E).
  - (* the body of remove_background raises *)
    intros args w w1 e H. unfold TestV1.main, TestV1.remove_background.
    rewrite (try_except_Raise _ _ _ _ _ H). reflexivity.
  - (* every run of test_rmbg.py *)
    intros args w. unfold TestV1.main, TestV1.remove_background.
    destruct (TestV1.remove_background_body envt env1 (TestV1.arg_input args)
                (TestV1.output_of_args args) (TestV1.arg_threshold args)
                (V1.flag_of (TestV1.arg_edge_enhancement args))
                (V1.flag_of (TestV1.arg_color_aware args)) w) as [[[] | e | c] w1] eqn:E.
    + rewrite (try_except_Ret _ _ _ _ _ E). cbn.
      split; [left; reflexivity | intros _; exists w1; reflexivity].
    + rewrite (try_except_Raise _ _ _ _ _ E). cbn.
      split; [right; reflexivity | discriminate].
    + pose proof (remove_background_body_exits_with_1 _ _ _ _ _ _ _ _ _ _ E) as ->.
      rewrite (try_except_SysExit _ _ _ _ _ E). cbn.
      split; [right; reflexivity | discriminate].
Qed.

(** Three failing runs: the V1 script without a model file and with a
    model file that [torch.load] rejects, the V2 script without a loadable
    model; each ends with exit status 1. *)
Lemma failures_exit_with_status_1_witness :
  exit_status (fst (V1.main Examples.env1 (Examples.args1 "true" "true")
                            Examples.empty_world)) = 1 /\
  V1.main Examples.env1_bad_model (Examples.args1 "true" "true") Examples.world0
  = (SysExit 1,
     with_line (with_line (with_line Examples.world0
                  "Found local model at /app/python/models/model.pth")
                  "Found local model at /app/python/models/model.pth")
               "Error loading RMBG-V1 model: invalid load key") /\
  exit_status (fst (V2.main Examples.env2_no_model (Examples.args2 "in.jpg")
                            Examples.world0)) = 1.
Proof.
  pose proof (failures_exit_with_status_1 Examples.env1 Examples.env2_no_model
                Examples.env_t1)
    as (Hmissing & _ & _ & _ & _ & _ & Hsession & _).
  pose proof (failures_exit_with_status_1 Examples.env1_bad_model Examples.env2
                Examples.env_t1)
    as (_ & Hload & _).
  split; [| split].
  - rewrite (Hmissing (Examples.args1 "true" "true") Examples.empty_world eq_refl).
    reflexivity.
  - exact (Hload (Examples.args1 "true" "true") Examples.world0
                  (with_line (with_line Examples.world0
                     "Found local model at /app/python/models/model.pth")
                     "Found local model at /app/python/models/model.pth")
                  (LibraryError "invalid load key") eq_refl eq_refl).
  - destruct (Hsession (Examples.args2 "in.jpg") Examples.world0
                (LibraryError "NO_SUCHFILE: file doesn't exist") eq_refl) as [w1 ->].
    reflexivity.
Defined.

End ExitFacts.

(** ** The comparison function of [test_rmbg2.py] *)

Module TestFacts.

(** The module [rmbg_inference] does define [inference] ... *)
Lemma rmbg_inference_exports_inference (env : TestV2.Env) (env1 : V1.Env) :
  exists f : string -> string -> M unit,
    TestV2.assoc "inference" (TestV2.rmbg_inference_namespace env env1) = Some f.
Proof. eexists. reflexivity. Qed.

(** ... but nothing called [process_image]. *)
Lemma rmbg_inference_lacks_process_image (env : TestV2.Env) (env1 : V1.Env) :
  TestV2.assoc "process_image" (TestV2.rmbg_inference_namespace env env1) = None.
Proof. reflexivity. Qed.

(** C2 (what the code does): on every platform and disk,
    [compare_with_original] stops at its import of [process_image] from
    [rmbg_inference] with an [ImportError], before its [try] block: no
    backend is run, nothing is printed, timed or measured. *)
Theorem compare_with_original_raises_ImportError
        (env : TestV2.Env) (env1 : V1.Env) (env2 : V2.Env) (w : world) :
  TestV2.compare_with_original env env1 env2 w
  = (Raise (ImportError ("cannot import name 'process_image' from 'rmbg_inference' ("
                           ++ (TestV2.script_dir env ++ "/rmbg_inference.py") ++ ")")), w).
Proof.
  unfold TestV2.compare_with_original, TestV2.import_from.
  rewrite rmbg_inference_lacks_process_image. reflexivity.
Qed.

End TestFacts.

(** ** Paths built by appending a suffix *)

Module PathMore.
Import Path PathFacts.

Lemma str_take_app (s t : string) (n : nat) :
  str_take (String.length s + n) (s ++ t) = s ++ str_take n t.
Proof.
  induction s as [| c s IH]; [reflexivity |].
  change (String c (str_take (String.length s + n) (s ++ t)) = String c (s ++ str_take n t)).
  f_equal. exact IH.
Qed.

Lemma str_drop_app (s t : string) (n : nat) :
  str_drop (String.length s + n) (s ++ t) = str_drop n t.
Proof. induction s as [| c s IH]; [reflexivity | exact IH]. Qed.

(** The search from an offset, in terms of the search from 0. *)
Lemma rfind_from_shift (c : ascii) (t : string) : forall i acc : Z,
  rfind_from c t i acc = if rfind c t <? 0 then acc else i + rfind c t.
Proof.
  induction t as [| a t IH]; intros i acc; [reflexivity |].
  unfold rfind. cbn [rfind_from].
  rewrite (IH (i + 1)), (IH (0 + 1)).
  pose proof (rfind_lower_bound c t) as Hlow.
  destruct (Z.ltb_spec (rfind c t) 0) as [Hneg | Hpos].
  - destruct (Ascii.eqb a c); cbn; [lia | reflexivity].
  - destruct (Z.ltb_spec (0 + 1 + rfind c t) 0); lia.
Qed.

Lemma rfind_from_app (c : ascii) (s t : string) : forall i acc : Z,
  rfind_from c (s ++ t) i acc
  = rfind_from c t (i + Z.of_nat (String.length s)) (rfind_from c s i acc).
Proof.
  induction s as [| a s IH]; intros i acc.
  - cbn. now rewrite Z.add_0_r.
  - change (rfind_from c (s ++ t) (i + 1) (if Ascii.eqb a c then i else acc)
            = rfind_from c t (i + Z.of_nat (S (String.length s)))
                (rfind_from c s (i + 1) (if Ascii.eqb a c then i else acc))).
    rewrite IH. f_equal. lia.
Qed.

(** The last occurrence in [s ++ t] lies in [t] if there is one, else in
    [s]. *)
Lemma rfind_app (c : ascii) (s t : string) :
  rfind c (s ++ t)
  = if rfind c t <? 0 then rfind c s else Z.of_nat (String.length s) + rfind c t.
Proof.
  unfold rfind at 1. rewrite rfind_from_app, rfind_from_shift. reflexivity.
Qed.

Lemma rfind_upper_bound (c : ascii) (s : string) : rfind c s < Z.of_nat (String.length s).
Proof.
  induction s as [| a s IH]; [cbn; lia |].
  unfold rfind. cbn [rfind_from]. rewrite rfind_from_shift.
  pose proof (rfind_lower_bound c s) as Hlow.
  cbn [String.length].
  destruct (Z.ltb_spec (rfind c s) 0); [destruct (Ascii.eqb a c) |]; lia.
Qed.

(** The loop of [splitext] finds a character of the file name that is not
    a dot as soon as there is one before the last dot. *)
Lemma has_name_before_dot_true (p : string) (dot k : Z) : forall (fuel : nat) (fi : Z),
  0 <= fi -> fi <= k -> k < dot ->
  String.eqb (str_take 1 (str_drop (Z.to_nat k) p)) "." = false ->
  (Z.to_nat (k - fi) < fuel)%nat ->
  has_name_before_dot fuel p fi dot = true.
Proof.
  induction fuel as [| fuel IH]; intros fi H0 Hk Hdot Hchar Hfuel; [lia |].
  cbn [has_name_before_dot].
  destruct (Z.ltb_spec fi dot); [| lia].
  destruct (String.eqb (str_take 1 (str_drop (Z.to_nat fi) p)) ".") eqn:E; [| reflexivity].
  cbn [negb].
  assert (fi <> k) by (intros ->; congruence).
  apply IH; try lia. exact Hchar.
Qed.

(** [splitext] of a path that ends with [t], when the last dot of [t]
    comes after its last separator and after a character (at index [k])
    that is not a dot: the path is cut at the last dot of [t]. *)
Lemma splitext_append (s t : string) (k : nat) :
  rfind "/" t < Z.of_nat k -> Z.of_nat k < rfind "." t ->
  String.eqb (str_take 1 (str_drop k t)) "." = false ->
  splitext (s ++ t)
  = (s ++ str_take (Z.to_nat (rfind "." t)) t, str_drop (Z.to_nat (rfind "." t)) t).
Proof.
  intros Hsep Hdot Hchar. unfold splitext. rewrite !rfind_app.
  pose proof (rfind_lower_bound "/" t) as Hlow.
  pose proof (rfind_lower_bound "/" s) as Hlows.
  pose proof (rfind_upper_bound "/" s) as Hups.
  destruct (Z.ltb_spec (rfind "." t) 0) as [Hneg | Hpos]; [lia |].
  set (n := Z.of_nat (String.length s)) in *.
  set (sep := if rfind "/" t <? 0 then rfind "/" s else n + rfind "/" t).
  assert (Hsep' : -1 <= sep /\ sep < n + Z.of_nat k)
    by (unfold sep; destruct (Z.ltb_spec (rfind "/" t) 0); lia).
  assert (Hlt : (sep <? n + rfind "." t) = true) by (apply Z.ltb_lt; lia).
  rewrite Hlt.
  rewrite (has_name_before_dot_true (s ++ t) (n + rfind "." t) (n + Z.of_nat k)); try lia.
  - cbn [andb].
    replace (Z.to_nat (n + rfind "." t))
      with (String.length s + Z.to_nat (rfind "." t))%nat by lia.
    now rewrite str_take_app, str_drop_app.
  - replace (Z.to_nat (n + Z.of_nat k)) with (String.length s + k)%nat by lia.
    rewrite str_drop_app. exact Hchar.
Qed.

(** A stem followed by an underscore-led tag and ".png" is split at the
    ".png". *)
Lemma splitext_nobg (s : string) :
  splitext (s ++ "_nobg.png") = (s ++ "_nobg", ".png").
Proof. apply (splitext_append s "_nobg.png" 0); [reflexivity | reflexivity | reflexivity]. Qed.

Lemma splitext_nobg_rmbg (s : string) :
  splitext (s ++ "_nobg_rmbg.png") = (s ++ "_nobg_rmbg", ".png").
Proof.
  apply (splitext_append s "_nobg_rmbg.png" 0); [reflexivity | reflexivity | reflexivity].
Qed.

Lemma append_assoc (a b c : string) : (a ++ b) ++ c = a ++ (b ++ c).
Proof.
  induction a as [| x a IH]; [reflexivity |].
  change (String x ((a ++ b) ++ c) = String x (a ++ (b ++ c))). f_equal. exact IH.
Qed.

(** A path never equals its own stem followed by a tag that does not
    start with a dot. *)
Lemma stem_tag_differs (p tag : string) :
  tag <> "" -> String.prefix "." tag = false -> fst (splitext p) ++ tag <> p.
Proof.
  intros Hne Hdot H.
  destruct (splitext_spec p) as [Hcat Hext].
  rewrite <- Hcat in H at 2. apply append_inv_head in H.
  destruct Hext as [E | [rest E]]; rewrite E in H; [congruence |].
  rewrite H in Hdot. destruct rest; vm_compute in Hdot; discriminate Hdot.
Qed.

End PathMore.

(** ** More on the masks of the V1 script: cut-offs, monotonicity, edges *)

Module MaskFacts.
Import Np ArrayFacts.

(** A property of the samples 0..255 that a computation confirms for each
    of them. *)
Lemma uint8_forall (P : Z -> bool) (p : Z) :
  forallb (fun n : nat => P (Z.of_nat n)) (seq 0 256) = true ->
  0 <= p <= 255 -> P p = true.
Proof.
  intros H Hp. rewrite forallb_forall in H.
  specialize (H (Z.to_nat p)). rewrite Z2Nat.id in H by lia.
  apply H. apply in_seq. lia.
Qed.

(** The order of the samples is the order of their [float64] values. *)
Lemma pixel_to_float_step (p : Z) :
  0 <= p <= 254 ->
  SFleb (Prim2SF (pixel_to_float p)) (Prim2SF (pixel_to_float (p + 1))) = true.
Proof.
  intros Hp.
  pose proof (uint8_forall
                (fun p => (255 <=? p)
                          || SFleb (Prim2SF (pixel_to_float p))
                                   (Prim2SF (pixel_to_float (p + 1)))) p
                ltac:(vm_compute; reflexivity) ltac:(lia)) as H.
  cbv beta in H. apply orb_prop in H as [H | H]; [apply Z.leb_le in H; lia | exact H].
Qed.

(** A sample, as a float, is zero or a positive finite number. *)
Lemma pixel_to_float_shape (p : Z) :
  0 <= p <= 255 ->
  match Prim2SF (pixel_to_float p) with
  | S754_zero false | S754_finite false _ _ => True
  | _ => False
  end.
Proof.
  intros Hp.
  pose proof (uint8_forall
                (fun p => match Prim2SF (pixel_to_float p) with
                          | S754_zero false | S754_finite false _ _ => true
                          | _ => false
                          end) p ltac:(vm_compute; reflexivity) Hp) as H.
  cbv beta in H. destruct (Prim2SF (pixel_to_float p)) as [[] | [] | | [] m e]; try discriminate H; exact I.
Qed.

(** [<=] on floats is transitive through a middle value that is zero or
    positive and finite. *)
Lemma SFleb_trans_nonneg (a b c : spec_float) :
  match b with S754_zero false | S754_finite false _ _ => True | _ => False end ->
  match c with S754_zero false | S754_finite false _ _ => True | _ => False end ->
  SFleb a b = true -> SFleb b c = true -> SFleb a c = true.
Proof.
  destruct b as [[] | [] | | [] mb eb]; try contradiction; intros _;
    destruct c as [[] | [] | | [] mc ec]; try contradiction; intros _.
  - destruct a as [[] | [] | | [] ma ea]; cbn; congruence.
  - destruct a as [[] | [] | | [] ma ea]; cbn; congruence.
  - cbn. discriminate.
  - intros Hab Hbc.
    destruct a as [[] | [] | | [] ma ea]; try (cbn in Hab |- *; congruence).
    apply FloatFacts.SFleb_finite_pos in Hab, Hbc.
    apply FloatFacts.SFleb_finite_pos_intro. lia.
Qed.

Lemma pixel_to_float_mono (p q : Z) :
  0 <= p -> p <= q -> q <= 255 ->
  SFleb (Prim2SF (pixel_to_float p)) (Prim2SF (pixel_to_float q)) = true.
Proof.
  intros Hp Hpq Hq.
  replace q with (p + Z.of_nat (Z.to_nat (q - p))) in * by lia.
  induction (Z.to_nat (q - p)) as [| n IH].
  - rewrite Z.add_0_r.
    pose proof (pixel_to_float_shape p ltac:(lia)) as Hs.
    destruct (Prim2SF (pixel_to_float p)) as [[] | [] | | [] m e]; try contradiction.
    + reflexivity.
    + apply FloatFacts.SFleb_finite_pos_intro. lia.
  - replace (p + Z.of_nat (S n)) with (p + Z.of_nat n + 1) in * by lia.
    apply (SFleb_trans_nonneg _ (Prim2SF (pixel_to_float (p + Z.of_nat n)))).
    + apply pixel_to_float_shape. lia.
    + apply pixel_to_float_shape. lia.
    + apply IH; lia.
    + apply pixel_to_float_step. lia.
Qed.

(** A cut-off reached by a sample is reached by every brighter sample. *)
Lemma cutoff_mono (cutoff : float) (p q : Z) :
  0 <= p -> p <= q -> q <= 255 ->
  PrimFloat.leb cutoff (pixel_to_float p) = true ->
  PrimFloat.leb cutoff (pixel_to_float q) = true.
Proof.
  intros Hp Hpq Hq. rewrite !FloatAxioms.leb_spec. intros H.
  apply (SFleb_trans_nonneg _ (Prim2SF (pixel_to_float p))).
  - apply pixel_to_float_shape. lia.
  - apply pixel_to_float_shape. lia.
  - exact H.
  - now apply pixel_to_float_mono.
Qed.

(** [apply_threshold] is monotone in the mask: of two [uint8] samples of
    the mask, the brighter one never comes out darker, whatever the
    threshold (NaN and out-of-range thresholds included). *)
Theorem apply_threshold_monotone (mask : Image) (t : float)
        (i j i' j' : nat) (p q x y : Z) :
  0 <= p -> p <= q -> q <= 255 ->
  pixel_at (im_px mask) i j = Some p ->
  pixel_at (im_px mask) i' j' = Some q ->
  pixel_at (im_px (V1.apply_threshold mask t)) i j = Some x ->
  pixel_at (im_px (V1.apply_threshold mask t)) i' j' = Some y ->
  x <= y.
Proof.
  intros Hp Hpq Hq Ep Eq. rewrite V1Facts.apply_threshold_px, !pixel_at_map, Ep, Eq.
  cbn [fmap option_fmap option_map].
  destruct (PrimFloat.leb (t * 255) (pixel_to_float p)) eqn:E.
  - rewrite (cutoff_mono _ p q Hp Hpq Hq E). intros [= <-] [= <-]. lia.
  - intros [= <-] [= <-].
    destruct (PrimFloat.leb (t * 255) (pixel_to_float q)); lia.
Qed.

(** On the 2 x 3 example mask at threshold 0.35: the sample 89 (row 0,
    column 1) gives 0 and the brighter sample 200 (row 1, column 1) gives
    255. *)
Lemma apply_threshold_monotone_witness :
  (0 : Z) <= 255.
Proof.
  exact (apply_threshold_monotone Examples.mask23 V1.default_threshold
           0 1 1 1 89 200 0 255
           ltac:(lia) ltac:(lia) ltac:(lia)
           eq_refl eq_refl eq_refl eq_refl).
Defined.

(** The integer cut-offs behind three thresholds.  For a [uint8] sample:
    at threshold 0 it always becomes 255 (the whole mask turns white); at
    the default threshold 0.35 (cut-off 89.25) it becomes 255 exactly from
    90 on; at threshold 1 only the saturated sample 255 stays white. *)
Theorem threshold_cutoffs (mask : Image) (i j : nat) (p : Z) :
  0 <= p <= 255 ->
  pixel_at (im_px mask) i j = Some p ->
  pixel_at (im_px (V1.apply_threshold mask 0)) i j = Some 255 /\
  pixel_at (im_px (V1.apply_threshold mask V1.default_threshold)) i j
  = Some (if 90 <=? p then 255 else 0) /\
  pixel_at (im_px (V1.apply_threshold mask 1)) i j
  = Some (if p =? 255 then 255 else 0).
Proof.
  intros Hp E. rewrite !V1Facts.apply_threshold_px, !pixel_at_map, E.
  cbn [fmap option_fmap option_map].
  pose proof (uint8_forall
    (fun p => PrimFloat.leb (0 * 255) (pixel_to_float p)) p
    ltac:(vm_compute; reflexivity) Hp) as H0.
  pose proof (uint8_forall
    (fun p => Bool.eqb (PrimFloat.leb (V1.default_threshold * 255) (pixel_to_float p))
                       (90 <=? p)) p
    ltac:(vm_compute; reflexivity) Hp) as H35.
  pose proof (uint8_forall
    (fun p => Bool.eqb (PrimFloat.leb (1 * 255) (pixel_to_float p)) (p =? 255)) p
    ltac:(vm_compute; reflexivity) Hp) as H1.
  cbv beta in H0, H35, H1. apply Bool.eqb_prop in H35, H1.
  rewrite H0, H35, H1. auto.
Qed.

(** The sample 89 of the example mask: white at threshold 0, black at the
    default threshold and at threshold 1. *)
Lemma threshold_cutoffs_witness :
  pixel_at (im_px (V1.apply_threshold Examples.mask23 0)) 0 1 = Some 255 /\
  pixel_at (im_px (V1.apply_threshold Examples.mask23 V1.default_threshold)) 0 1 = Some 0 /\
  pixel_at (im_px (V1.apply_threshold Examples.mask23 1)) 0 1 = Some 0.
Proof.
  exact (threshold_cutoffs Examples.mask23 0 1 89 ltac:(lia) eq_refl).
Defined.

(** *** Shapes through the filters *)

Lemma has_shape_lookup {A : Type} (h w : nat) (a : list (list A)) (i : nat) (row : list A) :
  has_shape h w a -> a !! i = Some row -> length row = w.
Proof.
  intros [_ H] Hi. rewrite Forall_forall in H. apply H.
  eapply list_elem_of_lookup_2. exact Hi.
Qed.

Lemma has_shape_nth {A : Type} (h w : nat) (a : list (list A)) (i : nat) :
  has_shape h w a -> (i < h)%nat -> length (nth i a []) = w.
Proof.
  intros [Hh H] Hi. rewrite Forall_forall in H. apply H.
  apply list_elem_of_In. apply nth_In. lia.
Qed.

Lemma has_shape_pixel {A : Type} (h w : nat) (a : list (list A)) (i j : nat) :
  has_shape h w a -> (i < h)%nat -> (j < w)%nat ->
  exists x : A, match a !! i with Some row => row !! j | None => None end = Some x.
Proof.
  intros Ha Hi Hj. destruct Ha as [Hh H].
  destruct (lookup_lt_is_Some_2 a i ltac:(lia)) as [row Hrow]. rewrite Hrow.
  apply lookup_lt_is_Some_2.
  rewrite (has_shape_lookup h w a i row (conj Hh H) Hrow). exact Hj.
Qed.

Lemma has_shape_map {A B : Type} (f : A -> B) (h w : nat) (a : list (list A)) :
  has_shape h w a -> has_shape h w (map (map f) a).
Proof.
  intros [Hh H]. split; [now rewrite length_map |].
  rewrite Forall_forall in H. rewrite Forall_forall. intros row Hrow.
  apply list_elem_of_In, in_map_iff in Hrow as (r & <- & Hr).
  rewrite length_map. apply H, list_elem_of_In, Hr.
Qed.

Lemma Forall_map_seq {A : Type} (P : A -> Prop) (g : nat -> A) (s n : nat) :
  (forall i, (s <= i < s + n)%nat -> P (g i)) -> Forall P (map g (seq s n)).
Proof.
  intros H. rewrite Forall_forall. intros x Hx.
  apply list_elem_of_In, in_map_iff in Hx as (i & <- & Hi).
  apply H. apply in_seq in Hi. exact Hi.
Qed.

Lemma zip_with3_length {A B C D : Type} (f : A -> B -> C -> D)
      (xs : list A) (ys : list B) (zs : list C) (n : nat) :
  length xs = n -> length ys = n -> length zs = n ->
  length (zip_with3 f xs ys zs) = n.
Proof.
  revert ys zs n. induction xs as [| x xs IH]; intros [| y ys] [| z zs] n H1 H2 H3;
    cbn in *; try congruence.
  destruct n as [| n]; [discriminate |]. f_equal. apply IH; congruence.
Qed.

Lemma zip_with_same_length {A B C : Type} (f : A -> B -> C)
      (xs : list A) (ys : list B) (n : nat) :
  length xs = n -> length ys = n -> length (zip_with f xs ys) = n.
Proof.
  revert ys n. induction xs as [| x xs IH]; intros [| y ys] n H1 H2;
    cbn in *; try congruence.
  destruct n as [| n]; [discriminate |]. f_equal. apply IH; congruence.
Qed.

Lemma has_shape_zip_with {A B C : Type} (f : A -> B -> C) (h w : nat)
      (a : list (list A)) (b : list (list B)) :
  has_shape h w a -> has_shape h w b -> has_shape h w (zip_with (zip_with f) a b).
Proof.
  intros [Ha Fa] [Hb Fb]. split; [now apply zip_with_same_length |].
  clear Ha Hb. revert b Fb. induction Fa as [| r a Hr Fa IH]; intros b Fb.
  - constructor.
  - destruct Fb as [| s b Hs Fb]; cbn; constructor.
    + now apply zip_with_same_length.
    + now apply IH.
Qed.

Lemma correlate1d_axis1_shape (cast : Z -> Z) (w0 w1 w2 : Z) (h w : nat) (a : array2) :
  has_shape h w a -> has_shape h w (correlate1d_axis1 cast w0 w1 w2 a).
Proof.
  intros [Hh H]. unfold correlate1d_axis1. split; [now rewrite length_map |].
  rewrite Forall_forall in H. rewrite Forall_forall. intros row Hrow.
  apply list_elem_of_In, in_map_iff in Hrow as (r & <- & Hr).
  unfold correlate1d_line. rewrite length_map, length_seq.
  apply H, list_elem_of_In, Hr.
Qed.

Lemma correlate1d_axis0_shape (cast : Z -> Z) (w0 w1 w2 : Z) (h w : nat) (a : array2) :
  has_shape h w a -> has_shape h w (correlate1d_axis0 cast w0 w1 w2 a).
Proof.
  intros Ha. pose proof Ha as [Hh _]. unfold correlate1d_axis0. rewrite Hh.
  split; [now rewrite length_map, length_seq |].
  apply Forall_map_seq. intros i Hi.
  apply zip_with3_length; apply (has_shape_nth h w a _ Ha);
    try apply reflect_index_lt; lia.
Qed.

Lemma sobel_axis0_shape (cast : Z -> Z) (h w : nat) (a : array2) :
  has_shape h w a -> has_shape h w (sobel_axis0 cast a).
Proof.
  intros Ha. unfold sobel_axis0.
  now apply correlate1d_axis1_shape, correlate1d_axis0_shape.
Qed.

Lemma sobel_axis1_shape (cast : Z -> Z) (h w : nat) (a : array2) :
  has_shape h w a -> has_shape h w (sobel_axis1 cast a).
Proof.
  intros Ha. unfold sobel_axis1.
  now apply correlate1d_axis0_shape, correlate1d_axis1_shape.
Qed.

Lemma edge_magnitude_shape (env : V1.Env) (h w : nat) (a : array2) :
  has_shape h w a -> has_shape h w (V1.edge_magnitude env a).
Proof.
  intros Ha. unfold V1.edge_magnitude, squared_magnitude.
  apply has_shape_map, has_shape_zip_with;
    [now apply sobel_axis0_shape | now apply sobel_axis1_shape].
Qed.

Lemma f16_array_max_nonempty (h w : nat) (a : list (list f16)) :
  has_shape h w a -> (0 < h)%nat -> (0 < w)%nat ->
  exists mx : f16, f16_array_max a = Some mx.
Proof.
  intros [Hh H] Hpos Hw. unfold f16_array_max.
  destruct a as [| row a]; [cbn in Hh; lia |].
  inversion H as [| ? ? Hrow _]; subst.
  destruct row as [| x row]; [cbn in Hw; lia |].
  cbn. eexists. reflexivity.
Qed.

(** The edge image of a non-empty mask exists and has the mask's shape. *)
Lemma edge_image_shape (env : V1.Env) (h w : nat) (a : array2) :
  has_shape h w a -> (0 < h)%nat -> (0 < w)%nat ->
  exists edges : array2, V1.edge_image env a = inr edges /\ has_shape h w edges.
Proof.
  intros Ha Hh Hw. unfold V1.edge_image.
  pose proof (edge_magnitude_shape env h w a Ha) as Hm.
  destruct (f16_array_max_nonempty h w _ Hm Hh Hw) as [mx ->].
  eexists. split; [reflexivity |].
  unfold V1.normalize_edges. now apply has_shape_map, has_shape_map.
Qed.

Lemma hd_length_shape {A : Type} (h w : nat) (a : list (list A)) :
  has_shape h w a -> (0 < h)%nat -> length (hd [] a) = w.
Proof.
  intros [Hh H] Hpos. destruct a as [| row a]; [cbn in Hh; lia |].
  now inversion H.
Qed.

(** Edge enhancement alone ([edge_enhancement] on, [color_aware] off) of a
    non-empty h x w mask never raises, returns a mask of the same
    dimensions, and never darkens a pixel: each sample of the result is
    the maximum of the mask's sample and an edge value. *)
Theorem edge_enhancement_only_brightens (env : V1.Env) (mask : Image) (h w : nat) :
  has_shape h w (im_px mask) -> (0 < h)%nat -> (0 < w)%nat ->
  exists out : Image,
    V1.enhance_mask env mask true false = inr out /\
    im_mode out = L /\ im_size out = (w, h) /\
    has_shape h w (im_px out) /\
    forall (i j : nat) (x : Z), pixel_at (im_px mask) i j = Some x ->
      exists y : Z, pixel_at (im_px out) i j = Some y /\ x <= y.
Proof.
  intros Ha Hh Hw.
  destruct (edge_image_shape env h w (im_px mask) Ha Hh Hw) as (edges & He & Hs).
  unfold V1.enhance_mask, V1.edge_branch, np_array. rewrite He.
  eexists. split; [reflexivity |].
  assert (Hmax : has_shape h w (maximum (im_px mask) edges))
    by (now apply has_shape_zip_with).
  cbn [fromarray im_mode im_size im_px].
  split; [reflexivity |]. split.
  - rewrite (hd_length_shape h w _ Hmax Hh). now destruct Hmax as [-> _].
  - split; [exact Hmax |]. intros i j x Hx.
    assert (Hi : (i < h)%nat /\ (j < w)%nat).
    { unfold pixel_at in Hx. destruct (im_px mask !! i) as [row |] eqn:Er; [| discriminate].
      pose proof (has_shape_lookup h w _ i row Ha Er) as Hl.
      apply lookup_lt_Some in Er, Hx. destruct Ha as [Hlen _]. lia. }
    destruct (has_shape_pixel h w edges i j Hs (proj1 Hi) (proj2 Hi)) as [e Hedge].
    exists (Z.max x e). split; [now apply pixel_at_maximum | lia].
Qed.

(** Edge enhancement of the 2 x 3 example mask after thresholding. *)
Lemma edge_enhancement_only_brightens_witness :
  exists out : Image,
    V1.enhance_mask Examples.env1
      (V1.apply_threshold Examples.mask23 V1.default_threshold) true false = inr out /\
    im_size out = (3%nat, 2%nat).
Proof.
  destruct (edge_enhancement_only_brightens Examples.env1
              (V1.apply_threshold Examples.mask23 V1.default_threshold) 2 3)
    as (out & H & _ & Hsize & _).
  - split; [reflexivity | repeat constructor].
  - lia.
  - lia.
  - exists out. split; [exact H | exact Hsize].
Defined.

(** With both flags on (the defaults), whatever the Gaussian filter
    returns, the post-processed mask is strictly binary: every sample is 0
    or 255, and it is 255 exactly where the smoothed sample exceeds 127. *)
Theorem color_aware_mask_is_binary (env : V1.Env) (mask out : Image) (t : float) :
  V1.postprocess_mask env mask t true true = inr out ->
  im_mode out = L /\
  (forall (i j : nat) (q : Z), pixel_at (im_px out) i j = Some q -> q = 0 \/ q = 255) /\
  exists edges : array2,
    V1.edge_image env (im_px (V1.apply_threshold mask t)) = inr edges /\
    forall (i j : nat),
      pixel_at (im_px out) i j
      = (fun s => if 127 <? s then 255 else 0)
          <$> pixel_at (V1.gaussian_filter env
                          (maximum (im_px (V1.apply_threshold mask t)) edges) 0.5%float) i j.
Proof.
  unfold V1.postprocess_mask, V1.enhance_mask, V1.edge_branch, np_array. cbn [orb].
  destruct (V1.edge_image env (im_px (V1.apply_threshold mask t))) as [e | edges];
    [discriminate |].
  intros [= <-]. cbn [fromarray im_mode im_px].
  assert (E : forall a : array2,
             where_gt_127 a = map (map (fun s => if 127 <? s then 255 else 0)) a).
  { intros a. unfold where_gt_127. apply map_map_ext_in. intros row s _ _.
    destruct (127 <? s); reflexivity. }
  rewrite E. split; [reflexivity |]. split.
  - intros i j q. rewrite pixel_at_map.
    destruct (pixel_at _ i j) as [s |]; cbn [fmap option_fmap option_map]; [| discriminate].
    destruct (127 <? s); intros [= <-]; auto.
  - exists edges. split; [reflexivity |]. intros i j. apply pixel_at_map.
Qed.

(** The example mask post-processed with both flags on. *)
Lemma color_aware_mask_is_binary_witness :
  exists out : Image,
    V1.postprocess_mask Examples.env1 Examples.mask23 V1.default_threshold true true
    = inr out /\
    forall (i j : nat) (q : Z), pixel_at (im_px out) i j = Some q -> q = 0 \/ q = 255.
Proof.
  destruct (V1.postprocess_mask Examples.env1 Examples.mask23 V1.default_threshold
              true true) as [e | out] eqn:E; [vm_compute in E; discriminate E |].
  exists out. split; [reflexivity |].
  exact (proj1 (proj2 (color_aware_mask_is_binary Examples.env1 Examples.mask23 out
                         V1.default_threshold E))).
Defined.

End MaskFacts.

(** ** Runs of the V1 script: what is written, what is left untouched *)

Module V1RunFacts.
Import PyFacts Path V2Facts ExitFacts.

Lemma create_pipeline_same_files (env : V1.Env) :
  preserves same_files (V1.create_pipeline env).
Proof.
  unfold V1.create_pipeline, V1.create_pipeline_body, V1.load_model, V1.load_model_body,
    V1.check_model_exists.
  frame_files.
Qed.

Lemma create_pipeline_same_trace (env : V1.Env) :
  preserves same_trace (V1.create_pipeline env).
Proof.
  unfold V1.create_pipeline, V1.create_pipeline_body, V1.load_model, V1.load_model_body,
    V1.check_model_exists.
  frame_trace.
Qed.

Lemma check_model_exists_same_files (env : V1.Env) :
  preserves same_files (V1.check_model_exists env).
Proof. unfold V1.check_model_exists. frame_files. Qed.

Lemma image_open_same_files (env : V1.Env) (path : string) :
  preserves same_files (V1.image_open env path).
Proof. unfold V1.image_open. frame_files. Qed.

Lemma preprocess_image_same_files (env : V1.Env) (image_path : string) :
  preserves same_files (V1.preprocess_image env image_path).
Proof. unfold V1.preprocess_image, V1.image_open. frame_files. Qed.

(** The one access to the input that [preprocess_image] makes. *)
Lemma preprocess_image_trace (env : V1.Env) (image_path : string)
      (w w' : world) (r : outcome Image) :
  V1.preprocess_image env image_path w = (r, w') ->
  trace w' = (trace w ++ [if is_url image_path then EvHttpGet image_path
                          else EvFileOpen image_path])%list.
Proof.
  unfold V1.preprocess_image. destruct (is_url image_path).
  - unfold bind, log_event, lift, raise, ret.
    destruct (V1.requests_get env image_path) as [e | body]; [now intros [= <- <-] |].
    destruct (V1.decode env body) as [e | img]; now intros [= <- <-].
  - unfold V1.image_open, bind, log_event, get_world, lift, raise, ret.
    cbn [files with_event].
    destruct (files w !! image_path) as [[bytes | fmt im] |]; try (now intros [= <- <-]).
    destruct (V1.decode env bytes) as [e | img]; now intros [= <- <-].
Qed.

(** What a successful [Image.save] does to the world. *)
Lemma image_save_inv (env : V1.Env) (im : Image) (path : string) (w w' : world) :
  V1.image_save env im path w = (Ret tt, w') ->
  exists fmt : string,
    V1.save_format env (lower (snd (splitext path))) = Some fmt /\
    files w' = <[path := Encoded fmt im]> (files w) /\
    trace w' = trace w.
Proof.
  unfold V1.image_save.
  destruct (V1.save_format env (lower (snd (splitext path)))) as [fmt |]; [| discriminate].
  destruct (V1.save_error env path (Encoded fmt im)); [discriminate |].
  intros [= <-]. exists fmt. auto.
Qed.

(** A handler that prints and exits never turns a failure into a result. *)
Lemma try_exit_Ret_inv {A : Type} (body : M A) (msg : exn -> string) (code : Z)
      (w w' : world) (a : A) :
  try_except body (fun e => print (msg e) ;; sys_exit code) w = (Ret a, w') ->
  body w = (Ret a, w').
Proof.
  unfold try_except. destruct (body w) as [[x | e | c] w1]; intros H;
    [exact H | discriminate H | discriminate H].
Qed.

(** The steps of a run of [inference] that returns. *)
Lemma v1_inference_inv (env : V1.Env) (image_path output_path : string) (t : float)
      (edge_enhancement color_aware : bool) (w w' : world) (mask : Image) :
  V1.inference env image_path output_path t edge_enhancement color_aware w
  = (Ret mask, w') ->
  exists (pipe : V1.obj) (w1 : world) (image : Image) (w2 : world) (raw : Image)
         (fmt : string),
    V1.create_pipeline env w = (Ret pipe, w1) /\
    V1.preprocess_image env image_path w1 = (Ret image, w2) /\
    V1.call_pipe env pipe image = inr raw /\
    V1.postprocess_mask env raw t edge_enhancement color_aware = inr mask /\
    V1.save_format env (lower (snd (splitext output_path))) = Some fmt /\
    files w' = <[output_path := Encoded fmt mask]> (files w) /\
    trace w' = (trace w ++ [if is_url image_path then EvHttpGet image_path
                            else EvFileOpen image_path;
                            EvModelRun V1.MODEL_NAME])%list.
Proof.
  unfold V1.inference. intros H.
  apply (try_exit_Ret_inv _ (fun e => "Error during inference: " ++ str_exn e)) in H.
  unfold V1.inference_body in H.
  apply bind_Ret_inv in H as (pipe & w1 & Hpipe & H).
  apply bind_Ret_inv in H as (image & w2 & Himg & H).
  apply bind_Ret_inv in H as ([] & w3 & Hp1 & H).
  apply bind_Ret_inv in H as ([] & w4 & Hev & H).
  apply bind_Ret_inv in H as (raw & w5 & Hraw & H).
  apply lift_Ret_inv in Hraw as [Hraw ->].
  apply bind_Ret_inv in H as (m & w6 & Hpost & H).
  apply lift_Ret_inv in Hpost as [Hpost ->].
  apply bind_Ret_inv in H as ([] & w7 & Hsave & H).
  apply bind_Ret_inv in H as ([] & w8 & Hp2 & H).
  apply bind_Ret_inv in H as ([] & w9 & Hp3 & H).
  injection H as -> ->.
  apply image_save_inv in Hsave as (fmt & Hfmt & Hfiles & Htrace).
  exists pipe, w1, image, w2, raw, fmt.
  split; [exact Hpipe |]. split; [exact Himg |].
  split; [exact Hraw |]. split; [exact Hpost |]. split; [exact Hfmt |].
  pose proof (create_pipeline_same_files env _ _ _ Hpipe) as F1.
  pose proof (create_pipeline_same_trace env _ _ _ Hpipe) as T1.
  pose proof (preprocess_image_same_files env _ _ _ _ Himg) as F2.
  pose proof (preprocess_image_trace env _ _ _ _ Himg) as T2.
  injection Hp1 as <-. injection Hev as <-. injection Hp2 as <-. injection Hp3 as <-.
  unfold same_files, same_trace in *. cbn [files trace with_line with_event] in *.
  split.
  - rewrite Hfiles. cbn [files with_line with_event]. congruence.
  - rewrite Htrace. cbn [trace with_line with_event]. rewrite T2, T1.
    rewrite <- app_assoc. reflexivity.
Qed.

(** A failure behind computations that leave the files alone leaves the
    files alone. *)
Lemma bind_failure_files {A B : Type} (m : M A) (k : A -> M B) :
  preserves same_files m ->
  (forall (a : A) (w : world) (r : outcome B) (w' : world),
      k a w = (r, w') -> (forall b, r <> Ret b) -> files w' = files w) ->
  forall (w : world) (r : outcome B) (w' : world),
    bind m k w = (r, w') -> (forall b, r <> Ret b) -> files w' = files w.
Proof.
  intros Hm Hk w r w'. unfold bind.
  destruct (m w) as [[a | e | c] w1] eqn:E; intros H Hr.
  - rewrite (Hk _ _ _ _ H Hr). exact (Hm _ _ _ E).
  - injection H as <- <-. exact (Hm _ _ _ E).
  - injection H as <- <-. exact (Hm _ _ _ E).
Qed.

Lemma inference_body_failure_files (env : V1.Env) (image_path output_path : string)
      (t : float) (edge_enhancement color_aware : bool) :
  forall (w : world) (r : outcome Image) (w' : world),
    V1.inference_body env image_path output_path t edge_enhancement color_aware w = (r, w') ->
    (forall m, r <> Ret m) -> files w' = files w.
Proof.
  unfold V1.inference_body.
  apply bind_failure_files; [apply create_pipeline_same_files | intros pipe].
  apply bind_failure_files; [apply preprocess_image_same_files | intros image].
  apply bind_failure_files; [apply print_same_files | intros _].
  apply bind_failure_files; [apply log_event_same_files | intros _].
  apply bind_failure_files; [apply (preserves_lift _ same_files_refl) | intros raw].
  apply bind_failure_files; [apply (preserves_lift _ same_files_refl) | intros mask].
  intros w r w'. unfold V1.image_save, bind, raise, write_file, print, ret.
  destruct (V1.save_format env (lower (snd (splitext output_path)))) as [fmt |].
  - destruct (V1.save_error env output_path (Encoded fmt mask));
      intros [= <- <-] Hr; [reflexivity |].
    exfalso. exact (Hr mask eq_refl).
  - intros [= <- <-] _. reflexivity.
Qed.

(** A run of [inference] that does not return a mask ends in
    [sys.exit(1)] and has not touched the files. *)
Lemma inference_failure (env : V1.Env) (image_path output_path : string) (t : float)
      (edge_enhancement color_aware : bool) (w w' : world) (r : outcome Image) :
  V1.inference env image_path output_path t edge_enhancement color_aware w = (r, w') ->
  (forall m, r <> Ret m) ->
  r = SysExit 1 /\ files w' = files w.
Proof.
  unfold V1.inference, try_except.
  destruct (V1.inference_body env image_path output_path t edge_enhancement color_aware w)
    as [[m | e | c] w1] eqn:E.
  - intros [= <- <-] Hr. exfalso. exact (Hr m eq_refl).
  - unfold bind, print, sys_exit. intros [= <- <-] _. split; [reflexivity |].
    cbn [files with_line].
    apply (inference_body_failure_files _ _ _ _ _ _ _ _ _ E). discriminate.
  - intros [= <- <-] _.
    pose proof (inference_body_exits_with_1 _ _ _ _ _ _ _ _ _ E) as ->.
    split; [reflexivity |].
    apply (inference_body_failure_files _ _ _ _ _ _ _ _ _ E). discriminate.
Qed.







(** [--edge_enhancement false] with [--color_aware true] (the default of
    the second flag) can never succeed: on every platform and disk, for
    every input, [main] ends in [sys.exit(1)] and writes nothing. *)
Theorem color_aware_alone_always_exits (env : V1.Env) (args : V1.Args) (w : world) :
  V1.flag_of (V1.arg_edge_enhancement args) = false ->
  V1.flag_of (V1.arg_color_aware args) = true ->
  exists w' : world,
    V1.main env args w = (SysExit 1, w') /\ files w' = files w.
Proof.
  intros He Hc. unfold V1.main. rewrite He, Hc.
  destruct (V1.inference env (V1.input_image args) (V1.arg_output_path args)
              (V1.arg_threshold args) false true w) as [r w'] eqn:E.
  assert (Hr : forall m, r <> Ret m).
  { intros m ->.
    apply (V1Facts.inference_color_only_fails env (V1.input_image args)
             (V1.arg_output_path args) (V1.arg_threshold args) w m).
    now rewrite E. }
  destruct (inference_failure _ _ _ _ _ _ _ _ _ E Hr) as [-> Hfiles].
  exists w'. split; [| exact Hfiles].
  now apply bind_SysExit.
Qed.

(** The run with [--edge_enhancement false] on the example disk. *)
Lemma color_aware_alone_always_exits_witness :
  exists w' : world,
    V1.main Examples.env1 (Examples.args1 "false" "true") Examples.world0
    = (SysExit 1, w') /\
    files w' = files Examples.world0.
Proof.
  exact (color_aware_alone_always_exits Examples.env1 (Examples.args1 "false" "true")
           Examples.world0 eq_refl eq_refl).
Defined.

(** When the standard construction of the pipeline fails with [e] (no
    feature extractor, or [pipeline(...)] raising), [create_pipeline] tries
    in this order: a model with a callable [pipe] is used as the pipeline;
    otherwise the pipeline is built from the model name; if that fails too,
    it is the first error [e], not the second, that is reported before
    [sys.exit(1)]. *)
Theorem create_pipeline_fallback_order
        (env : V1.Env) (w w1 w2 : world) (model : V1.obj) (e : exn) :
  V1.check_model_exists env w = (Ret true, w1) ->
  V1.load_model env w1 = (Ret model, w2) ->
  (V1.feature_extractor_from_pretrained env = inl e \/
   exists fe : V1.obj,
     V1.feature_extractor_from_pretrained env = inr fe /\
     V1.make_pipeline env model fe = inl e) ->
  let w3 := with_line w2 ("Standard pipeline creation failed, trying alternative approach: "
                            ++ str_exn e) in
  V1.create_pipeline env w
  = if V1.has_callable_pipe env model
    then (Ret model, with_line w3 "Using model's built-in pipeline function")
    else match V1.hub_pipeline env with
         | inr p =>
             (Ret p, with_line w3 "Attempting to create pipeline directly from HuggingFace")
         | inl e2 =>
             (SysExit 1,
              with_line
                (with_line
                   (with_line w3 "Attempting to create pipeline directly from HuggingFace")
                   ("Failed to create pipeline with fallback method: " ++ str_exn e2))
                ("Error creating pipeline: " ++ str_exn e))
         end.
Proof.
  intros Hcheck Hload Hstd w3.
  assert (Hs : (do feature_extractor <- lift (V1.feature_extractor_from_pretrained env);
                lift (V1.make_pipeline env model feature_extractor)) w2 = (Raise e, w2)).
  { destruct Hstd as [Hfe | (fe & Hfe & Hmk)]; unfold bind, lift, raise, ret; rewrite Hfe;
      [reflexivity | rewrite Hmk; reflexivity]. }
  unfold V1.create_pipeline, V1.create_pipeline_body.
  unfold try_except at 1.
  rewrite (bind_Ret _ _ _ _ _ Hcheck), (bind_Ret _ _ _ _ _ Hload).
  rewrite (try_except_Raise _ _ _ _ _ Hs).
  unfold bind, print, try_except, lift, raise, ret, sys_exit. fold w3.
  destruct (V1.has_callable_pipe env model); [reflexivity |].
  destruct (V1.hub_pipeline env) as [e2 | p]; reflexivity.
Qed.

(** Without a feature extractor, without a [pipe] on the model and without
    access to the model hub, the first error is the one reported. *)
Lemma create_pipeline_fallback_order_witness :
  exists w' : world,
    V1.create_pipeline (Examples.env1_no_extractor false (inl (LibraryError "offline")))
                       Examples.world0 = (SysExit 1, w') /\
    last (stdout w') = Some "Error creating pipeline: preprocessor_config.json not found".
Proof.
  set (env := Examples.env1_no_extractor false (inl (LibraryError "offline"))).
  set (w1 := snd (V1.check_model_exists env Examples.world0)).
  set (w2 := snd (V1.load_model env w1)).
  assert (Hcheck : V1.check_model_exists env Examples.world0 = (Ret true, w1))
    by (vm_compute; reflexivity).
  assert (Hload : V1.load_model env w1 = (Ret "model", w2)) by (vm_compute; reflexivity).
  pose proof (create_pipeline_fallback_order env Examples.world0 w1 w2 "model"
                (LibraryError "preprocessor_config.json not found")
                Hcheck Hload (or_introl eq_refl)) as H.
  cbv zeta in H. change (V1.has_callable_pipe env "model") with false in H.
  change (V1.hub_pipeline env) with (@inl exn V1.obj (LibraryError "offline")) in H.
  cbv iota in H.
  eexists. split; [exact H | reflexivity].
Defined.

End V1RunFacts.

(** ** Runs of the V2 script: outside calls, files touched, default paths *)

Module V2RunFacts.
Import PyFacts Path PathFacts PathMore V2Facts.

(** *** The outside calls of a computation *)









(** *** The calls of [process_image] *)










(** *** The files [process_image] touches *)

Lemma same_files_outside_refl (ps : list string) (w : world) : same_files_outside ps w w.
Proof. intros p _. reflexivity. Qed.

Lemma same_files_outside_trans (ps : list string) (w1 w2 w3 : world) :
  same_files_outside ps w1 w2 -> same_files_outside ps w2 w3 ->
  same_files_outside ps w1 w3.
Proof. intros H1 H2 p Hp. rewrite (H2 p Hp). exact (H1 p Hp). Qed.

Lemma outside_of_same_files {A : Type} (ps : list string) (m : M A) :
  preserves same_files m -> preserves (same_files_outside ps) m.
Proof.
  intros H w w' r E p _. pose proof (H _ _ _ E) as F. unfold same_files in F.
  now rewrite F.
Qed.

Lemma image_save_png_outside (env : V2.Env) (im : Image) (path : string)
      (ps : list string) :
  In path ps -> preserves (same_files_outside ps) (V2.image_save_png env im path).
Proof.
  intros Hin w w' r. unfold V2.image_save_png.
  destruct (V2.save_error env path (Encoded "PNG" im)).
  - intros [= <- <-]. apply same_files_outside_refl.
  - intros [= <- <-] p Hp. cbn [files]. apply lookup_insert_ne. congruence.
Qed.

Lemma save_outputs_outside (env : V2.Env) (output mask : Image)
      (output_path : option string) :
  preserves (same_files_outside (V2.output_paths output_path))
            (V2.save_outputs env output mask output_path).
Proof.
  unfold V2.save_outputs, V2.output_paths.
  destruct output_path as [[| c s] |]; cbn [is_empty negb];
    try apply (preserves_ret _ (same_files_outside_refl _)).
  frame (same_files_outside [String c s; V2.mask_path_of (String c s)])
        (same_files_outside_refl [String c s; V2.mask_path_of (String c s)])
        (same_files_outside_trans [String c s; V2.mask_path_of (String c s)])
        ltac:(first [ apply image_save_png_outside; cbn; tauto
                    | apply outside_of_same_files;
                      first [ apply print_same_files | apply set_dirs_same_files ] ]).
Qed.

Lemma process_image_outside (env : V2.Env) (image_path : V2.image_arg)
      (output_path model_path : option string) :
  preserves (same_files_outside (V2.output_paths output_path))
            (V2.process_image env image_path output_path model_path).
Proof.
  unfold V2.process_image, V2.process_image_body.
  frame (same_files_outside (V2.output_paths output_path))
        (same_files_outside_refl (V2.output_paths output_path))
        (same_files_outside_trans (V2.output_paths output_path))
        ltac:(first [ apply save_outputs_outside
                    | apply outside_of_same_files;
                      first [ apply RMBG2_init_same_files | apply load_input_same_files
                            | apply predict_same_files | apply print_same_files
                            | apply log_event_same_files
                            | apply set_dirs_same_files ] ]).
Qed.

(** Whatever the outcome of [process_image], every file other than the
    output path and the mask path next to it is left as it was; and with no
    output path (none given, or the empty string) nothing at all is
    written. *)
Theorem process_image_touches_only_its_outputs
        (env : V2.Env) (image_path : V2.image_arg) (output_path model_path : option string)
        (w w' : world) (r : outcome (Image * Image)) :
  V2.process_image env image_path output_path model_path w = (r, w') ->
  (forall (out p : string), output_path = Some out ->
      p <> out -> p <> V2.mask_path_of out -> files w' !! p = files w !! p) /\
  (V2.truthy output_path = false -> files w' = files w).
Proof.
  intros H. pose proof (process_image_outside env image_path output_path model_path _ _ _ H)
    as Hout.
  split.
  - intros out p -> Hp Hm. apply Hout. unfold V2.output_paths.
    destruct (is_empty out); cbn; [tauto | intros [E | [E | []]]; congruence].
  - intros Ht. apply map_eq. intros p. apply Hout.
    unfold V2.output_paths. destruct output_path as [[| c s] |]; cbn in *;
      [tauto | discriminate | tauto].
Qed.

(** On the example disk the photograph is still there after the run, and
    the same call without an output path leaves the disk as it was. *)
Lemma process_image_touches_only_its_outputs_witness :
  files (snd Examples.run2) !! "in.jpg" = Some (Raw "jpeg bytes") /\
  files (snd (V2.process_image Examples.env2 (V2.PathArg "in.jpg") None None
                               Examples.world0)) = files Examples.world0.
Proof.
  split.
  - rewrite (proj1 (process_image_touches_only_its_outputs Examples.env2
                      (V2.PathArg "in.jpg") (Some "out/res.png") None Examples.world0
                      (snd Examples.run2) (fst Examples.run2) (surjective_pairing _))
                   "out/res.png" "in.jpg" eq_refl)
      by (vm_compute; discriminate).
    reflexivity.
  - exact (proj2 (process_image_touches_only_its_outputs Examples.env2
                    (V2.PathArg "in.jpg") None None Examples.world0 _ _
                    (surjective_pairing _)) eq_refl).
Defined.

(** *** The default output path of [main] *)

(** Without [--output] (or with an empty one), [main] writes to the input
    path with its extension replaced by "_nobg.png", and the mask goes to
    the same stem with "_nobg_mask.png"; neither path is the input path,
    so the script never overwrites its input.  (For a URL input the paths
    are made from the URL.) *)
Theorem default_output_spares_the_input (args : V2.Args) :
  V2.truthy (V2.arg_output args) = false ->
  let stem := fst (splitext (V2.arg_input args)) in
  V2.output_of_args args = Some (stem ++ "_nobg.png") /\
  V2.mask_path_of (stem ++ "_nobg.png") = stem ++ "_nobg_mask.png" /\
  stem ++ "_nobg.png" <> V2.arg_input args /\
  stem ++ "_nobg_mask.png" <> V2.arg_input args.
Proof.
  intros Ht stem. unfold V2.output_of_args. rewrite Ht. cbn [negb].
  split; [reflexivity |]. split.
  - unfold V2.mask_path_of. rewrite splitext_nobg. cbn [fst].
    now rewrite append_assoc.
  - split; apply stem_tag_differs; (discriminate || reflexivity).
Qed.

(** The default paths for a local photograph and for a URL. *)
Lemma default_output_spares_the_input_witness :
  V2.output_of_args (Examples.args2 "photos/cat.jpg") = Some "photos/cat_nobg.png" /\
  V2.mask_path_of "photos/cat_nobg.png" = "photos/cat_nobg_mask.png" /\
  V2.output_of_args (Examples.args2 "https://example.com/cat.jpg")
  = Some "https://example.com/cat_nobg.png".
Proof.
  pose proof (default_output_spares_the_input (Examples.args2 "photos/cat.jpg") eq_refl)
    as (H1 & H2 & _).
  pose proof (default_output_spares_the_input
                (Examples.args2 "https://example.com/cat.jpg") eq_refl) as (H3 & _).
  split; [exact H1 | split; [exact H2 | exact H3]].
Defined.

(** *** An HTTP error status *)

(** For a URL input answered with a status from 400 to 599,
    [process_image] raises the error of [raise_for_status]: the body is not
    decoded, the model is not run, no file is written, and the error is
    printed twice, by [download_image] and by [process_image]. *)
Theorem http_error_status_stops_the_run
        (env : V2.Env) (url : string) (output_path model_path : option string)
        (w w1 : world) (model : V2.RMBG2) (resp : V2.Response) :
  is_url url = true ->
  V2.RMBG2_init env model_path w = (Ret model, w1) ->
  V2.requests_get env url 10 = inr resp ->
  400 <= V2.status_code resp < 600 ->
  exists e : exn,
    V2.raise_for_status resp = inl e /\
    V2.process_image env (V2.PathArg url) output_path model_path w
    = (Raise e,
       with_line (with_line (with_event w1 (EvHttpGet url))
                            ("Error downloading image: " ++ str_exn e))
                 ("Error processing image: " ++ str_exn e)).
Proof.
  intros Hurl Hinit Hget Hstatus.
  assert (Hs : V2.raise_for_status resp
               = inl (HTTPError ("HTTP error " ++ pretty (V2.status_code resp)))).
  { unfold V2.raise_for_status.
    destruct (Z.leb_spec 400 (V2.status_code resp)); [| lia].
    destruct (Z.ltb_spec (V2.status_code resp) 600); [reflexivity | lia]. }
  eexists. split; [exact Hs |].
  unfold V2.process_image, V2.process_image_body.
  unfold try_except at 1. rewrite (bind_Ret _ _ _ _ _ Hinit).
  unfold V2.load_input. rewrite Hurl. unfold V2.download_image. rewrite Hurl.
  unfold bind, try_except, log_event, lift, raise, ret, print.
  rewrite Hget, Hs. reflexivity.
Qed.

(** The platform of the examples answering 404. *)
Lemma http_error_status_stops_the_run_witness :
  exists (e : exn) (w' : world),
    V2.process_image
      {| V2.script_dir := V2.script_dir Examples.env2;
         V2.available_providers_text := V2.available_providers_text Examples.env2;
         V2.ort_inference_session := V2.ort_inference_session Examples.env2;
         V2.ort_run := V2.ort_run Examples.env2;
         V2.requests_get := fun _ _ =>
           inr {| V2.status_code := 404; V2.resp_content := "Not Found" |};
         V2.decode := V2.decode Examples.env2;
         V2.px_new := V2.px_new Examples.env2;
         V2.px_paste := V2.px_paste Examples.env2;
         V2.px_band := V2.px_band Examples.env2;
         V2.px_convert := V2.px_convert Examples.env2;
         V2.px_resample := V2.px_resample Examples.env2;
         V2.tensor_of_image := V2.tensor_of_image Examples.env2;
         V2.px_of_tensor := V2.px_of_tensor Examples.env2;
         V2.makedirs := V2.makedirs Examples.env2;
         V2.save_error := V2.save_error Examples.env2;
         V2.inference_time_text := V2.inference_time_text Examples.env2 |}
      (V2.PathArg "https://example.com/cat.jpg") None None Examples.world0
    = (Raise e, w') /\
    trace w' = [EvHttpGet "https://example.com/cat.jpg"] /\
    files w' = files Examples.world0.
Proof.
  match goal with
  | |- exists e w', V2.process_image ?env _ _ _ _ = _ /\ _ =>
      destruct (http_error_status_stops_the_run env "https://example.com/cat.jpg"
                  None None Examples.world0
                  (snd (V2.RMBG2_init env None Examples.world0))
                  {| V2.model_path := "/app/python/models/model_q4f16.onnx";
                     V2.providers := ["CPUExecutionProvider"];
                     V2.ort_session := Examples.session2;
                     V2.input_name := "pixel_values";
                     V2.output_name := "alphas";
                     V2.input_shape := "[1, 3, 1024, 1024]" |}
                  {| V2.status_code := 404; V2.resp_content := "Not Found" |}
                  eq_refl ltac:(vm_compute; reflexivity) eq_refl ltac:(cbn; lia))
        as (e & _ & H)
  end.
  exists e. eexists. split; [exact H | split; reflexivity].
Defined.

End V2RunFacts.

(** ** [test_rmbg.py]: the net effect of [remove_background] *)

Module TestV1Facts.
Import PyFacts Path PathFacts PathMore V2Facts ExitFacts V1RunFacts.

(** What a successful [os.remove] does to the disk. *)
Lemma os_remove_inv (env : TestV1.Env) (path : string) (w w' : world) :
  TestV1.os_remove env path w = (Ret tt, w') ->
  files w' = delete path (files w).
Proof.
  unfold TestV1.os_remove, bind, get_world.
  destruct (files w !! path); [| discriminate].
  destruct (TestV1.remove_error env path); [discriminate |].
  now intros [= <-].
Qed.

Lemma putalpha_spec (env : TestV1.Env) (im alpha out : Image) :
  TestV1.putalpha env im alpha = inr out ->
  im_mode out = im_mode im /\ im_size out = im_size im.
Proof.
  unfold TestV1.putalpha.
  destruct (im_mode alpha); try discriminate;
    (destruct (TestV1.size_eqb (im_size im) (im_size alpha)); [| discriminate]);
    intros [= <-]; split; reflexivity.
Qed.

(** The mask path of [remove_background] is the one of the V2 script. *)
Lemma test_mask_path_differs (output_path : string) :
  fst (splitext output_path) ++ "_mask.png" <> output_path.
Proof. exact (mask_path_differs output_path). Qed.

(** When [remove_background] returns, the disk differs from the disk
    before the call in two ways only: the output path holds the result, an
    RGBA image of the size of the image opened at the input path (once the
    mask has been written), in the format of the output's extension; and
    nothing is left at the path of the temporary mask (the output path with
    its extension replaced by "_mask.png"), also when a file was there
    before the call. *)
Theorem remove_background_net_effect
        (env : TestV1.Env) (env1 : V1.Env) (input_path output_path : string) (t : float)
        (edge_enhancement color_aware : bool) (w w' : world) :
  TestV1.remove_background env env1 input_path output_path t edge_enhancement color_aware w
  = (Ret tt, w') ->
  let mask_path := fst (splitext output_path) ++ "_mask.png" in
  exists (fmt : string) (original out : Image) (w1 w2 : world),
    V1.save_format env1 (lower (snd (splitext output_path))) = Some fmt /\
    (exists c : content, files w1 = <[mask_path := c]> (files w)) /\
    V1.image_open env1 input_path w1 = (Ret original, w2) /\
    im_mode out = RGBA /\ im_size out = im_size original /\
    files w' = <[output_path := Encoded fmt out]> (delete mask_path (files w)) /\
    mask_path <> output_path /\
    files w' !! mask_path = None.
Proof.
  intros H mask_path. unfold TestV1.remove_background in H.
  apply (try_exit_Ret_inv _ (fun e => "Error removing background: " ++ str_exn e)) in H.
  unfold TestV1.remove_background_body in H. fold mask_path in H.
  apply bind_Ret_inv in H as (b & wa & Hcheck & H).
  apply bind_Ret_inv in H as ([] & wb & Hp1 & H).
  apply bind_Ret_inv in H as (m & wc & Hinf & H).
  apply bind_Ret_inv in H as (original & wd & Hopen1 & H).
  apply bind_Ret_inv in H as (mask0 & we & Hopen2 & H).
  apply bind_Ret_inv in H as (mask & wf & Hresize & H).
  apply bind_Ret_inv in H as (out & wg & Hput & H).
  apply lift_Ret_inv in Hput as [Hput ->].
  apply bind_Ret_inv in H as ([] & wh & Hsave & H).
  apply bind_Ret_inv in H as ([] & wi & Hp2 & H).
  apply bind_Ret_inv in H as ([] & wj & Hrm & H).
  assert (Hwf : files wf = files we).
  { destruct (negb _) in Hresize.
    - apply lift_Ret_inv in Hresize as [_ ->]. reflexivity.
    - now injection Hresize as _ <-. }
  apply check_model_exists_same_files in Hcheck.
  apply print_same_files in Hp1, Hp2, H.
  apply v1_inference_inv in Hinf
    as (_ & _ & _ & _ & _ & fmt1 & _ & _ & _ & _ & _ & Hfinf & _).
  pose proof (image_open_same_files _ _ _ _ _ Hopen1) as Fo1.
  apply image_open_same_files in Hopen2.
  apply image_save_inv in Hsave as (fmt & Hfmt & Hfsave & _).
  apply os_remove_inv in Hrm.
  apply putalpha_spec in Hput as [Hmode Hsize]. cbn [TestV1.convert im_mode im_size] in Hmode, Hsize.
  unfold same_files in *.
  assert (Hne : mask_path <> output_path) by apply test_mask_path_differs.
  assert (Hw1 : files wc = <[mask_path := Encoded fmt1 m]> (files w))
    by (rewrite Hfinf, Hp1, Hcheck; reflexivity).
  assert (Hfiles : files w' = <[output_path := Encoded fmt out]> (delete mask_path (files w))).
  { rewrite H, Hrm, Hp2, Hfsave, Hwf, Hopen2, Fo1, Hfinf, Hp1, Hcheck.
    rewrite delete_insert_ne by exact Hne. now rewrite delete_insert_eq. }
  exists fmt, original, out, wc, wd.
  split; [exact Hfmt |]. split; [eexists; exact Hw1 |]. split; [exact Hopen1 |].
  split; [exact Hmode |]. split; [exact Hsize |].
  split; [exact Hfiles |]. split; [exact Hne |].
  rewrite Hfiles, lookup_insert_ne by congruence. apply lookup_delete_eq.
Qed.

(** The test script run on the example disk, writing [out.png]: the result
    is there, [out_mask.png] is not, and the photograph is untouched. *)
Lemma remove_background_net_effect_witness :
  exists (w' : world) (out : Image),
    TestV1.remove_background Examples.env_t1 Examples.env1 "in.jpg" "out.png"
      V1.default_threshold true true Examples.world0 = (Ret tt, w') /\
    files w' = <["out.png" := Encoded "PNG" out]> (delete "out_mask.png" (files Examples.world0)) /\
    im_mode out = RGBA /\
    files w' !! "out_mask.png" = None.
Proof.
  destruct (TestV1.remove_background Examples.env_t1 Examples.env1 "in.jpg" "out.png"
              V1.default_threshold true true Examples.world0) as [[[] | e | c] w'] eqn:E;
    [| exfalso; vm_compute in E; discriminate E
     | exfalso; vm_compute in E; discriminate E].
  destruct (remove_background_net_effect _ _ _ _ _ _ _ _ _ E)
    as (fmt & original & out & w1 & w2 & Hfmt & _ & _ & Hmode & _ & Hfiles & _ & Hnone).
  assert (fmt = "PNG") by (vm_compute in Hfmt; congruence). subst fmt.
  exists w', out. split; [reflexivity |].
  split; [exact Hfiles | split; [exact Hmode | exact Hnone]].
Defined.




(** Without [--output], [main] of the test script writes to the input path
    with its extension replaced by "_nobg_rmbg.png" and uses the same stem
    with "_nobg_rmbg_mask.png" for the temporary mask; neither is the input
    path, so the input is neither overwritten nor removed. *)
Theorem test_default_paths_spare_the_input (args : TestV1.Args) :
  TestV1.arg_output args = None ->
  let stem := fst (splitext (TestV1.arg_input args)) in
  TestV1.output_of_args args = stem ++ "_nobg_rmbg.png" /\
  fst (splitext (TestV1.output_of_args args)) ++ "_mask.png"
  = stem ++ "_nobg_rmbg_mask.png" /\
  stem ++ "_nobg_rmbg.png" <> TestV1.arg_input args /\
  stem ++ "_nobg_rmbg_mask.png" <> TestV1.arg_input args.
Proof.
  intros Hnone stem. unfold TestV1.output_of_args. rewrite Hnone. fold stem.
  split; [reflexivity |]. split.
  - rewrite splitext_nobg_rmbg. cbn [fst]. now rewrite append_assoc.
  - split; apply stem_tag_differs; (discriminate || reflexivity).
Qed.

(** The default paths for [in.jpg]. *)
Lemma test_default_paths_spare_the_input_witness :
  TestV1.output_of_args Examples.args_t1 = "in_nobg_rmbg.png" /\
  fst (splitext (TestV1.output_of_args Examples.args_t1)) ++ "_mask.png"
  = "in_nobg_rmbg_mask.png".
Proof.
  pose proof (test_default_paths_spare_the_input Examples.args_t1 eq_refl) as (H1 & H2 & _).
  split; [exact H1 | exact H2].
Defined.

End TestV1Facts.
